(** * Swasth Khet: the carbon-footprint service

    A shallow embedding of [CarbonFootprintService] (the service module
    required by [frontend/backend/routes/carbon.js] as
    [../services/carbonService]) and the properties of its six static
    methods.

    Numbers.  A JavaScript number is an IEEE-754 double.  The development
    has two readings of the arithmetic.  In [JS] a number is an exact
    rational or [NaN], as in the data model of the service, which is
    stated over the reals: it carries the properties that do not depend on
    how a result is rounded (comparisons, zeros, small integers, the shape
    and the order of lists, bounds with a margin).  In [Double] a number is
    a binary64 value and every operation rounds to the nearest double: it
    carries the values of the two footprints, of the reduction and of the
    carbon credit, where [Math.round] can fall on either side of a tie.
    [undefined] is kept apart from numbers, because the service reads
    optional fields and misses table keys. *)

From Stdlib Require Import QArith Qround Qminmax Qabs ZArith List String Bool Lia Lqa Permutation Sorted.
From Stdlib Require Import SpecFloat.
Import ListNotations.

Local Open Scope Q_scope.

(** ** JavaScript numbers and the few operators the service uses *)
Module JS.

(** A number read as a real: a rational, or [NaN].  Sums, products and
    quotients are exact here; the rounded arithmetic of the service is in
    [Double] below. *)
Inductive num : Type :=
| Fin (q : Q)
| NaN.

(** The value of a property that may be missing: [None] is [undefined]. *)
Definition val : Type := option num.

Definition undefined : val := None.

(** Reading an optional numeric field of a request body. *)
Definition field (x : option Q) : val := option_map Fin x.

(** [ToNumber]: [undefined] becomes [NaN]. *)
Definition ToNumber (v : val) : num :=
  match v with
  | Some n => n
  | None => NaN
  end.

Definition add (a b : num) : num :=
  match a, b with
  | Fin x, Fin y => Fin (x + y)
  | _, _ => NaN
  end.

Definition sub (a b : num) : num :=
  match a, b with
  | Fin x, Fin y => Fin (x - y)
  | _, _ => NaN
  end.

Definition mul (a b : num) : num :=
  match a, b with
  | Fin x, Fin y => Fin (x * y)
  | _, _ => NaN
  end.

(** Division.  With a zero divisor JavaScript yields an infinity or [NaN];
    the model has no infinities and answers [NaN] there.  The service
    never divides by zero: its only divisions are by the literals [100]
    and [1000] and by a baseline that was just tested against [0]. *)
Definition div (a b : num) : num :=
  match a, b with
  | Fin x, Fin y => if Qeq_bool y 0 then NaN else Fin (x / y)
  | _, _ => NaN
  end.

(** [Math.round]: the nearest integer, a tie going up. *)
Definition round_half_up (x : Q) : Z := Qfloor (x + (1 # 2)).

Definition Math_round (a : num) : num :=
  match a with
  | Fin x => Fin (inject_Z (round_half_up x))
  | NaN => NaN
  end.

Definition Math_max (a b : num) : num :=
  match a, b with
  | Fin x, Fin y => Fin (if Qle_bool x y then y else x)
  | _, _ => NaN
  end.

Definition Math_min (a b : num) : num :=
  match a, b with
  | Fin x, Fin y => Fin (if Qle_bool x y then x else y)
  | _, _ => NaN
  end.

(** Truthiness of a number, of a possibly missing number, of a possibly
    missing string. *)
Definition truthy_num (a : num) : bool :=
  match a with
  | Fin x => negb (Qeq_bool x 0)
  | NaN => false
  end.

Definition truthy (v : val) : bool :=
  match v with
  | Some n => truthy_num n
  | None => false
  end.

Definition truthy_str (s : option string) : bool :=
  match s with
  | Some x => negb (String.eqb x EmptyString)
  | None => false
  end.

(** [v || d] for a possibly missing number [v] and a number [d]. *)
Definition or_else (v : val) (d : num) : num :=
  if truthy v then ToNumber v else d.

(** [a > b], [a >= b] on numbers: false as soon as one side is [NaN]. *)
Definition gt (a b : num) : bool :=
  match a, b with
  | Fin x, Fin y => negb (Qle_bool x y)
  | _, _ => false
  end.

Definition ge (a b : num) : bool :=
  match a, b with
  | Fin x, Fin y => Qle_bool y x
  | _, _ => false
  end.

(** [v === n] for a possibly missing number [v]: [undefined] is not a
    number, [NaN] equals nothing. *)
Definition strict_eq (v : val) (n : num) : bool :=
  match v, n with
  | Some (Fin x), Fin y => Qeq_bool x y
  | _, _ => false
  end.

(** [s === lit] for a possibly missing string. *)
Definition str_eq (s : option string) (lit : string) : bool :=
  match s with
  | Some x => String.eqb x lit
  | None => false
  end.

(** Own-property lookup in an object literal used as a table.  The
    properties inherited from [Object.prototype] are not modelled: no key
    that a validated request makes the service look up names one. *)
Fixpoint lookup (table : list (string * Q)) (key : string) : val :=
  match table with
  | [] => undefined
  | (k, v) :: rest => if String.eqb k key then Some (Fin v) else lookup rest key
  end.

(** [Array.prototype.sort(comparefn)].  ECMAScript (2019 and later)
    requires the sort to be stable; it is modelled by the stable
    insertion sort ([sorted_stable_unique] below: under a comparator that
    subtracts keys every stable sort returns the same array).
    [comparefn a b > 0] means that [a] goes after [b]. *)
Fixpoint insert {A : Type} (comparefn : A -> A -> Z) (x : A) (l : list A) : list A :=
  match l with
  | [] => [x]
  | y :: rest =>
      if (0 <? comparefn x y)%Z then y :: insert comparefn x rest else x :: l
  end.

Definition sort {A : Type} (comparefn : A -> A -> Z) (l : list A) : list A :=
  fold_right (insert comparefn) [] l.

End JS.

Declare Scope js_scope.
Delimit Scope js_scope with js.
Infix "+" := JS.add : js_scope.
Infix "-" := JS.sub : js_scope.
Infix "*" := JS.mul : js_scope.
Infix "/" := JS.div : js_scope.
Infix "||" := JS.or_else : js_scope.

(** [n ≈ q] in ASCII: the number [n] is finite and its value is [q]. *)
Definition is_value (n : JS.num) (q : Q) : Prop :=
  match n with
  | JS.Fin p => p == q
  | JS.NaN => False
  end.

(** ** The service *)
Module CarbonFootprintService.
Import JS.

(** The request body, as the route's schema types it: the area is
    required, everything else is optional.  The service reads the area as
    [farmData.area] (the route builds its argument with that key); the
    schema and the data model call the same quantity [areaHectares]. *)
Record FertilizerUsage : Type := {
  fu_synthetic : option Q;
  fu_organic : option Q
}.

Record PesticideUsage : Type := {
  pu_chemical : option Q;
  pu_organic : option Q
}.

Record FuelUsage : Type := {
  diesel : option Q;
  petrol : option Q;
  electricity : option Q
}.

Record FarmData : Type := {
  area : Q;
  fertilizerUsage : option FertilizerUsage;
  pesticideUsage : option PesticideUsage;
  fuelUsage : option FuelUsage;
  irrigationType : option string;
  irrigationHours : option Q;
  transportMethod : option string;
  conservationAgriculture : option bool;
  mulching : option bool;
  cropDiversity : option Q
}.

(** [farmData.fertilizerUsage?.synthetic] and its siblings. *)
Definition fertilizer_synthetic (farmData : FarmData) : val :=
  match fertilizerUsage farmData with
  | Some u => field (fu_synthetic u)
  | None => undefined
  end.

Definition fertilizer_organic (farmData : FarmData) : val :=
  match fertilizerUsage farmData with
  | Some u => field (fu_organic u)
  | None => undefined
  end.

Definition pesticide_chemical (farmData : FarmData) : val :=
  match pesticideUsage farmData with
  | Some u => field (pu_chemical u)
  | None => undefined
  end.

Definition pesticide_organic (farmData : FarmData) : val :=
  match pesticideUsage farmData with
  | Some u => field (pu_organic u)
  | None => undefined
  end.

(** Emission factors (kg CO2 per unit). *)
Definition emissionFactors : list (string * Q) :=
  [ ("synthetic_fertilizer"%string, 45 # 10);
    ("organic_fertilizer"%string, 8 # 10);
    ("urea"%string, 32 # 10);
    ("dap"%string, 28 # 10);
    ("potash"%string, 12 # 10);
    ("chemical_pesticide"%string, 25 # 10);
    ("neem_oil"%string, 3 # 10);
    ("organic_pesticide"%string, 4 # 10);
    ("diesel"%string, 268 # 100);
    ("petrol"%string, 231 # 100);
    ("electricity"%string, 95 # 100);
    ("flood_irrigation"%string, 5 # 10);
    ("drip_irrigation"%string, 15 # 100);
    ("sprinkler_irrigation"%string, 25 # 100);
    ("manual_transport"%string, 0);
    ("bullock_cart"%string, 1 # 10);
    ("tractor"%string, 8 # 10);
    ("truck"%string, 6 # 10) ].

(** [this.emissionFactors[key]], and the same read used as a number. *)
Definition factor (key : string) : val := lookup emissionFactors key.

Definition factor_num (key : string) : num := ToNumber (factor key).

(** [Math.round(x * 100) / 100]. *)
Definition round_cents (x : num) : num :=
  (Math_round (x * Fin 100) / Fin 100)%js.

(** Calculate baseline carbon footprint (business as usual). *)
Definition calculateBaselineFootprint (farmData : FarmData) : num :=
  let totalFootprint := Fin 0 in
  (* Fertilizer emissions *)
  let totalFootprint :=
    match fertilizerUsage farmData with
    | Some u =>
        let syntheticFertilizer := (field (fu_synthetic u) || Fin 0)%js in
        (totalFootprint + syntheticFertilizer * factor_num "synthetic_fertilizer")%js
    | None => totalFootprint
    end in
  (* Pesticide emissions *)
  let totalFootprint :=
    match pesticideUsage farmData with
    | Some u =>
        let chemicalPesticide := (field (pu_chemical u) || Fin 0)%js in
        (totalFootprint + chemicalPesticide * factor_num "chemical_pesticide")%js
    | None => totalFootprint
    end in
  (* Fuel emissions *)
  let totalFootprint :=
    match fuelUsage farmData with
    | Some u =>
        let diesel := (field (diesel u) || Fin 0)%js in
        (totalFootprint + diesel * factor_num "diesel")%js
    | None => totalFootprint
    end in
  (* Irrigation emissions *)
  let totalFootprint :=
    if truthy (field (irrigationHours farmData)) && truthy_str (irrigationType farmData)
    then
      let emissionFactor :=
        (match irrigationType farmData with
         | Some t => factor t
         | None => undefined
         end || Fin (5 # 10))%js in
      (totalFootprint
       + ToNumber (field (irrigationHours farmData)) * Fin (area farmData) * emissionFactor)%js
    else totalFootprint in
  round_cents totalFootprint.

(** Calculate carbon footprint with eco-friendly practices. *)
Definition calculateEcofriendlyFootprint (farmData : FarmData) : num :=
  let totalFootprint := Fin 0 in
  (* Organic fertilizer *)
  let totalFootprint :=
    match fertilizerUsage farmData with
    | Some u =>
        let organicFertilizer := (field (fu_organic u) || Fin 0)%js in
        (totalFootprint + organicFertilizer * factor_num "organic_fertilizer")%js
    | None => totalFootprint
    end in
  (* Organic pesticide *)
  let totalFootprint :=
    match pesticideUsage farmData with
    | Some u =>
        let organicPesticide := (field (pu_organic u) || Fin 0)%js in
        (totalFootprint + organicPesticide * factor_num "organic_pesticide")%js
    | None => totalFootprint
    end in
  (* Drip irrigation (efficient) *)
  let totalFootprint :=
    if truthy (field (irrigationHours farmData)) && str_eq (irrigationType farmData) "drip"
    then
      (totalFootprint
       + ToNumber (field (irrigationHours farmData)) * Fin (area farmData)
         * factor_num "drip_irrigation")%js
    else totalFootprint in
  (* Manual transport *)
  let totalFootprint :=
    if str_eq (transportMethod farmData) "manual"
    then (totalFootprint + Fin 0)%js
    else totalFootprint in
  round_cents totalFootprint.

(** Calculate carbon reduction percentage. *)
Definition calculateCarbonReduction (baselineFootprint ecofriendlyFootprint : num) : num :=
  if strict_eq (Some baselineFootprint) (Fin 0) then Fin 0
  else
    Math_round (((baselineFootprint - ecofriendlyFootprint) / baselineFootprint) * Fin 100)%js.

(** The priority strings ['high'], ['medium'], ['low'], and the rank table
    [priorityOrder] of the comparator. *)
Inductive Priority : Type := high | medium | low.

Record Recommendation : Type := {
  practice : string;
  impact : string;
  savings : val;
  priority : Priority;
  implementation : string
}.

Definition priorityOrder (p : Priority) : Z :=
  match p with
  | high => 1
  | medium => 2
  | low => 3
  end.

Definition by_priority (a b : Recommendation) : Z :=
  (priorityOrder (priority a) - priorityOrder (priority b))%Z.

Definition rec_organic_fertilizer (farmData : FarmData) : Recommendation :=
  {| practice := "Switch to organic fertilizer";
     impact := "Reduce emissions by 82% for fertilizer";
     savings :=
       Some (round_cents
               (ToNumber (fertilizer_synthetic farmData)
                * (factor_num "synthetic_fertilizer" - factor_num "organic_fertilizer"))%js);
     priority := high;
     implementation := "Start using compost, vermicompost, or FYM" |}.

Definition rec_organic_pest_control (farmData : FarmData) : Recommendation :=
  {| practice := "Use organic pest control";
     impact := "Reduce emissions by 84% for pesticide";
     savings :=
       Some (round_cents
               (ToNumber (pesticide_chemical farmData)
                * (factor_num "chemical_pesticide" - factor_num "organic_pesticide"))%js);
     priority := high;
     implementation := "Use neem oil, manual picking, beneficial insects" |}.

Definition rec_drip_irrigation (farmData : FarmData) : Recommendation :=
  {| practice := "Install drip irrigation";
     impact := "Reduce irrigation emissions by 70%";
     savings :=
       Some (round_cents
               (ToNumber (field (irrigationHours farmData)) * Fin (area farmData)
                * (ToNumber (match irrigationType farmData with
                             | Some t => factor t
                             | None => undefined
                             end)
                   - factor_num "drip_irrigation"))%js);
     priority := high;
     implementation := "Investment required, but saves water and reduces labor" |}.

Definition rec_crop_rotation : Recommendation :=
  {| practice := "Practice crop rotation";
     impact := "Improve soil health, reduce disease, 10-15% yield improvement";
     savings := undefined;
     priority := medium;
     implementation := "Rotate with legumes to fix nitrogen naturally" |}.

Definition rec_conservation_agriculture : Recommendation :=
  {| practice := "Adopt conservation agriculture";
     impact := "Reduce fuel emissions, improve soil carbon";
     savings := undefined;
     priority := medium;
     implementation := "Reduce/zero tilling, mulching, crop residue management" |}.

(** The array of recommendations as the rules push them, before the
    final sort. *)
Definition pushed_recommendations (farmData : FarmData) : list Recommendation :=
  (if gt (ToNumber (fertilizer_synthetic farmData)) (Fin 0)
   then [rec_organic_fertilizer farmData] else [])
  ++ (if gt (ToNumber (pesticide_chemical farmData)) (Fin 0)
      then [rec_organic_pest_control farmData] else [])
  ++ (if str_eq (irrigationType farmData) "flood"
         || str_eq (irrigationType farmData) "sprinkler"
      then [rec_drip_irrigation farmData] else [])
  ++ [rec_crop_rotation]
  ++ [rec_conservation_agriculture].

(** Get eco-friendly recommendations. *)
Definition getEcofriendlyRecommendations (farmData : FarmData) : list Recommendation :=
  sort by_priority (pushed_recommendations farmData).

Record CreditPotential : Type := {
  reductionTons : num;
  potentialValue : num;
  currency : string
}.

(** Calculate carbon credit potential (mock). *)
Definition calculateCarbonCreditPotential (carbonReductionKg : num) : CreditPotential :=
  let costPerTon := Fin 400 in
  let reductionTons := (carbonReductionKg / Fin 1000)%js in
  {| reductionTons := round_cents reductionTons;
     potentialValue := round_cents (reductionTons * costPerTon)%js;
     currency := "₹" |}.

Definition truthy_bool (b : option bool) : bool :=
  match b with
  | Some x => x
  | None => false
  end.

(** Calculate sustainability score (0-100). *)
Definition calculateSustainabilityScore (farmData : FarmData) : num :=
  let score := Fin 50 in
  (* Fertilizer practices *)
  let score :=
    if ge (ToNumber (fertilizer_organic farmData)) (Fin 50)
    then (score + Fin 10)%js else score in
  let score :=
    if strict_eq (fertilizer_synthetic farmData) (Fin 0)
    then (score + Fin 5)%js else score in
  (* Pesticide practices *)
  let score :=
    if ge (ToNumber (pesticide_organic farmData)) (Fin 50)
    then (score + Fin 10)%js else score in
  let score :=
    if strict_eq (pesticide_chemical farmData) (Fin 0)
    then (score + Fin 5)%js else score in
  (* Irrigation efficiency *)
  let score :=
    if str_eq (irrigationType farmData) "drip"
    then (score + Fin 15)%js else score in
  (* Crop diversity *)
  let score :=
    if ge (ToNumber (field (cropDiversity farmData))) (Fin 3)
    then (score + Fin 10)%js else score in
  (* Conservation practices *)
  let score :=
    if truthy_bool (conservationAgriculture farmData)
    then (score + Fin 10)%js else score in
  let score :=
    if truthy_bool (mulching farmData)
    then (score + Fin 5)%js else score in
  Math_min (Fin 100) (Math_max (Fin 0) score).

End CarbonFootprintService.

(** ** The validated request

    What the route's schema ([carbonEntrySchema]) lets through: a positive
    area, no negative quantity, the enumerated irrigation types and
    transport methods, a crop diversity of at least one.  (The schema asks
    for an area of at least 0.1; the weaker [0 < area] is all that is
    used.) *)
Module Validation.
Import JS CarbonFootprintService.

Definition nonneg (x : option Q) : bool :=
  match x with
  | Some q => Qle_bool 0 q
  | None => true
  end.

Definition one_of (allowed : list string) (s : option string) : bool :=
  match s with
  | Some x => existsb (String.eqb x) allowed
  | None => true
  end.

Definition irrigationTypes : list string :=
  ["flood"; "drip"; "sprinkler"; "rainfed"]%string.

Definition transportMethods : list string :=
  ["manual"; "bullock_cart"; "tractor"; "truck"]%string.

Definition valid_fertilizer (u : option FertilizerUsage) : bool :=
  match u with
  | Some x => nonneg (fu_synthetic x) && nonneg (fu_organic x)
  | None => true
  end.

Definition valid_pesticide (u : option PesticideUsage) : bool :=
  match u with
  | Some x => nonneg (pu_chemical x) && nonneg (pu_organic x)
  | None => true
  end.

Definition valid_fuel (u : option FuelUsage) : bool :=
  match u with
  | Some x => nonneg (diesel x) && nonneg (petrol x) && nonneg (electricity x)
  | None => true
  end.

Definition valid_diversity (x : option Q) : bool :=
  match x with
  | Some q => Qle_bool 1 q
  | None => true
  end.

Definition validated (farmData : FarmData) : bool :=
  negb (Qle_bool (area farmData) 0)
  && valid_fertilizer (fertilizerUsage farmData)
  && valid_pesticide (pesticideUsage farmData)
  && valid_fuel (fuelUsage farmData)
  && one_of irrigationTypes (irrigationType farmData)
  && nonneg (irrigationHours farmData)
  && one_of transportMethods (transportMethod farmData)
  && valid_diversity (cropDiversity farmData).

End Validation.

(** ** Ordering by an integer key *)
Module Order.

(** A comparator that subtracts integer keys, the order it sorts into,
    and the test that selects the elements of one key. *)
Definition by_key {A : Type} (key : A -> Z) (a b : A) : Z := (key a - key b)%Z.

Definition key_le {A : Type} (key : A -> Z) (a b : A) : Prop := (key a <= key b)%Z.

Definition has_key {A : Type} (key : A -> Z) (k : Z) (a : A) : bool := (key a =? k)%Z.

End Order.

(** ** The formulas of the specification

    These follow the words of the specification, not the code; the
    theorems below compare the service with them. *)
Module Spec.
Import JS CarbonFootprintService Order.

(** A usage quantity; an absent field counts as zero. *)
Definition quantity (x : option Q) : Q :=
  match x with
  | Some q => q
  | None => 0
  end.

Definition synthetic_fertilizer_kg (d : FarmData) : Q :=
  match fertilizerUsage d with
  | Some u => quantity (fu_synthetic u)
  | None => 0
  end.

Definition organic_fertilizer_kg (d : FarmData) : Q :=
  match fertilizerUsage d with
  | Some u => quantity (fu_organic u)
  | None => 0
  end.

Definition chemical_pesticide_L (d : FarmData) : Q :=
  match pesticideUsage d with
  | Some u => quantity (pu_chemical u)
  | None => 0
  end.

Definition organic_pesticide_L (d : FarmData) : Q :=
  match pesticideUsage d with
  | Some u => quantity (pu_organic u)
  | None => 0
  end.

Definition diesel_L (d : FarmData) : Q :=
  match fuelUsage d with
  | Some u => quantity (diesel u)
  | None => 0
  end.

Definition hours (d : FarmData) : Q := quantity (irrigationHours d).

(** Rounding to two decimals, a tie going up. *)
Definition round2 (x : Q) : Q := inject_Z (round_half_up (x * 100)) / 100.

(** [irrigationFactor]: flood 0.5, drip 0.15, sprinkler 0.25, and 0.5
    when the type is absent or unrecognized. *)
Definition irrigationFactor (t : option string) : Q :=
  if str_eq t "flood" then 5 # 10
  else if str_eq t "drip" then 15 # 100
  else if str_eq t "sprinkler" then 25 # 100
  else 5 # 10.

(** The baseline as the specification words it. *)
Definition baselineFootprint (d : FarmData) : Q :=
  round2 (synthetic_fertilizer_kg d * (45 # 10)
          + chemical_pesticide_L d * (25 # 10)
          + diesel_L d * (268 # 100)
          + hours d * area d * irrigationFactor (irrigationType d)).

(** The eco-friendly footprint as the specification words it. *)
Definition ecofriendlyFootprint (d : FarmData) : Q :=
  round2 (organic_fertilizer_kg d * (8 # 10)
          + organic_pesticide_L d * (4 # 10)
          + (if str_eq (irrigationType d) "drip"
             then hours d * area d * (15 # 100) else 0)).

(** The savings of the drip-irrigation recommendation as the
    specification words them. *)
Definition dripSavings (d : FarmData) : Q :=
  round2 (hours d * area d * (irrigationFactor (irrigationType d) - (15 # 100))).

Definition bonus (condition : bool) (points : Q) : Q :=
  if condition then points else 0.

Definition clamp (lo hi x : Q) : Q := Qmin hi (Qmax lo x).

(** The share of [part] in [part + other], in percent (zero when there
    is nothing to share). *)
Definition share (part other : Q) : Q :=
  if Qeq_bool (part + other) 0 then 0 else 100 * part / (part + other).

(** The sustainability score as the specification words it, with the
    two fifty-percent conditions read as shares. *)
Definition sustainabilityScore (d : FarmData) : Q :=
  clamp 0 100
    (50
     + bonus (Qle_bool 50 (share (organic_fertilizer_kg d) (synthetic_fertilizer_kg d))) 10
     + bonus (Qeq_bool (synthetic_fertilizer_kg d) 0) 5
     + bonus (Qle_bool 50 (share (organic_pesticide_L d) (chemical_pesticide_L d))) 10
     + bonus (Qeq_bool (chemical_pesticide_L d) 0) 5
     + bonus (str_eq (irrigationType d) "drip") 15
     + bonus (Qle_bool 3 (quantity (cropDiversity d))) 10
     + bonus (truthy_bool (conservationAgriculture d)) 10
     + bonus (truthy_bool (mulching d)) 5).

(** The conditions of the score on the fields themselves: a quantity
    that is present and at least [k], a quantity that is present and
    zero. *)
Definition at_least (x : option Q) (k : Q) : bool :=
  match x with
  | Some q => Qle_bool k q
  | None => false
  end.

Definition is_zero (x : option Q) : bool :=
  match x with
  | Some q => Qeq_bool q 0
  | None => false
  end.

Definition organic_fertilizer (d : FarmData) : option Q :=
  match fertilizerUsage d with Some u => fu_organic u | None => None end.

Definition synthetic_fertilizer (d : FarmData) : option Q :=
  match fertilizerUsage d with Some u => fu_synthetic u | None => None end.

Definition organic_pesticide (d : FarmData) : option Q :=
  match pesticideUsage d with Some u => pu_organic u | None => None end.

Definition chemical_pesticide (d : FarmData) : option Q :=
  match pesticideUsage d with Some u => pu_chemical u | None => None end.

(** The score with the two fifty conditions read as quantities. *)
Definition scoreByQuantity (d : FarmData) : Q :=
  clamp 0 100
    (50
     + bonus (at_least (organic_fertilizer d) 50) 10
     + bonus (is_zero (synthetic_fertilizer d)) 5
     + bonus (at_least (organic_pesticide d) 50) 10
     + bonus (is_zero (chemical_pesticide d)) 5
     + bonus (str_eq (irrigationType d) "drip") 15
     + bonus (at_least (cropDiversity d) 3) 10
     + bonus (truthy_bool (conservationAgriculture d)) 10
     + bonus (truthy_bool (mulching d)) 5).

(** A request with its irrigation type, or its transport method,
    replaced. *)
Definition with_irrigationType (t : option string) (d : FarmData) : FarmData :=
  {| area := area d;
     fertilizerUsage := fertilizerUsage d;
     pesticideUsage := pesticideUsage d;
     fuelUsage := fuelUsage d;
     irrigationType := t;
     irrigationHours := irrigationHours d;
     transportMethod := transportMethod d;
     conservationAgriculture := conservationAgriculture d;
     mulching := mulching d;
     cropDiversity := cropDiversity d |}.

Definition with_transportMethod (t : option string) (d : FarmData) : FarmData :=
  {| area := area d;
     fertilizerUsage := fertilizerUsage d;
     pesticideUsage := pesticideUsage d;
     fuelUsage := fuelUsage d;
     irrigationType := irrigationType d;
     irrigationHours := irrigationHours d;
     transportMethod := t;
     conservationAgriculture := conservationAgriculture d;
     mulching := mulching d;
     cropDiversity := cropDiversity d |}.

(** The rank of a recommendation, the order of the final sort, and the
    recommendations of one priority. *)
Definition rank (r : Recommendation) : Z := priorityOrder (priority r).

Definition priority_le : Recommendation -> Recommendation -> Prop := key_le rank.

Definition has_priority (p : Priority) : Recommendation -> bool :=
  has_key rank (priorityOrder p).

(** Two requests that differ at most in their irrigation type. *)
Definition same_but_irrigationType (a b : FarmData) : Prop :=
  area a = area b
  /\ fertilizerUsage a = fertilizerUsage b
  /\ pesticideUsage a = pesticideUsage b
  /\ fuelUsage a = fuelUsage b
  /\ irrigationHours a = irrigationHours b
  /\ transportMethod a = transportMethod b
  /\ conservationAgriculture a = conservationAgriculture b
  /\ mulching a = mulching b
  /\ cropDiversity a = cropDiversity b.

(** Every usage quantity of the request is zero or absent. *)
Definition no_usage (d : FarmData) : Prop :=
  synthetic_fertilizer_kg d == 0
  /\ organic_fertilizer_kg d == 0
  /\ chemical_pesticide_L d == 0
  /\ organic_pesticide_L d == 0
  /\ diesel_L d == 0
  /\ hours d == 0.

End Spec.

(** ** Sample requests *)
Module Samples.
Import CarbonFootprintService Spec.

(** A fully populated request. *)
Definition farm : FarmData :=
  {| area := 2;
     fertilizerUsage := Some {| fu_synthetic := Some 940; fu_organic := Some 60 |};
     pesticideUsage := Some {| pu_chemical := Some 4; pu_organic := Some 1 |};
     fuelUsage := Some {| diesel := Some 30; petrol := Some 0; electricity := Some 0 |};
     irrigationType := Some "flood"%string;
     irrigationHours := Some 10;
     transportMethod := Some "tractor"%string;
     conservationAgriculture := Some false;
     mulching := Some false;
     cropDiversity := Some 1 |}.

(** The same farm under drip irrigation, and with no irrigation type. *)
Definition drip_farm : FarmData := with_irrigationType (Some "drip"%string) farm.

Definition untyped_farm : FarmData := with_irrigationType None farm.

(** Only an area and ten hours of flood irrigation. *)
Definition flooded_plot : FarmData :=
  {| area := 2;
     fertilizerUsage := None;
     pesticideUsage := None;
     fuelUsage := None;
     irrigationType := Some "flood"%string;
     irrigationHours := Some 10;
     transportMethod := None;
     conservationAgriculture := None;
     mulching := None;
     cropDiversity := None |}.

(** The same plot with no irrigation type. *)
Definition untyped_plot : FarmData := with_irrigationType None flooded_plot.

(** Every usage field present and zero, rainfed. *)
Definition idle_farm : FarmData :=
  {| area := 1;
     fertilizerUsage := Some {| fu_synthetic := Some 0; fu_organic := Some 0 |};
     pesticideUsage := Some {| pu_chemical := Some 0; pu_organic := Some 0 |};
     fuelUsage := Some {| diesel := Some 0; petrol := Some 0; electricity := Some 0 |};
     irrigationType := Some "rainfed"%string;
     irrigationHours := Some 0;
     transportMethod := Some "manual"%string;
     conservationAgriculture := Some false;
     mulching := Some false;
     cropDiversity := Some 1 |}.

End Samples.

(** ** Property reads on plain objects

    The pricing service indexes object literals with strings that come from
    its callers.  A read finds an own property, or a property inherited from
    [Object.prototype] (a function, or for [__proto__] the prototype object
    itself), or nothing. *)
Module JSObject.
Import JS.

Inductive value : Type :=
| Null
| Undefined
| Number (n : num)
| Inherited.

(** The property names of [Object.prototype]. *)
Definition Object_prototype : list string :=
  [ "constructor"; "__defineGetter__"; "__defineSetter__"; "hasOwnProperty";
    "__lookupGetter__"; "__lookupSetter__"; "isPrototypeOf";
    "propertyIsEnumerable"; "toString"; "valueOf"; "__proto__";
    "toLocaleString" ]%string.

Definition inherited (key : string) : bool :=
  existsb (String.eqb key) Object_prototype.

(** [object[key]] for an object literal with numeric properties. *)
Definition get (object : list (string * Q)) (key : string) : value :=
  match lookup object key with
  | Some n => Number n
  | None => if inherited key then Inherited else Undefined
  end.

(** Objects and functions are truthy. *)
Definition truthy_value (v : value) : bool :=
  match v with
  | Number n => truthy_num n
  | Inherited => true
  | Null | Undefined => false
  end.

(** [ToNumber]: an inherited function or object converts to [NaN] through
    its string form, [null] to [0]. *)
Definition ToNumber_value (v : value) : num :=
  match v with
  | Number n => n
  | Null => Fin 0
  | Undefined | Inherited => NaN
  end.

(** [v || d]. *)
Definition or_value (v d : value) : value :=
  if truthy_value v then v else d.

End JSObject.

(** ** Numbers with infinities

    The pricing service divides by numbers it does not test, so a zero
    divisor is within reach.  Doubles have a negative zero; rationals do
    not, and a zero divisor is taken as [+0]. *)
Module Extended.
Import JS.

Inductive xnum : Type :=
| XFin (q : Q)
| XInf (positive : bool)
| XNaN.

(** [a / b] for numbers without infinities. *)
Definition xdiv (a b : num) : xnum :=
  match a, b with
  | Fin x, Fin y =>
      if Qeq_bool y 0
      then (if Qeq_bool x 0 then XNaN else XInf (negb (Qle_bool x 0)))
      else XFin (x / y)
  | _, _ => XNaN
  end.

(** [a * c] for a finite literal [c]. *)
Definition xmul (a : xnum) (c : Q) : xnum :=
  match a with
  | XFin x => XFin (x * c)
  | XInf s =>
      if Qeq_bool c 0 then XNaN
      else XInf (if Qle_bool 0 c then s else negb s)
  | XNaN => XNaN
  end.

Definition Math_abs (a : xnum) : xnum :=
  match a with
  | XFin x => XFin (Qabs x)
  | XInf _ => XInf true
  | XNaN => XNaN
  end.

Definition xround (a : xnum) : xnum :=
  match a with
  | XFin x => XFin (inject_Z (round_half_up x))
  | other => other
  end.

(** [a < c] and [a > c] for a finite literal [c]. *)
Definition xlt (a : xnum) (c : Q) : bool :=
  match a with
  | XFin x => negb (Qle_bool c x)
  | XInf s => negb s
  | XNaN => false
  end.

Definition xgt (a : xnum) (c : Q) : bool :=
  match a with
  | XFin x => negb (Qle_bool x c)
  | XInf s => s
  | XNaN => false
  end.

End Extended.

(** ** The dynamic pricing service

    [DynamicPricingService], the other class of the file that holds the
    carbon service.  The string methods [toLowerCase] and [trim] are
    parameters: nothing below depends on what they do to a string.  Numeric
    arguments are rationals, [organic] is the truthiness of the argument,
    and [None] for an optional argument is an omitted one. *)
Module DynamicPricingService.
Import JS JSObject Extended.

(** Base market prices. *)
Definition baseMarketPrices : list (string * Q) :=
  [ ("wheat"%string, 2000); ("rice"%string, 3000); ("corn"%string, 1500);
    ("tomato"%string, 30); ("potato"%string, 15); ("onion"%string, 20);
    ("cabbage"%string, 15); ("cauliflower"%string, 25); ("brinjal"%string, 35);
    ("chilli"%string, 80); ("garlic"%string, 100); ("turmeric"%string, 60);
    ("sugarcane"%string, 3500); ("cotton"%string, 50); ("soybean"%string, 4000);
    ("chickpea"%string, 6000); ("lentil"%string, 7000); ("groundnut"%string, 8000);
    ("apple"%string, 80); ("mango"%string, 40); ("banana"%string, 15);
    ("grape"%string, 100) ].

Definition qualityMultipliers : list (string * Q) :=
  [ ("premium"%string, 13 # 10); ("grade_a"%string, 115 # 100);
    ("grade_b"%string, 1); ("standard"%string, 85 # 100) ].

Record PriceRange : Type := {
  minPrice : num;
  suggestedPrice : value;
  maxPrice : num;
  baseMarketPrice : value
}.

Inductive Trend : Type := stable | rising | falling.

Record Trending : Type := {
  trend : Trend;
  percentChange : xnum;
  recommendation : string
}.

Inductive AlertType : Type :=
| neutral
| overpriced
| underpriced
| slightly_high
| slightly_low.

(** The message of an alert: a fixed text, or a text with a rounded
    percentage interpolated. *)
Inductive Message : Type :=
| AtMarketRate
| AboveMarketBy (percent : xnum)
| BelowMarketBy (percent : xnum)
| SlightlyAbove
| SlightlyBelow.

Record Alert : Type := {
  alert_type : AlertType;
  message : Message;
  suggestion : option string
}.

Section Builtins.

Variable toLowerCase : string -> string.
Variable trim : string -> string.

Definition getMarketPrice (crop : string) : value :=
  let cropLower := trim (toLowerCase crop) in
  or_value (get baseMarketPrices cropLower) Null.

Definition calculateDynamicPrice (crop : string) (quantity : Q)
    (quality : option string) (organic : bool) (daysToHarvest : option Q) : value :=
  let quality := match quality with Some q => q | None => "standard"%string end in
  let daysToHarvest := match daysToHarvest with Some n => n | None => 0 end in
  let basePrice := getMarketPrice crop in
  if negb (truthy_value basePrice) then Null
  else
    let price := ToNumber_value basePrice in
    (* Quality adjustment *)
    let price :=
      (price * ToNumber_value (or_value (get qualityMultipliers quality) (Number (Fin 1))))%js in
    (* Organic premium *)
    let price := if organic then (price * Fin (125 # 100))%js else price in
    (* Quantity discount (bulk pricing) *)
    let quantityDiscount :=
      if negb (Qle_bool quantity 1000) then 95 # 100
      else if negb (Qle_bool quantity 500) then 97 # 100
      else if negb (Qle_bool quantity 100) then 98 # 100
      else 1 in
    let price := (price * Fin quantityDiscount)%js in
    (* Harvest timing adjustment *)
    let price :=
      if Qle_bool 0 daysToHarvest
      then
        if Qle_bool daysToHarvest 7 then (price * Fin (105 # 100))%js
        else if negb (Qle_bool daysToHarvest 30) then (price * Fin (95 # 100))%js
        else price
      else price in
    Number (Math_round price).

(** [None] is the [null] returned for a crop without a price. *)
Definition getSuggestedPriceRange (crop : string) (quantity : Q)
    (quality : option string) (organic : bool) : option PriceRange :=
  let basePrice := getMarketPrice crop in
  if negb (truthy_value basePrice) then None
  else
    let minPrice := Math_round (ToNumber_value basePrice * Fin (85 # 100))%js in
    let maxPrice := Math_round (ToNumber_value basePrice * Fin (125 # 100))%js in
    let suggestedPrice := calculateDynamicPrice crop quantity quality organic None in
    Some {| minPrice := minPrice;
            suggestedPrice := or_value suggestedPrice basePrice;
            maxPrice := maxPrice;
            baseMarketPrice := basePrice |}.

(** [historicalData.reduce((a, b) => a + b, 0)]. *)
Definition sum (data : list Q) : Q := fold_left Qplus data 0.

Definition count (data : list Q) : Q := inject_Z (Z.of_nat (List.length data)).

(** [None] is a missing [historicalData]. *)
Definition getTrendingPrices (crop : string) (historicalData : option (list Q)) : Trending :=
  match historicalData with
  | None | Some [] =>
      {| trend := stable;
         percentChange := XFin 0;
         recommendation := "Market stable - fair pricing" |}
  | Some data =>
      let avgHistorical := sum data / count data in
      let currentAvg := or_value (getMarketPrice crop) (Number (Fin avgHistorical)) in
      let percentChange :=
        xmul (xdiv (ToNumber_value currentAvg - Fin avgHistorical)%js (Fin avgHistorical)) 100 in
      if xgt percentChange 10
      then {| trend := rising;
              percentChange := xround percentChange;
              recommendation := "Prices rising - good time to sell" |}
      else if xlt percentChange (-10)
      then {| trend := falling;
              percentChange := xround percentChange;
              recommendation := "Prices falling - consider storing for later" |}
      else {| trend := stable;
              percentChange := xround percentChange;
              recommendation := "Market stable - fair pricing" |}
  end.

End Builtins.

(** [generatePriceAlert(crop, currentPrice, marketPrice)]; the crop is not
    read. *)
Definition generatePriceAlert (crop : string) (currentPrice marketPrice : Q) : Alert :=
  let percentDiff := xmul (xdiv (Fin (currentPrice - marketPrice)) (Fin marketPrice)) 100 in
  if xlt (Math_abs percentDiff) 5
  then {| alert_type := neutral; message := AtMarketRate; suggestion := None |}
  else if xgt percentDiff 15
  then {| alert_type := overpriced;
          message := AboveMarketBy (xround percentDiff);
          suggestion := Some "Consider lowering price to attract more buyers"%string |}
  else if xlt percentDiff (-15)
  then {| alert_type := underpriced;
          message := BelowMarketBy (xround (Math_abs percentDiff));
          suggestion := Some "You could increase price and still be competitive"%string |}
  else if xgt percentDiff 5
  then {| alert_type := slightly_high; message := SlightlyAbove; suggestion := None |}
  else {| alert_type := slightly_low; message := SlightlyBelow; suggestion := None |}.

End DynamicPricingService.

(** ** The four factors of a dynamic price

    What [calculateDynamicPrice] multiplies the base price by, one function
    per adjustment; an omitted quality is ['standard'], omitted days are
    [0]. *)
Module PricingFactors.
Import JS JSObject DynamicPricingService.

Definition qualityOf (quality : option string) : string :=
  match quality with
  | Some q => q
  | None => "standard"%string
  end.

Definition qualityFactor (quality : option string) : Q :=
  if String.eqb (qualityOf quality) "premium" then 13 # 10
  else if String.eqb (qualityOf quality) "grade_a" then 115 # 100
  else if String.eqb (qualityOf quality) "standard" then 85 # 100
  else 1.

Definition organicFactor (organic : bool) : Q :=
  if organic then 125 # 100 else 1.

Definition bulkFactor (quantity : Q) : Q :=
  if negb (Qle_bool quantity 1000) then 95 # 100
  else if negb (Qle_bool quantity 500) then 97 # 100
  else if negb (Qle_bool quantity 100) then 98 # 100
  else 1.

Definition daysOf (daysToHarvest : option Q) : Q :=
  match daysToHarvest with
  | Some n => n
  | None => 0
  end.

Definition timingFactor (daysToHarvest : option Q) : Q :=
  if Qle_bool 0 (daysOf daysToHarvest)
  then
    if Qle_bool (daysOf daysToHarvest) 7 then 105 # 100
    else if negb (Qle_bool (daysOf daysToHarvest) 30) then 95 # 100
    else 1
  else 1.

Definition factors (quantity : Q) (quality : option string) (organic : bool)
    (daysToHarvest : option Q) : Q :=
  qualityFactor quality * organicFactor organic * bulkFactor quantity
  * timingFactor daysToHarvest.

(** The price of a crop read off the table. *)
Definition priced (toLowerCase trim : string -> string) (crop : string) (b : Q) : Prop :=
  getMarketPrice toLowerCase trim crop = Number (Fin b).

End PricingFactors.

(** ** The route that calls the carbon service

    [POST /api/carbon/calculate] of [frontend/backend/routes/carbon.js]: the
    data of its response.  The four fields of the request body are numbers
    or missing ([null] counts as missing: the form sends [parseFloat]
    results). *)
Module ServiceRoute.
Import JS CarbonFootprintService.

Record Body : Type := {
  fertilizerUse : option Q;
  pesticideUse : option Q;
  fuelUse : option Q;
  energyUse : option Q
}.

(** [x || 0] on a field of the body. *)
Definition or_zero (x : option Q) : Q :=
  match x with
  | Some q => if Qeq_bool q 0 then 0 else q
  | None => 0
  end.

(** Convert to the format expected by CarbonFootprintService.  (The
    converted object also carries [energyUsage], which the service never
    reads.) *)
Definition value (body : Body) : FarmData :=
  {| area := 1;
     fertilizerUsage :=
       Some {| fu_synthetic := Some (or_zero (fertilizerUse body)); fu_organic := None |};
     pesticideUsage :=
       Some {| pu_chemical := Some (or_zero (pesticideUse body)); pu_organic := None |};
     fuelUsage :=
       Some {| diesel := Some (or_zero (fuelUse body)); petrol := None; electricity := None |};
     irrigationType := Some "flood"%string;
     irrigationHours := Some 0;
     transportMethod := None;
     conservationAgriculture := None;
     mulching := None;
     cropDiversity := None |}.

Record Metrics : Type := {
  fertilizer : num;
  pesticides : num;
  fuel : num;
  energy : num
}.

Record Item : Type := {
  title : string;
  description : string;
  item_impact : string;
  reduction : string
}.

Record Data : Type := {
  totalFootprint : num;
  score : num;
  metrics : Metrics;
  percentageBreakdown : Metrics;
  recommendations : list Item
}.

Definition item (r : Recommendation) : Item :=
  {| title := practice r;
     description := implementation r;
     item_impact := match priority r with high => "High" | _ => "Medium" end;
     reduction := impact r |}.

Definition percentage (baselineFootprint : num) (use : option Q) (factor : Q) : num :=
  if gt baselineFootprint (Fin 0)
  then (Fin (or_zero use) * Fin factor / baselineFootprint * Fin 100)%js
  else Fin 0.

Definition calculate (body : Body) : Data :=
  let value := value body in
  let baselineFootprint := calculateBaselineFootprint value in
  let ecofriendlyFootprint := calculateEcofriendlyFootprint value in
  let carbonReduction := calculateCarbonReduction baselineFootprint ecofriendlyFootprint in
  let recommendations := getEcofriendlyRecommendations value in
  let sustainabilityScore := calculateSustainabilityScore value in
  {| totalFootprint := baselineFootprint;
     score := sustainabilityScore;
     metrics :=
       {| fertilizer := (Fin (or_zero (fertilizerUse body)) * Fin (45 # 10))%js;
          pesticides := (Fin (or_zero (pesticideUse body)) * Fin (25 # 10))%js;
          fuel := (Fin (or_zero (fuelUse body)) * Fin (268 # 100))%js;
          energy := (Fin (or_zero (energyUse body)) * Fin (95 # 100))%js |};
     percentageBreakdown :=
       {| fertilizer := percentage baselineFootprint (fertilizerUse body) (45 # 10);
          pesticides := percentage baselineFootprint (pesticideUse body) (25 # 10);
          fuel := percentage baselineFootprint (fuelUse body) (268 # 100);
          energy := percentage baselineFootprint (energyUse body) (95 # 100) |};
     recommendations := map item recommendations |}.

End ServiceRoute.

(** ** The advice of the stand-alone carbon route

    [generateRecommendations] of [backend/routes/carbon.js]. *)
Module StandaloneRoute.
Import JS.

Record Breakdown : Type := {
  fertilizers : num;
  irrigation : num;
  transportation : num;
  pesticides : num
}.

Definition advice_fertilizer : string :=
  "Consider reducing synthetic fertilizer use and switching to organic alternatives".

Definition advice_irrigation : string :=
  "Implement water-efficient irrigation systems like drip irrigation".

Definition advice_transportation : string :=
  "Optimize transportation routes and consider local distribution".

Definition advice_pesticides : string :=
  "Adopt integrated pest management practices to reduce chemical pesticide use".

Definition advice_renewable : string :=
  "Consider renewable energy sources for farm operations".

Definition advice_rotation : string :=
  "Implement crop rotation and soil conservation practices".

Definition advice_monitoring : string :=
  "Continue monitoring your carbon footprint regularly".

Definition advice_offset : string :=
  "Consider carbon offset programs for unavoidable emissions".

(** [a < b] on numbers. *)
Definition lt (a b : num) : bool := gt b a.

(** Helper function to generate recommendations based on footprint. *)
Definition generateRecommendations (breakdown : Breakdown) (score : num) : list string :=
  let recommendations := [] in
  let recommendations :=
    if gt (fertilizers breakdown) (Fin 300)
    then recommendations ++ [advice_fertilizer] else recommendations in
  let recommendations :=
    if gt (irrigation breakdown) (Fin 100)
    then recommendations ++ [advice_irrigation] else recommendations in
  let recommendations :=
    if gt (transportation breakdown) (Fin 100)
    then recommendations ++ [advice_transportation] else recommendations in
  let recommendations :=
    if gt (pesticides breakdown) (Fin 150)
    then recommendations ++ [advice_pesticides] else recommendations in
  let recommendations :=
    if lt score (Fin 70)
    then recommendations ++ [advice_renewable; advice_rotation] else recommendations in
  (* Default recommendations *)
  let recommendations :=
    match recommendations with
    | [] => [advice_monitoring; advice_offset]
    | _ => recommendations
    end in
  firstn 4 recommendations.

End StandaloneRoute.

(** ** Requests that differ in fields the service does not read *)
Module Unread.
Import CarbonFootprintService.

Definition with_petrol_electricity (p e : option Q) (d : FarmData) : FarmData :=
  {| area := area d;
     fertilizerUsage := fertilizerUsage d;
     pesticideUsage := pesticideUsage d;
     fuelUsage :=
       match fuelUsage d with
       | Some u => Some {| diesel := diesel u; petrol := p; electricity := e |}
       | None => None
       end;
     irrigationType := irrigationType d;
     irrigationHours := irrigationHours d;
     transportMethod := transportMethod d;
     conservationAgriculture := conservationAgriculture d;
     mulching := mulching d;
     cropDiversity := cropDiversity d |}.

End Unread.

(** ** Binary64 numbers

    The arithmetic of the service as JavaScript performs it: every number
    is an IEEE-754 double and every operation rounds its exact result to
    the nearest double, a tie going to the even mantissa.  The decimal
    literals of the source ([4.5], [2.68], [0.15] ...) denote the doubles
    nearest to them. *)
Module Double.

Definition prec : Z := 53.

Definition emax : Z := 1024.

Definition double : Type := spec_float.

Definition add : double -> double -> double := SFadd prec emax.

Definition sub : double -> double -> double := SFsub prec emax.

Definition mul : double -> double -> double := SFmul prec emax.

Definition div : double -> double -> double := SFdiv prec emax.

(** The literal [0]. *)
Definition zero : double := S754_zero false.

(** An integer literal, and the decimal literal [n / d] (the quotient of
    two integers that doubles hold exactly, rounded once). *)
Definition of_Z (z : Z) : double := binary_normalize prec emax z 0 false.

Definition lit (n : Z) (d : positive) : double := div (of_Z n) (of_Z (Zpos d)).

Definition is_nan (x : double) : bool :=
  match x with
  | S754_nan => true
  | _ => false
  end.

Definition is_finite (x : double) : bool :=
  match x with
  | S754_zero _ | S754_finite _ _ _ => true
  | _ => false
  end.

(** The sign bit is set: a negative number, [-0] or [-Infinity]. *)
Definition sign_bit (x : double) : bool :=
  match x with
  | S754_zero s | S754_infinity s | S754_finite s _ _ => s
  | S754_nan => false
  end.

(** A well-formed double: the mantissa and the exponent are in range. *)
Definition well_formed (x : double) : bool := valid_binary prec emax x.

(** [Math.round]: the integer nearest to [x], a tie going up; an [x] in
    [[-0.5, 0)] gives [-0].  A finite double with a negative exponent [-p]
    is [m / 2^p], and [floor (m / 2^p + 1/2)] is
    [(2 m + 2^p) / 2^(p+1)] in integers; the other doubles are integers,
    zeros, infinities or [NaN] and are returned as they are. *)
Definition Math_round (x : double) : double :=
  match x with
  | S754_finite s m (Zneg p) =>
      let z := ((cond_Zopp s (Zpos (m~0)) + Z.pow 2 (Zpos p))
                / Z.pow 2 (Zpos p + 1))%Z in
      if (z =? 0)%Z then S754_zero s else of_Z z
  | _ => x
  end.

(** Truthiness of a possibly missing number: [undefined], the two zeros
    and [NaN] are falsy. *)
Definition truthy (v : option double) : bool :=
  match v with
  | Some (S754_zero _) | Some S754_nan | None => false
  | Some _ => true
  end.

(** [ToNumber], and [v || d]. *)
Definition ToNumber (v : option double) : double :=
  match v with
  | Some x => x
  | None => S754_nan
  end.

Definition or_else (v : option double) (d : double) : double :=
  if truthy v then ToNumber v else d.

(** [a === b] on numbers: [NaN] equals nothing, the two zeros are
    equal. *)
Definition strict_eq (a b : double) : bool := SFeqb a b.

Definition lt (a b : double) : bool := SFltb a b.

Definition le (a b : double) : bool := SFleb a b.

(** [Math.round(x * 100) / 100]. *)
Definition round_cents (x : double) : double :=
  div (Math_round (mul x (of_Z 100))) (of_Z 100).

(** The real number a finite double stands for. *)
Definition value (x : double) : option Q :=
  match x with
  | S754_zero _ => Some 0
  | S754_finite s m e => Some (inject_Z (cond_Zopp s (Zpos m)) * Qpower 2 e)
  | S754_infinity _ | S754_nan => None
  end.

(** The double [x] is finite and stands for the real [q]. *)
Definition represents (x : double) (q : Q) : Prop :=
  match value x with
  | Some v => v == q
  | None => False
  end.

End Double.

(** ** The footprint methods in double precision

    [calculateBaselineFootprint], [calculateEcofriendlyFootprint],
    [calculateCarbonReduction] and [calculateCarbonCreditPotential] once
    more, statement by statement, with the numbers of [Double]. *)
Module DoubleService.
Import Double.

Record FertilizerUsage : Type := {
  fu_synthetic : option double;
  fu_organic : option double
}.

Record PesticideUsage : Type := {
  pu_chemical : option double;
  pu_organic : option double
}.

Record FuelUsage : Type := {
  diesel : option double;
  petrol : option double;
  electricity : option double
}.

Record FarmData : Type := {
  area : double;
  fertilizerUsage : option FertilizerUsage;
  pesticideUsage : option PesticideUsage;
  fuelUsage : option FuelUsage;
  irrigationType : option string;
  irrigationHours : option double;
  transportMethod : option string;
  conservationAgriculture : option bool;
  mulching : option bool;
  cropDiversity : option double
}.

(** Emission factors (kg CO2 per unit). *)
Definition emissionFactors : list (string * double) :=
  [ ("synthetic_fertilizer"%string, lit 45 10);
    ("organic_fertilizer"%string, lit 8 10);
    ("urea"%string, lit 32 10);
    ("dap"%string, lit 28 10);
    ("potash"%string, lit 12 10);
    ("chemical_pesticide"%string, lit 25 10);
    ("neem_oil"%string, lit 3 10);
    ("organic_pesticide"%string, lit 4 10);
    ("diesel"%string, lit 268 100);
    ("petrol"%string, lit 231 100);
    ("electricity"%string, lit 95 100);
    ("flood_irrigation"%string, lit 5 10);
    ("drip_irrigation"%string, lit 15 100);
    ("sprinkler_irrigation"%string, lit 25 100);
    ("manual_transport"%string, zero);
    ("bullock_cart"%string, lit 1 10);
    ("tractor"%string, lit 8 10);
    ("truck"%string, lit 6 10) ].

(** [this.emissionFactors[key]] (own properties), and the same read used
    as a number. *)
Fixpoint lookup (table : list (string * double)) (key : string) : option double :=
  match table with
  | [] => None
  | (k, v) :: rest => if String.eqb k key then Some v else lookup rest key
  end.

Definition factor (key : string) : option double := lookup emissionFactors key.

Definition factor_num (key : string) : double := ToNumber (factor key).

(** Calculate baseline carbon footprint (business as usual). *)
Definition calculateBaselineFootprint (farmData : FarmData) : double :=
  let totalFootprint := zero in
  (* Fertilizer emissions *)
  let totalFootprint :=
    match fertilizerUsage farmData with
    | Some u =>
        let syntheticFertilizer := or_else (fu_synthetic u) zero in
        add totalFootprint (mul syntheticFertilizer (factor_num "synthetic_fertilizer"))
    | None => totalFootprint
    end in
  (* Pesticide emissions *)
  let totalFootprint :=
    match pesticideUsage farmData with
    | Some u =>
        let chemicalPesticide := or_else (pu_chemical u) zero in
        add totalFootprint (mul chemicalPesticide (factor_num "chemical_pesticide"))
    | None => totalFootprint
    end in
  (* Fuel emissions *)
  let totalFootprint :=
    match fuelUsage farmData with
    | Some u =>
        let diesel := or_else (diesel u) zero in
        add totalFootprint (mul diesel (factor_num "diesel"))
    | None => totalFootprint
    end in
  (* Irrigation emissions *)
  let totalFootprint :=
    if truthy (irrigationHours farmData) && JS.truthy_str (irrigationType farmData)
    then
      let emissionFactor :=
        or_else (match irrigationType farmData with
                 | Some t => factor t
                 | None => None
                 end) (lit 5 10) in
      add totalFootprint
          (mul (mul (ToNumber (irrigationHours farmData)) (area farmData)) emissionFactor)
    else totalFootprint in
  round_cents totalFootprint.

(** Calculate carbon footprint with eco-friendly practices. *)
Definition calculateEcofriendlyFootprint (farmData : FarmData) : double :=
  let totalFootprint := zero in
  (* Organic fertilizer *)
  let totalFootprint :=
    match fertilizerUsage farmData with
    | Some u =>
        let organicFertilizer := or_else (fu_organic u) zero in
        add totalFootprint (mul organicFertilizer (factor_num "organic_fertilizer"))
    | None => totalFootprint
    end in
  (* Organic pesticide *)
  let totalFootprint :=
    match pesticideUsage farmData with
    | Some u =>
        let organicPesticide := or_else (pu_organic u) zero in
        add totalFootprint (mul organicPesticide (factor_num "organic_pesticide"))
    | None => totalFootprint
    end in
  (* Drip irrigation (efficient) *)
  let totalFootprint :=
    if truthy (irrigationHours farmData) && JS.str_eq (irrigationType farmData) "drip"
    then
      add totalFootprint
          (mul (mul (ToNumber (irrigationHours farmData)) (area farmData))
               (factor_num "drip_irrigation"))
    else totalFootprint in
  (* Manual transport *)
  let totalFootprint :=
    if JS.str_eq (transportMethod farmData) "manual"
    then add totalFootprint zero
    else totalFootprint in
  round_cents totalFootprint.

(** Calculate carbon reduction percentage. *)
Definition calculateCarbonReduction (baselineFootprint ecofriendlyFootprint : double) : double :=
  if strict_eq baselineFootprint zero then zero
  else
    Math_round (mul (div (sub baselineFootprint ecofriendlyFootprint) baselineFootprint)
                    (of_Z 100)).

Record CreditPotential : Type := {
  reductionTons : double;
  potentialValue : double;
  currency : string
}.

(** Calculate carbon credit potential (mock). *)
Definition calculateCarbonCreditPotential (carbonReductionKg : double) : CreditPotential :=
  let costPerTon := of_Z 400 in
  let reductionTons := div carbonReductionKg (of_Z 1000) in
  {| reductionTons := round_cents reductionTons;
     potentialValue := round_cents (mul reductionTons costPerTon);
     currency := "₹" |}.

(** A quantity of the request as a double that is finite and not
    negative (a negative zero passes, as it does the schema's
    [min(0)]); a missing quantity passes. *)
Definition quantity_ok (x : double) : bool :=
  well_formed x && is_finite x && le zero x.

Definition nonneg (v : option double) : bool :=
  match v with
  | Some x => quantity_ok x
  | None => true
  end.

Definition valid_fertilizer (u : option FertilizerUsage) : bool :=
  match u with
  | Some x => nonneg (fu_synthetic x) && nonneg (fu_organic x)
  | None => true
  end.

Definition valid_pesticide (u : option PesticideUsage) : bool :=
  match u with
  | Some x => nonneg (pu_chemical x) && nonneg (pu_organic x)
  | None => true
  end.

Definition valid_fuel (u : option FuelUsage) : bool :=
  match u with
  | Some x => nonneg (diesel x) && nonneg (petrol x) && nonneg (electricity x)
  | None => true
  end.

Definition valid_diversity (v : option double) : bool :=
  match v with
  | Some x => well_formed x && is_finite x && le (of_Z 1) x
  | None => true
  end.

(** The validated request, as in [Validation]: the area is a finite
    double above zero. *)
Definition validated (farmData : FarmData) : bool :=
  well_formed (area farmData) && is_finite (area farmData) && lt zero (area farmData)
  && valid_fertilizer (fertilizerUsage farmData)
  && valid_pesticide (pesticideUsage farmData)
  && valid_fuel (fuelUsage farmData)
  && Validation.one_of Validation.irrigationTypes (irrigationType farmData)
  && nonneg (irrigationHours farmData)
  && Validation.one_of Validation.transportMethods (transportMethod farmData)
  && valid_diversity (cropDiversity farmData).

(** The usage quantities as the methods read them: a missing block, a
    missing field and a zero all count as [0]. *)
Definition synthetic_fertilizer_kg (d : FarmData) : double :=
  match fertilizerUsage d with
  | Some u => or_else (fu_synthetic u) zero
  | None => zero
  end.

Definition organic_fertilizer_kg (d : FarmData) : double :=
  match fertilizerUsage d with
  | Some u => or_else (fu_organic u) zero
  | None => zero
  end.

Definition chemical_pesticide_L (d : FarmData) : double :=
  match pesticideUsage d with
  | Some u => or_else (pu_chemical u) zero
  | None => zero
  end.

Definition organic_pesticide_L (d : FarmData) : double :=
  match pesticideUsage d with
  | Some u => or_else (pu_organic u) zero
  | None => zero
  end.

Definition diesel_L (d : FarmData) : double :=
  match fuelUsage d with
  | Some u => or_else (diesel u) zero
  | None => zero
  end.

Definition hours (d : FarmData) : double := or_else (irrigationHours d) zero.

(** The sums of the two footprints, each product and each sum rounded to
    the nearest double, evaluated from left to right. *)
Definition baselineSum (d : FarmData) : double :=
  add (add (mul (synthetic_fertilizer_kg d) (lit 45 10))
           (mul (chemical_pesticide_L d) (lit 25 10)))
      (mul (diesel_L d) (lit 268 100)).

Definition irrigationTerm (d : FarmData) (factor : double) : double :=
  mul (mul (hours d) (area d)) factor.

Definition ecofriendlySum (d : FarmData) : double :=
  add (mul (organic_fertilizer_kg d) (lit 8 10))
      (mul (organic_pesticide_L d) (lit 4 10)).

(** A request with its irrigation type, or its transport method,
    replaced. *)
Definition with_irrigationType (t : option string) (d : FarmData) : FarmData :=
  {| area := area d;
     fertilizerUsage := fertilizerUsage d;
     pesticideUsage := pesticideUsage d;
     fuelUsage := fuelUsage d;
     irrigationType := t;
     irrigationHours := irrigationHours d;
     transportMethod := transportMethod d;
     conservationAgriculture := conservationAgriculture d;
     mulching := mulching d;
     cropDiversity := cropDiversity d |}.

Definition with_transportMethod (t : option string) (d : FarmData) : FarmData :=
  {| area := area d;
     fertilizerUsage := fertilizerUsage d;
     pesticideUsage := pesticideUsage d;
     fuelUsage := fuelUsage d;
     irrigationType := irrigationType d;
     irrigationHours := irrigationHours d;
     transportMethod := t;
     conservationAgriculture := conservationAgriculture d;
     mulching := mulching d;
     cropDiversity := cropDiversity d |}.

(** Two requests that differ at most in their irrigation type. *)
Definition same_but_irrigationType (a b : FarmData) : Prop :=
  area a = area b
  /\ fertilizerUsage a = fertilizerUsage b
  /\ pesticideUsage a = pesticideUsage b
  /\ fuelUsage a = fuelUsage b
  /\ irrigationHours a = irrigationHours b
  /\ transportMethod a = transportMethod b
  /\ conservationAgriculture a = conservationAgriculture b
  /\ mulching a = mulching b
  /\ cropDiversity a = cropDiversity b.

End DoubleService.

(** ** The real numbers of a request in double precision

    The request whose quantities are the reals that the doubles of a
    request stand for: the formulas of the specification apply to it. *)
Module Exact.
Import Double.

Definition real (x : double) : Q :=
  match value x with
  | Some q => q
  | None => 0
  end.

Definition real_field (v : option double) : option Q := option_map real v.

Definition fertilizer (u : DoubleService.FertilizerUsage) : CarbonFootprintService.FertilizerUsage :=
  {| CarbonFootprintService.fu_synthetic := real_field (DoubleService.fu_synthetic u);
     CarbonFootprintService.fu_organic := real_field (DoubleService.fu_organic u) |}.

Definition pesticide (u : DoubleService.PesticideUsage) : CarbonFootprintService.PesticideUsage :=
  {| CarbonFootprintService.pu_chemical := real_field (DoubleService.pu_chemical u);
     CarbonFootprintService.pu_organic := real_field (DoubleService.pu_organic u) |}.

Definition fuel (u : DoubleService.FuelUsage) : CarbonFootprintService.FuelUsage :=
  {| CarbonFootprintService.diesel := real_field (DoubleService.diesel u);
     CarbonFootprintService.petrol := real_field (DoubleService.petrol u);
     CarbonFootprintService.electricity := real_field (DoubleService.electricity u) |}.

Definition request (d : DoubleService.FarmData) : CarbonFootprintService.FarmData :=
  {| CarbonFootprintService.area := real (DoubleService.area d);
     CarbonFootprintService.fertilizerUsage := option_map fertilizer (DoubleService.fertilizerUsage d);
     CarbonFootprintService.pesticideUsage := option_map pesticide (DoubleService.pesticideUsage d);
     CarbonFootprintService.fuelUsage := option_map fuel (DoubleService.fuelUsage d);
     CarbonFootprintService.irrigationType := DoubleService.irrigationType d;
     CarbonFootprintService.irrigationHours := real_field (DoubleService.irrigationHours d);
     CarbonFootprintService.transportMethod := DoubleService.transportMethod d;
     CarbonFootprintService.conservationAgriculture := DoubleService.conservationAgriculture d;
     CarbonFootprintService.mulching := DoubleService.mulching d;
     CarbonFootprintService.cropDiversity := real_field (DoubleService.cropDiversity d) |}.

End Exact.

(** ** Sample requests in double precision *)
Module DoubleSamples.
Import Double DoubleService.

(** Only an area and ten hours of irrigation, flood and untyped. *)
Definition flooded_plot : FarmData :=
  {| area := of_Z 2;
     fertilizerUsage := None;
     pesticideUsage := None;
     fuelUsage := None;
     irrigationType := Some "flood"%string;
     irrigationHours := Some (of_Z 10);
     transportMethod := None;
     conservationAgriculture := None;
     mulching := None;
     cropDiversity := None |}.

Definition untyped_plot : FarmData := with_irrigationType None flooded_plot.

(** One hectare, 2 kg of synthetic fertilizer, 2.875 L of diesel. *)
Definition small_farm : FarmData :=
  {| area := of_Z 1;
     fertilizerUsage := Some {| fu_synthetic := Some (of_Z 2); fu_organic := None |};
     pesticideUsage := None;
     fuelUsage := Some {| diesel := Some (lit 2875 1000); petrol := None; electricity := None |};
     irrigationType := Some "rainfed"%string;
     irrigationHours := None;
     transportMethod := None;
     conservationAgriculture := None;
     mulching := None;
     cropDiversity := None |}.

(** One hectare under drip irrigation for an hour and a half. *)
Definition drip_plot : FarmData :=
  {| area := of_Z 1;
     fertilizerUsage := None;
     pesticideUsage := None;
     fuelUsage := None;
     irrigationType := Some "drip"%string;
     irrigationHours := Some (lit 15 10);
     transportMethod := Some "manual"%string;
     conservationAgriculture := None;
     mulching := None;
     cropDiversity := None |}.

(** A fully populated request, and the same under drip irrigation. *)
Definition farm : FarmData :=
  {| area := of_Z 2;
     fertilizerUsage := Some {| fu_synthetic := Some (of_Z 940); fu_organic := Some (of_Z 60) |};
     pesticideUsage := Some {| pu_chemical := Some (of_Z 4); pu_organic := Some (of_Z 1) |};
     fuelUsage := Some {| diesel := Some (of_Z 30); petrol := Some zero; electricity := Some zero |};
     irrigationType := Some "flood"%string;
     irrigationHours := Some (of_Z 10);
     transportMethod := Some "tractor"%string;
     conservationAgriculture := Some false;
     mulching := Some false;
     cropDiversity := Some (of_Z 1) |}.

Definition drip_farm : FarmData := with_irrigationType (Some "drip"%string) farm.

End DoubleSamples.

(** ** Numbers: values, rounding *)

Import JS CarbonFootprintService Validation.

Lemma is_value_Fin (q : Q) : is_value (Fin q) q.
Proof. simpl. reflexivity. Qed.

Lemma is_value_eq (n : num) (p q : Q) : is_value n p -> p == q -> is_value n q.
Proof.
  destruct n as [x|]; simpl; [|tauto].
  intros Hx Hpq. now rewrite Hx.
Qed.

Lemma is_value_add (a b : num) (x y : Q) :
  is_value a x -> is_value b y -> is_value (a + b)%js (x + y).
Proof.
  destruct a, b; simpl; try tauto.
  intros Ha Hb. now rewrite Ha, Hb.
Qed.

Lemma is_value_mul (a b : num) (x y : Q) :
  is_value a x -> is_value b y -> is_value (a * b)%js (x * y).
Proof.
  destruct a, b; simpl; try tauto.
  intros Ha Hb. now rewrite Ha, Hb.
Qed.

Lemma is_value_div (a b : num) (x y : Q) :
  is_value a x -> is_value b y -> ~ y == 0 -> is_value (a / b)%js (x / y).
Proof.
  destruct a as [p|], b as [q|]; simpl; try tauto.
  intros Ha Hb Hy.
  destruct (Qeq_bool q 0) eqn:E.
  - apply Qeq_bool_iff in E. exfalso. apply Hy. now rewrite <- Hb.
  - simpl. now rewrite Ha, Hb.
Qed.

Lemma round_half_up_eq (x y : Q) : x == y -> round_half_up x = round_half_up y.
Proof.
  intros H. unfold round_half_up. now rewrite H.
Qed.

Lemma is_value_Math_round (a : num) (x : Q) :
  is_value a x -> is_value (Math_round a) (inject_Z (round_half_up x)).
Proof.
  destruct a as [p|]; simpl; [|tauto].
  intros H. now rewrite (round_half_up_eq p x H).
Qed.

Lemma is_value_round_cents (a : num) (x : Q) :
  is_value a x -> is_value (round_cents a) (Spec.round2 x).
Proof.
  intros H. unfold round_cents, Spec.round2.
  apply is_value_div.
  - apply is_value_Math_round, is_value_mul; [exact H | apply is_value_Fin].
  - apply is_value_Fin.
  - discriminate.
Qed.

(** [Math.round] picks the integer within one half of its argument. *)
Lemma round_half_up_nearest (x : Q) :
  x - (1 # 2) < inject_Z (round_half_up x) /\ inject_Z (round_half_up x) <= x + (1 # 2).
Proof.
  unfold round_half_up.
  pose proof (Qfloor_le (x + (1 # 2))) as Hle.
  pose proof (Qlt_floor (x + (1 # 2))) as Hlt.
  rewrite inject_Z_plus in Hlt.
  change (inject_Z 1) with 1 in Hlt.
  set (z := inject_Z (Qfloor (x + (1 # 2)))) in *.
  split; lra.
Qed.

(** Rounding to two decimals yields a whole number of hundredths within
    half a hundredth of its argument. *)
Lemma round2_nearest (x : Q) :
  x - (1 # 200) < Spec.round2 x /\ Spec.round2 x <= x + (1 # 200).
Proof.
  unfold Spec.round2.
  destruct (round_half_up_nearest (x * 100)) as [Hlo Hhi].
  set (z := inject_Z (round_half_up (x * 100))) in *.
  assert (E : z / 100 == z * (1 # 100)) by (unfold Qdiv; reflexivity).
  rewrite E. split; lra.
Qed.

Lemma round2_hundredths (x : Q) :
  Spec.round2 x * 100 == inject_Z (round_half_up (x * 100)).
Proof.
  unfold Spec.round2. field.
Qed.

Lemma round2_eq (x y : Q) : x == y -> Spec.round2 x == Spec.round2 y.
Proof.
  intros H. unfold Spec.round2.
  rewrite (round_half_up_eq (x * 100) (y * 100)); [reflexivity | now rewrite H].
Qed.

Lemma round2_zero : Spec.round2 0 == 0.
Proof. reflexivity. Qed.

(** Reading optional quantities. *)
Lemma is_value_or_zero (x : option Q) :
  is_value (field x || Fin 0)%js (Spec.quantity x).
Proof.
  destruct x as [q|]; unfold or_else; simpl; [|reflexivity].
  destruct (Qeq_bool q 0) eqn:E; simpl; [|reflexivity].
  apply Qeq_bool_iff in E. now rewrite E.
Qed.

Lemma falsy_quantity (x : option Q) :
  truthy (field x) = false -> Spec.quantity x == 0.
Proof.
  destruct x as [q|]; simpl; [|reflexivity].
  intros H. apply negb_false_iff in H. now apply Qeq_bool_iff.
Qed.

Lemma truthy_quantity (x : option Q) :
  truthy (field x) = true -> ToNumber (field x) = Fin (Spec.quantity x).
Proof.
  destruct x as [q|]; simpl; [reflexivity | discriminate].
Qed.

Lemma factor_num_value (key : string) (q : Q) :
  factor key = Some (Fin q) -> is_value (factor_num key) q.
Proof.
  unfold factor_num. intros ->. apply is_value_Fin.
Qed.

(** ** The running total of the two footprints *)

(** One "usage" block: [if (farmData.u) total += (farmData.u.x || 0) * factor]. *)
Lemma usage_step (U : Type) (u : option U) (get : U -> option Q)
      (key : string) (f : Q) (t : num) (x : Q) :
  factor key = Some (Fin f) ->
  is_value t x ->
  is_value
    match u with
    | Some v => (t + (field (get v) || Fin 0) * factor_num key)%js
    | None => t
    end
    (x + match u with
         | Some v => Spec.quantity (get v)
         | None => 0
         end * f).
Proof.
  intros Hf Ht. destruct u as [v|].
  - apply is_value_add; [exact Ht|].
    apply is_value_mul; [apply is_value_or_zero | now apply factor_num_value].
  - apply (is_value_eq _ _ _ Ht). ring.
Qed.

Lemma irrigationTypes_cases (t : string) :
  one_of irrigationTypes (Some t) = true ->
  t = "flood"%string \/ t = "drip"%string \/ t = "sprinkler"%string \/ t = "rainfed"%string.
Proof.
  simpl. rewrite !orb_true_iff, !String.eqb_eq. intuition discriminate.
Qed.

(** No irrigation type is a key of the emission-factor table: the keys
    carry the suffix [_irrigation]. *)
Lemma irrigationType_not_a_key (t : string) :
  one_of irrigationTypes (Some t) = true ->
  factor t = undefined /\ truthy_str (Some t) = true.
Proof.
  intros H.
  destruct (irrigationTypes_cases t H) as [-> | [-> | [-> | ->]]]; split; reflexivity.
Qed.

(** The irrigation block of the baseline. *)
Lemma baseline_irrigation_step (d : FarmData) (t : num) (x : Q) :
  one_of irrigationTypes (irrigationType d) = true ->
  is_value t x ->
  is_value
    (if truthy (field (irrigationHours d)) && truthy_str (irrigationType d)
     then
       (t + ToNumber (field (irrigationHours d)) * Fin (area d)
            * (match irrigationType d with
               | Some k => factor k
               | None => undefined
               end || Fin (5 # 10)))%js
     else t)
    (x + match irrigationType d with
         | Some _ => Spec.hours d * area d * (5 # 10)
         | None => 0
         end).
Proof.
  intros Hty Ht. unfold Spec.hours.
  destruct (irrigationType d) as [k|].
  - destruct (irrigationType_not_a_key k Hty) as [-> ->].
    rewrite andb_true_r.
    destruct (truthy (field (irrigationHours d))) eqn:Eh.
    + rewrite (truthy_quantity _ Eh).
      apply is_value_add; [exact Ht|]. apply is_value_Fin.
    + apply (is_value_eq _ _ _ Ht).
      rewrite (falsy_quantity _ Eh). ring.
  - rewrite andb_false_r. apply (is_value_eq _ _ _ Ht). ring.
Qed.

(** The drip block of the eco-friendly footprint. *)
Lemma ecofriendly_drip_step (d : FarmData) (t : num) (x : Q) :
  is_value t x ->
  is_value
    (if truthy (field (irrigationHours d)) && str_eq (irrigationType d) "drip"
     then
       (t + ToNumber (field (irrigationHours d)) * Fin (area d)
            * factor_num "drip_irrigation")%js
     else t)
    (x + if str_eq (irrigationType d) "drip"
         then Spec.hours d * area d * (15 # 100) else 0).
Proof.
  intros Ht. unfold Spec.hours.
  destruct (str_eq (irrigationType d) "drip").
  - rewrite andb_true_r.
    destruct (truthy (field (irrigationHours d))) eqn:Eh.
    + rewrite (truthy_quantity _ Eh).
      apply is_value_add; [exact Ht|]. apply is_value_Fin.
    + apply (is_value_eq _ _ _ Ht).
      rewrite (falsy_quantity _ Eh). ring.
  - rewrite andb_false_r. apply (is_value_eq _ _ _ Ht). ring.
Qed.

(** The transport block of the eco-friendly footprint. *)
Lemma ecofriendly_transport_step (d : FarmData) (t : num) (x : Q) :
  is_value t x ->
  is_value
    (if str_eq (transportMethod d) "manual" then (t + Fin 0)%js else t) x.
Proof.
  intros Ht. destruct (str_eq (transportMethod d) "manual"); [|exact Ht].
  apply (is_value_eq _ (x + 0)); [|ring].
  apply is_value_add; [exact Ht | apply is_value_Fin].
Qed.

(** What the baseline computes on every validated request: the fallback
    factor 0.5 whenever an irrigation type is present, nothing for the
    irrigation when it is absent. *)
Lemma baseline_value (d : FarmData) :
  one_of irrigationTypes (irrigationType d) = true ->
  is_value (calculateBaselineFootprint d)
    (Spec.round2
       (Spec.synthetic_fertilizer_kg d * (45 # 10)
        + Spec.chemical_pesticide_L d * (25 # 10)
        + Spec.diesel_L d * (268 # 100)
        + match irrigationType d with
          | Some _ => Spec.hours d * area d * (5 # 10)
          | None => 0
          end)).
Proof.
  intros Hty. unfold calculateBaselineFootprint. cbv zeta.
  eapply is_value_eq.
  - apply is_value_round_cents.
    eapply (baseline_irrigation_step d _ _ Hty).
    eapply (usage_step _ (fuelUsage d) diesel "diesel" (268 # 100)); [reflexivity|].
    eapply (usage_step _ (pesticideUsage d) pu_chemical "chemical_pesticide" (25 # 10));
      [reflexivity|].
    eapply (usage_step _ (fertilizerUsage d) fu_synthetic "synthetic_fertilizer" (45 # 10));
      [reflexivity|].
    apply is_value_Fin.
  - apply round2_eq.
    unfold Spec.synthetic_fertilizer_kg, Spec.chemical_pesticide_L, Spec.diesel_L.
    ring.
Qed.

Lemma ecofriendly_value (d : FarmData) :
  is_value (calculateEcofriendlyFootprint d) (Spec.ecofriendlyFootprint d).
Proof.
  unfold calculateEcofriendlyFootprint, Spec.ecofriendlyFootprint. cbv zeta.
  eapply is_value_eq.
  - apply is_value_round_cents.
    eapply ecofriendly_transport_step.
    eapply ecofriendly_drip_step.
    eapply (usage_step _ (pesticideUsage d) pu_organic "organic_pesticide" (4 # 10));
      [reflexivity|].
    eapply (usage_step _ (fertilizerUsage d) fu_organic "organic_fertilizer" (8 # 10));
      [reflexivity|].
    apply is_value_Fin.
  - apply round2_eq.
    unfold Spec.organic_fertilizer_kg, Spec.organic_pesticide_L.
    ring.
Qed.

Lemma validated_irrigationType (d : FarmData) :
  validated d = true -> one_of irrigationTypes (irrigationType d) = true.
Proof.
  unfold validated. rewrite !andb_true_iff. tauto.
Qed.

Import Spec Samples.

(** ** The reduction percentage *)

(** No self-reduction: equal footprints give 0. *)
Lemma calculateCarbonReduction_self (x : Q) :
  is_value (calculateCarbonReduction (Fin x) (Fin x)) 0.
Proof.
  unfold calculateCarbonReduction. simpl strict_eq.
  destruct (Qeq_bool x 0) eqn:E; [reflexivity|].
  simpl. rewrite E. simpl.
  assert (H : (x - x) / x * 100 == 0) by (unfold Qdiv; ring).
  rewrite (round_half_up_eq _ _ H). reflexivity.
Qed.

(** ** The sustainability score *)

(** One bonus line: [if (condition) score += points]. *)
Lemma bonus_step (c : bool) (points : Q) (s : num) (x : Q) :
  is_value s x ->
  is_value (if c then (s + Fin points)%js else s) (x + bonus c points).
Proof.
  intros Hs. destruct c; unfold bonus.
  - apply is_value_add; [exact Hs | apply is_value_Fin].
  - apply (is_value_eq _ _ _ Hs). ring.
Qed.

(** [Math.min(100, Math.max(0, score))] is the clamp. *)
Lemma clamp_step (s : num) (x : Q) :
  is_value s x ->
  is_value (Math_min (Fin 100) (Math_max (Fin 0) s)) (clamp 0 100 x).
Proof.
  destruct s as [p|]; simpl; [|tauto].
  intros Hp. unfold clamp. rewrite <- Hp.
  destruct (Qle_bool 0 p) eqn:E0.
  - apply Qle_bool_iff in E0. rewrite (Q.max_r 0 p E0).
    destruct (Qle_bool 100 p) eqn:E1.
    + apply Qle_bool_iff in E1. now rewrite (Q.min_l 100 p E1).
    + assert (H : p <= 100).
      { apply Qnot_lt_le. intros H. apply Qlt_le_weak, Qle_bool_iff in H. congruence. }
      now rewrite (Q.min_r 100 p H).
  - assert (H : p <= 0).
    { apply Qnot_lt_le. intros H. apply Qlt_le_weak, Qle_bool_iff in H. congruence. }
    rewrite (Q.max_l 0 p H). simpl.
    rewrite Q.min_r; [reflexivity | discriminate].
Qed.

Lemma clamp_bounds (lo hi x : Q) : lo <= hi -> lo <= clamp lo hi x /\ clamp lo hi x <= hi.
Proof.
  intros H. unfold clamp. split.
  - apply Q.min_glb; [exact H | apply Q.le_max_l].
  - apply Q.le_min_l.
Qed.

Lemma ge_fertilizer_organic (d : FarmData) (k : Q) :
  ge (ToNumber (fertilizer_organic d)) (Fin k) = at_least (organic_fertilizer d) k.
Proof.
  unfold fertilizer_organic, organic_fertilizer.
  destruct (fertilizerUsage d) as [u|]; [|reflexivity].
  destruct (fu_organic u); reflexivity.
Qed.

Lemma ge_pesticide_organic (d : FarmData) (k : Q) :
  ge (ToNumber (pesticide_organic d)) (Fin k) = at_least (organic_pesticide d) k.
Proof.
  unfold pesticide_organic, organic_pesticide.
  destruct (pesticideUsage d) as [u|]; [|reflexivity].
  destruct (pu_organic u); reflexivity.
Qed.

Lemma ge_cropDiversity (d : FarmData) (k : Q) :
  ge (ToNumber (field (cropDiversity d))) (Fin k) = at_least (cropDiversity d) k.
Proof.
  destruct (cropDiversity d); reflexivity.
Qed.

Lemma strict_eq_fertilizer_synthetic (d : FarmData) :
  strict_eq (fertilizer_synthetic d) (Fin 0) = is_zero (synthetic_fertilizer d).
Proof.
  unfold fertilizer_synthetic, synthetic_fertilizer.
  destruct (fertilizerUsage d) as [u|]; [|reflexivity].
  destruct (fu_synthetic u); reflexivity.
Qed.

Lemma strict_eq_pesticide_chemical (d : FarmData) :
  strict_eq (pesticide_chemical d) (Fin 0) = is_zero (chemical_pesticide d).
Proof.
  unfold pesticide_chemical, chemical_pesticide.
  destruct (pesticideUsage d) as [u|]; [|reflexivity].
  destruct (pu_chemical u); reflexivity.
Qed.

(** The score is the clamped sum of the base and the eight bonuses. *)
Lemma score_value (d : FarmData) :
  is_value (calculateSustainabilityScore d) (scoreByQuantity d).
Proof.
  unfold calculateSustainabilityScore, scoreByQuantity. cbv zeta.
  rewrite ge_fertilizer_organic, ge_pesticide_organic, ge_cropDiversity,
    strict_eq_fertilizer_synthetic, strict_eq_pesticide_chemical.
  apply clamp_step.
  repeat apply bonus_step.
  apply is_value_Fin.
Qed.

(** Before the clamp the sum lies between 50 and 120. *)
Lemma score_sum_bounds (c1 c2 c3 c4 c5 c6 c7 c8 : bool) :
  50 <= 50 + bonus c1 10 + bonus c2 5 + bonus c3 10 + bonus c4 5
        + bonus c5 15 + bonus c6 10 + bonus c7 10 + bonus c8 5
  /\ 50 + bonus c1 10 + bonus c2 5 + bonus c3 10 + bonus c4 5
     + bonus c5 15 + bonus c6 10 + bonus c7 10 + bonus c8 5 <= 120.
Proof.
  destruct c1, c2, c3, c4, c5, c6, c7, c8; split; discriminate.
Qed.

Lemma scoreByQuantity_bounds (d : FarmData) :
  50 <= scoreByQuantity d /\ scoreByQuantity d <= 100.
Proof.
  unfold scoreByQuantity.
  match goal with |- 50 <= clamp 0 100 ?s /\ _ => set (sum := s) end.
  assert (Hs : 50 <= sum) by apply score_sum_bounds.
  destruct (clamp_bounds 0 100 sum) as [_ Hhi]; [discriminate|].
  split; [|exact Hhi].
  unfold clamp. apply Q.min_glb; [discriminate|].
  apply Qle_trans with sum; [exact Hs | apply Q.le_max_r].
Qed.

(** C4, as the specification words it, fails on [farm]: 60 kg of organic
    fertilizer against 940 kg of synthetic is a share of 6 percent, which
    earns nothing, yet the service compares the quantity itself with 50
    and adds 10. *)
Lemma calculateSustainabilityScore_share_farm :
  validated farm = true
  /\ is_value (calculateSustainabilityScore farm) 60
  /\ Spec.sustainabilityScore farm == 50
  /\ ~ is_value (calculateSustainabilityScore farm) (Spec.sustainabilityScore farm).
Proof.
  split; [reflexivity|]. split; [reflexivity|]. split; [reflexivity|].
  intros H. vm_compute in H. discriminate.
Qed.

(** C4 (amended).  For every validated request,
    [calculateSustainabilityScore] returns the clamp to [0,100] of 50 plus
    these independent bonuses: organic fertilizer quantity at least 50, +10;
    synthetic fertilizer present and zero, +5; organic pesticide quantity
    at least 50, +10; chemical pesticide present and zero, +5; drip
    irrigation, +15; crop diversity at least 3, +10; conservation
    agriculture, +10; mulching, +5.  The result lies in [0,100]. *)
Theorem calculateSustainabilityScore_formula (d : FarmData) :
  validated d = true ->
  is_value (calculateSustainabilityScore d)
    (clamp 0 100
       (50
        + bonus (at_least (organic_fertilizer d) 50) 10
        + bonus (is_zero (synthetic_fertilizer d)) 5
        + bonus (at_least (organic_pesticide d) 50) 10
        + bonus (is_zero (chemical_pesticide d)) 5
        + bonus (str_eq (irrigationType d) "drip") 15
        + bonus (at_least (cropDiversity d) 3) 10
        + bonus (truthy_bool (conservationAgriculture d)) 10
        + bonus (truthy_bool (mulching d)) 5))
  /\ exists q : Q, calculateSustainabilityScore d = Fin q /\ 0 <= q /\ q <= 100.
Proof.
  intros _. split; [apply score_value|].
  pose proof (score_value d) as Hv.
  destruct (scoreByQuantity_bounds d) as [Hlo Hhi].
  destruct (calculateSustainabilityScore d) as [q|]; [|contradiction].
  exists q. simpl in Hv. split; [reflexivity|]. rewrite Hv. split; lra.
Qed.

Lemma calculateSustainabilityScore_formula_witness :
  validated drip_farm = true
  /\ is_value (calculateSustainabilityScore drip_farm) 75.
Proof.
  split; [reflexivity|].
  destruct (calculateSustainabilityScore_formula drip_farm) as [H _];
    [reflexivity|].
  eapply is_value_eq; [exact H | reflexivity].
Defined.

(** C10.  For every validated request the score is at least 50 and at
    most 100: every bonus is non-negative, so the lower clamp at 0 never
    acts. *)
Theorem calculateSustainabilityScore_at_least_50 (d : FarmData) :
  validated d = true ->
  (exists q : Q, calculateSustainabilityScore d = Fin q /\ 50 <= q /\ q <= 100)
  /\ is_value (calculateSustainabilityScore d)
       (Qmin 100
          (50
           + bonus (at_least (organic_fertilizer d) 50) 10
           + bonus (is_zero (synthetic_fertilizer d)) 5
           + bonus (at_least (organic_pesticide d) 50) 10
           + bonus (is_zero (chemical_pesticide d)) 5
           + bonus (str_eq (irrigationType d) "drip") 15
           + bonus (at_least (cropDiversity d) 3) 10
           + bonus (truthy_bool (conservationAgriculture d)) 10
           + bonus (truthy_bool (mulching d)) 5)).
Proof.
  intros _.
  pose proof (score_value d) as Hv.
  destruct (scoreByQuantity_bounds d) as [Hlo Hhi].
  split.
  - destruct (calculateSustainabilityScore d) as [q|]; [|contradiction].
    exists q. simpl in Hv. split; [reflexivity|]. rewrite Hv. split; assumption.
  - apply (is_value_eq _ _ _ Hv).
    unfold scoreByQuantity, clamp.
    rewrite Q.max_r; [reflexivity|].
    apply Qle_trans with 50; [discriminate | apply score_sum_bounds].
Qed.

Lemma calculateSustainabilityScore_at_least_50_witness :
  validated idle_farm = true
  /\ exists q : Q, calculateSustainabilityScore idle_farm = Fin q /\ 50 <= q /\ q <= 100.
Proof.
  split; [reflexivity|].
  destruct (calculateSustainabilityScore_at_least_50 idle_farm) as [H _];
    [reflexivity | exact H].
Defined.

(** ** The stable sort

    [JS.sort] under a comparator that subtracts integer keys, as
    [by_priority] does. *)
Section StableSort.

Import Order.

Variable A : Type.
Variable key : A -> Z.

Lemma insert_perm (x : A) (l : list A) :
  Permutation (x :: l) (insert (by_key key) x l).
Proof.
  induction l as [|y rest IH]; simpl; [reflexivity|].
  destruct (0 <? by_key key x y)%Z; [|reflexivity].
  rewrite perm_swap. now apply perm_skip.
Qed.

Lemma sort_perm (l : list A) : Permutation l (sort (by_key key) l).
Proof.
  induction l as [|x rest IH]; simpl; [reflexivity|].
  rewrite <- insert_perm. now apply perm_skip.
Qed.

Lemma sort_In (x : A) (l : list A) : In x (sort (by_key key) l) <-> In x l.
Proof.
  split; apply Permutation_in; [symmetry|]; apply sort_perm.
Qed.

Lemma insert_sorted (x : A) (l : list A) :
  StronglySorted (key_le key) l -> StronglySorted (key_le key) (insert (by_key key) x l).
Proof.
  induction 1 as [|y rest Hs IH Hy]; simpl.
  - constructor; constructor.
  - destruct (0 <? by_key key x y)%Z eqn:E.
    + apply Z.ltb_lt in E. constructor; [exact IH|].
      apply (Permutation_Forall (insert_perm x rest)).
      constructor; [|exact Hy]. unfold key_le, by_key in *. lia.
    + apply Z.ltb_ge in E. constructor; [now constructor|].
      constructor; [unfold key_le, by_key in *; lia|].
      apply (Forall_impl _ (P := key_le key y)); [|exact Hy].
      intros b Hb. unfold key_le, by_key in *. lia.
Qed.

Lemma sort_sorted (l : list A) : StronglySorted (key_le key) (sort (by_key key) l).
Proof.
  induction l as [|x rest IH]; simpl; [constructor | now apply insert_sorted].
Qed.

(** Inserting never passes an element of the same key. *)
Lemma filter_insert (k : Z) (x : A) (l : list A) :
  filter (has_key key k) (insert (by_key key) x l)
  = if has_key key k x then x :: filter (has_key key k) l else filter (has_key key k) l.
Proof.
  induction l as [|y rest IH]; simpl; [reflexivity|].
  destruct (0 <? by_key key x y)%Z eqn:E; simpl; [|reflexivity].
  rewrite IH. apply Z.ltb_lt in E.
  destruct (has_key key k x) eqn:Ex; [|reflexivity].
  assert (Ey : has_key key k y = false).
  { unfold has_key, by_key in *. apply Z.eqb_eq in Ex. apply Z.eqb_neq. lia. }
  now rewrite Ey.
Qed.

(** Stability: the elements of each key keep their order. *)
Lemma sort_stable (k : Z) (l : list A) :
  filter (has_key key k) (sort (by_key key) l) = filter (has_key key k) l.
Proof.
  induction l as [|x rest IH]; simpl; [reflexivity|].
  rewrite filter_insert, IH. reflexivity.
Qed.

(** An array that is already in order is returned as it is. *)
Lemma sort_sorted_id (l : list A) :
  StronglySorted (key_le key) l -> sort (by_key key) l = l.
Proof.
  induction 1 as [|x rest Hs IH Hx]; simpl; [reflexivity|].
  rewrite IH. destruct Hx as [|y rest' Hxy _]; simpl; [reflexivity|].
  assert (E : (0 <? by_key key x y)%Z = false).
  { apply Z.ltb_ge. unfold key_le, by_key in *. lia. }
  now rewrite E.
Qed.

Lemma sorted_positions (l : list A) (i j : nat) (a b : A) :
  StronglySorted (key_le key) l ->
  (i < j)%nat ->
  nth_error l i = Some a ->
  nth_error l j = Some b ->
  key_le key a b.
Proof.
  intros Hs. revert i j.
  induction Hs as [|x rest Hs IH Hx]; intros i j Hij Hi Hj.
  - destruct i; discriminate.
  - destruct j as [|j]; [lia|]. simpl in Hj.
    destruct i as [|i]; simpl in Hi.
    + injection Hi as <-.
      rewrite Forall_forall in Hx. apply Hx. eapply nth_error_In, Hj.
    + apply (IH i j); [lia | exact Hi | exact Hj].
Qed.

Lemma filter_has_key_head (x : A) (l : list A) :
  filter (has_key key (key x)) (x :: l) = x :: filter (has_key key (key x)) l.
Proof.
  simpl. unfold has_key at 1. now rewrite Z.eqb_refl.
Qed.

Lemma head_key_le (x y : A) (t1 t2 : list A) :
  StronglySorted (key_le key) (y :: t2) ->
  filter (has_key key (key x)) (x :: t1) = filter (has_key key (key x)) (y :: t2) ->
  key_le key y x.
Proof.
  intros Hs Hf. rewrite filter_has_key_head in Hf.
  assert (Hin : In x (y :: t2)).
  { eapply proj1. apply (filter_In (has_key key (key x))). rewrite <- Hf. now left. }
  destruct Hin as [<- | Hin]; [unfold key_le; lia|].
  inversion Hs as [|? ? _ Hy]; subst.
  rewrite Forall_forall in Hy. now apply Hy.
Qed.

(** Two ordered arrays with the same elements of each key, in the same
    order, are equal: the outcome of a stable sort does not depend on the
    algorithm. *)
Lemma sorted_stable_unique (l1 l2 : list A) :
  StronglySorted (key_le key) l1 ->
  StronglySorted (key_le key) l2 ->
  (forall k, filter (has_key key k) l1 = filter (has_key key k) l2) ->
  l1 = l2.
Proof.
  intros Hs1. revert l2.
  induction Hs1 as [|x t1 Hs1 IH Hx]; intros l2 Hs2 Hf.
  - destruct l2 as [|y t2]; [reflexivity|].
    specialize (Hf (key y)). rewrite filter_has_key_head in Hf. discriminate.
  - destruct l2 as [|y t2].
    + specialize (Hf (key x)). rewrite filter_has_key_head in Hf. discriminate.
    + assert (Hyx : key_le key y x) by (apply (head_key_le x y t1 t2 Hs2), Hf).
      assert (Hxy : key_le key x y).
      { apply (head_key_le y x t2 t1); [now constructor | symmetry; apply Hf]. }
      assert (Hk : key x = key y) by (unfold key_le in *; lia).
      pose proof (Hf (key x)) as Hfx.
      rewrite filter_has_key_head, Hk, filter_has_key_head in Hfx.
      injection Hfx as <- Hfx.
      f_equal. apply IH; [now inversion Hs2|].
      intros k. specialize (Hf k). simpl in Hf.
      destruct (has_key key k x); [now injection Hf | exact Hf].
Qed.

Lemma stable_sort_unique (l l' : list A) :
  StronglySorted (key_le key) l' ->
  (forall k, filter (has_key key k) l' = filter (has_key key k) l) ->
  l' = sort (by_key key) l.
Proof.
  intros Hs Hf. apply sorted_stable_unique; [exact Hs | apply sort_sorted|].
  intros k. now rewrite sort_stable.
Qed.

End StableSort.

(** ** The recommendations *)

Lemma by_priority_by_key : by_priority = Order.by_key rank.
Proof. reflexivity. Qed.

Lemma recommendations_perm (d : FarmData) :
  Permutation (pushed_recommendations d) (getEcofriendlyRecommendations d).
Proof.
  unfold getEcofriendlyRecommendations. rewrite by_priority_by_key. apply sort_perm.
Qed.

Lemma recommendations_In (r : Recommendation) (d : FarmData) :
  In r (getEcofriendlyRecommendations d) <-> In r (pushed_recommendations d).
Proof.
  unfold getEcofriendlyRecommendations. rewrite by_priority_by_key. apply sort_In.
Qed.

(** The two rules without a condition always fire. *)
Lemma always_fire (d : FarmData) :
  In rec_crop_rotation (getEcofriendlyRecommendations d)
  /\ In rec_conservation_agriculture (getEcofriendlyRecommendations d).
Proof.
  rewrite !recommendations_In. unfold pushed_recommendations.
  split; rewrite !in_app_iff; simpl; tauto.
Qed.

(** The rules push their recommendations in priority order already. *)
Lemma pushed_recommendations_sorted (d : FarmData) :
  StronglySorted priority_le (pushed_recommendations d).
Proof.
  unfold pushed_recommendations.
  destruct (gt (ToNumber (fertilizer_synthetic d)) (Fin 0));
    destruct (gt (ToNumber (pesticide_chemical d)) (Fin 0));
    destruct (str_eq (irrigationType d) "flood" || str_eq (irrigationType d) "sprinkler");
    simpl;
    repeat first [ apply SSorted_nil | apply SSorted_cons | apply Forall_nil | apply Forall_cons ];
    unfold priority_le, Order.key_le, rank; simpl; lia.
Qed.

Lemma recommendations_as_pushed (d : FarmData) :
  getEcofriendlyRecommendations d = pushed_recommendations d.
Proof.
  unfold getEcofriendlyRecommendations. rewrite by_priority_by_key.
  apply sort_sorted_id, pushed_recommendations_sorted.
Qed.

(** A table miss makes the savings of the drip recommendation [NaN]. *)
Lemma drip_savings_NaN (d : FarmData) :
  one_of irrigationTypes (irrigationType d) = true ->
  irrigationType d <> None ->
  savings (rec_drip_irrigation d) = Some NaN.
Proof.
  intros Hty Hsome. unfold rec_drip_irrigation. cbn [savings].
  destruct (irrigationType d) as [t|]; [|congruence].
  destruct (irrigationType_not_a_key t Hty) as [-> _].
  destruct (ToNumber (field (irrigationHours d))); reflexivity.
Qed.

Lemma drip_recommendation_pushed (d : FarmData) :
  str_eq (irrigationType d) "flood" || str_eq (irrigationType d) "sprinkler" = true ->
  In (rec_drip_irrigation d) (getEcofriendlyRecommendations d).
Proof.
  intros H. rewrite recommendations_In. unfold pushed_recommendations.
  rewrite H, !in_app_iff. simpl. tauto.
Qed.

(** C5.  On the validated request [flooded_plot] (flood irrigation, 10
    hours, 2 hectares) the drip-irrigation recommendation is returned, but
    its savings are [NaN], where the specification gives
    10 * 2 * (0.5 - 0.15) = 7:
    the bare type [flood] is not a key of the emission-factor table. *)
Theorem drip_recommendation_savings_flooded_plot :
  validated flooded_plot = true
  /\ In (rec_drip_irrigation flooded_plot) (getEcofriendlyRecommendations flooded_plot)
  /\ savings (rec_drip_irrigation flooded_plot) = Some NaN
  /\ dripSavings flooded_plot == 7.
Proof.
  split; [reflexivity|]. split; [|split].
  - apply drip_recommendation_pushed. reflexivity.
  - apply drip_savings_NaN; [reflexivity | discriminate].
  - reflexivity.
Qed.

(** C6.  For every validated request the returned recommendations are in
    priority order (high, medium, low), no medium item stands before a high
    one, and the items of each priority keep the order in which the rules
    pushed them; the list is a rearrangement of the pushed one. *)
Theorem getEcofriendlyRecommendations_sorted_stable (d : FarmData) :
  validated d = true ->
  StronglySorted priority_le (getEcofriendlyRecommendations d)
  /\ (forall (i j : nat) (a b : Recommendation),
         (i < j)%nat ->
         nth_error (getEcofriendlyRecommendations d) i = Some a ->
         nth_error (getEcofriendlyRecommendations d) j = Some b ->
         ~ (priority a = medium /\ priority b = high))
  /\ (forall p : Priority,
         filter (has_priority p) (getEcofriendlyRecommendations d)
         = filter (has_priority p) (pushed_recommendations d))
  /\ Permutation (pushed_recommendations d) (getEcofriendlyRecommendations d).
Proof.
  intros _.
  assert (Hs : StronglySorted priority_le (getEcofriendlyRecommendations d)).
  { unfold getEcofriendlyRecommendations. rewrite by_priority_by_key. apply sort_sorted. }
  split; [exact Hs|]. split; [|split].
  - intros i j a b Hij Ha Hb [Pa Pb].
    pose proof (sorted_positions _ rank _ i j a b Hs Hij Ha Hb) as Hle.
    unfold Order.key_le, rank in Hle. rewrite Pa, Pb in Hle. simpl in Hle. lia.
  - intros p. unfold getEcofriendlyRecommendations. rewrite by_priority_by_key.
    apply sort_stable.
  - apply recommendations_perm.
Qed.

Lemma getEcofriendlyRecommendations_sorted_stable_witness :
  validated farm = true
  /\ StronglySorted priority_le (getEcofriendlyRecommendations farm)
  /\ filter (has_priority high) (getEcofriendlyRecommendations farm)
     = [rec_organic_fertilizer farm; rec_organic_pest_control farm; rec_drip_irrigation farm].
Proof.
  split; [reflexivity|].
  destruct (getEcofriendlyRecommendations_sorted_stable farm) as (Hs & _ & Hf & _);
    [reflexivity|].
  split; [exact Hs|]. rewrite Hf. reflexivity.
Defined.

(** ** The request without any usage *)

Lemma no_rule_for_zero (x : option Q) :
  quantity x == 0 -> gt (ToNumber (field x)) (Fin 0) = false.
Proof.
  destruct x as [q|]; simpl; [|reflexivity].
  intros H. apply negb_false_iff, Qle_bool_iff. rewrite H. apply Qle_refl.
Qed.

Lemma no_fertilizer_rule (d : FarmData) :
  synthetic_fertilizer_kg d == 0 -> gt (ToNumber (fertilizer_synthetic d)) (Fin 0) = false.
Proof.
  unfold synthetic_fertilizer_kg, fertilizer_synthetic.
  destruct (fertilizerUsage d) as [u|]; [apply no_rule_for_zero | reflexivity].
Qed.

Lemma no_pesticide_rule (d : FarmData) :
  chemical_pesticide_L d == 0 -> gt (ToNumber (pesticide_chemical d)) (Fin 0) = false.
Proof.
  unfold chemical_pesticide_L, pesticide_chemical.
  destruct (pesticideUsage d) as [u|]; [apply no_rule_for_zero | reflexivity].
Qed.

Lemma calculateCarbonReduction_zero_baseline (b e : num) :
  is_value b 0 -> calculateCarbonReduction b e = Fin 0.
Proof.
  destruct b as [p|]; simpl; [|tauto].
  intros H. unfold calculateCarbonReduction. simpl.
  apply Qeq_bool_iff in H. now rewrite H.
Qed.

(** C7.  For a validated request whose usage quantities are all zero,
    the baseline is 0, the eco-friendly footprint is 0 and the reduction
    computed from them is 0; the crop-rotation and conservation-agriculture
    recommendations are returned, neither has a savings field, and when the
    irrigation rule does not fire either they are the whole list. *)
Theorem zero_usage_request (d : FarmData) :
  validated d = true ->
  no_usage d ->
  is_value (calculateBaselineFootprint d) 0
  /\ is_value (calculateEcofriendlyFootprint d) 0
  /\ calculateCarbonReduction (calculateBaselineFootprint d)
       (calculateEcofriendlyFootprint d) = Fin 0
  /\ In rec_crop_rotation (getEcofriendlyRecommendations d)
  /\ In rec_conservation_agriculture (getEcofriendlyRecommendations d)
  /\ savings rec_crop_rotation = undefined
  /\ savings rec_conservation_agriculture = undefined
  /\ (str_eq (irrigationType d) "flood" || str_eq (irrigationType d) "sprinkler" = false ->
      getEcofriendlyRecommendations d = [rec_crop_rotation; rec_conservation_agriculture]).
Proof.
  intros Hv (Hsyn & Horg & Hchem & Hporg & Hdiesel & Hhours).
  assert (Hb : is_value (calculateBaselineFootprint d) 0).
  { apply (is_value_eq _ _ _ (baseline_value d (validated_irrigationType d Hv))).
    transitivity (round2 0); [apply round2_eq | apply round2_zero].
    rewrite Hsyn, Hchem, Hdiesel.
    destruct (irrigationType d); [rewrite Hhours|]; ring. }
  split; [exact Hb|]. split; [|split].
  - apply (is_value_eq _ _ _ (ecofriendly_value d)).
    unfold ecofriendlyFootprint.
    transitivity (round2 0); [apply round2_eq | apply round2_zero].
    rewrite Horg, Hporg.
    destruct (str_eq (irrigationType d) "drip"); [rewrite Hhours|]; ring.
  - now apply calculateCarbonReduction_zero_baseline.
  - destruct (always_fire d) as [Hrot Hcons].
    split; [exact Hrot|]. split; [exact Hcons|].
    split; [reflexivity|]. split; [reflexivity|].
    intros Hirr. rewrite recommendations_as_pushed. unfold pushed_recommendations.
    rewrite (no_fertilizer_rule d Hsyn), (no_pesticide_rule d Hchem), Hirr.
    reflexivity.
Qed.

Lemma zero_usage_request_witness :
  validated idle_farm = true
  /\ is_value (calculateBaselineFootprint idle_farm) 0
  /\ is_value (calculateEcofriendlyFootprint idle_farm) 0
  /\ calculateCarbonReduction (calculateBaselineFootprint idle_farm)
       (calculateEcofriendlyFootprint idle_farm) = Fin 0
  /\ getEcofriendlyRecommendations idle_farm
     = [rec_crop_rotation; rec_conservation_agriculture].
Proof.
  split; [reflexivity|].
  destruct (zero_usage_request idle_farm) as (Hb & He & Hr & _ & _ & _ & _ & Hl).
  - reflexivity.
  - repeat split.
  - split; [exact Hb|]. split; [exact He|]. split; [exact Hr|].
    apply Hl. reflexivity.
Defined.

(** ** More on rounding *)

Lemma round_half_up_mono (x y : Q) : x <= y -> (round_half_up x <= round_half_up y)%Z.
Proof.
  intros H. unfold round_half_up. apply Qfloor_resp_le. lra.
Qed.

Lemma round_half_up_Z (z : Z) : round_half_up (inject_Z z) = z.
Proof.
  unfold round_half_up.
  pose proof (Qfloor_le (inject_Z z + (1 # 2))) as Hle.
  pose proof (Qlt_floor (inject_Z z + (1 # 2))) as Hlt.
  set (f := Qfloor (inject_Z z + (1 # 2))) in *.
  rewrite inject_Z_plus in Hlt. change (inject_Z 1) with 1 in Hlt.
  assert (H1 : inject_Z f < inject_Z z + 1) by lra.
  assert (H2 : inject_Z z < inject_Z f + 1) by lra.
  change 1 with (inject_Z 1) in H1, H2.
  rewrite <- inject_Z_plus in H1, H2.
  rewrite <- Zlt_Qlt in H1, H2. lia.
Qed.




(** ** The rules of the recommendations *)

Lemma gt_zero_quantity (x : option Q) :
  gt (ToNumber (field x)) (Fin 0) = true <-> 0 < quantity x.
Proof.
  destruct x as [q|]; simpl.
  - rewrite negb_true_iff. split.
    + intros H. apply Qnot_le_lt. intros Hle. apply Qle_bool_iff in Hle. congruence.
    + intros H. destruct (Qle_bool q 0) eqn:E; [|reflexivity].
      apply Qle_bool_iff in E. lra.
  - split; [discriminate | intros H; lra].
Qed.

Lemma fertilizer_rule_fires (d : FarmData) :
  gt (ToNumber (fertilizer_synthetic d)) (Fin 0) = true <-> 0 < synthetic_fertilizer_kg d.
Proof.
  unfold fertilizer_synthetic, synthetic_fertilizer_kg.
  destruct (fertilizerUsage d) as [u|]; [apply gt_zero_quantity|].
  simpl. split; [discriminate | intros H; lra].
Qed.

Lemma pesticide_rule_fires (d : FarmData) :
  gt (ToNumber (pesticide_chemical d)) (Fin 0) = true <-> 0 < chemical_pesticide_L d.
Proof.
  unfold pesticide_chemical, chemical_pesticide_L.
  destruct (pesticideUsage d) as [u|]; [apply gt_zero_quantity|].
  simpl. split; [discriminate | intros H; lra].
Qed.

(** Where a returned recommendation comes from. *)
Lemma recommendation_cases (d : FarmData) (r : Recommendation) :
  In r (getEcofriendlyRecommendations d) <->
  (gt (ToNumber (fertilizer_synthetic d)) (Fin 0) = true /\ r = rec_organic_fertilizer d)
  \/ (gt (ToNumber (pesticide_chemical d)) (Fin 0) = true /\ r = rec_organic_pest_control d)
  \/ (str_eq (irrigationType d) "flood" || str_eq (irrigationType d) "sprinkler" = true
      /\ r = rec_drip_irrigation d)
  \/ r = rec_crop_rotation
  \/ r = rec_conservation_agriculture.
Proof.
  rewrite recommendations_In. unfold pushed_recommendations.
  rewrite !in_app_iff.
  destruct (gt (ToNumber (fertilizer_synthetic d)) (Fin 0));
    destruct (gt (ToNumber (pesticide_chemical d)) (Fin 0));
    destruct (str_eq (irrigationType d) "flood" || str_eq (irrigationType d) "sprinkler");
    simpl; intuition (congruence || discriminate).
Qed.

(** X1.  The organic-fertilizer recommendation is returned exactly when
    some synthetic fertilizer is used; it has priority high and carries a
    savings field. *)
Theorem organic_fertilizer_recommendation (d : FarmData) :
  ((exists r, In r (getEcofriendlyRecommendations d)
              /\ practice r = "Switch to organic fertilizer"%string)
   <-> 0 < synthetic_fertilizer_kg d)
  /\ (forall r, In r (getEcofriendlyRecommendations d) ->
                practice r = "Switch to organic fertilizer"%string ->
                priority r = high /\ exists s, savings r = Some s).
Proof.
  split.
  - rewrite <- fertilizer_rule_fires. split.
    + intros (r & Hin & Hp). apply recommendation_cases in Hin.
      destruct Hin as [[H _] | [[_ ->] | [[_ ->] | [-> | ->]]]];
        [exact H | discriminate..].
    + intros H. exists (rec_organic_fertilizer d). split; [|reflexivity].
      apply recommendation_cases. now left.
  - intros r Hin Hp. apply recommendation_cases in Hin.
    destruct Hin as [[H ->] | [[_ ->] | [[_ ->] | [-> | ->]]]];
      [| discriminate..].
    split; [reflexivity|]. eexists. reflexivity.
Qed.

(** X2.  The organic-pest-control recommendation is returned exactly when
    some chemical pesticide is used; it has priority high and carries a
    savings field. *)
Theorem organic_pest_control_recommendation (d : FarmData) :
  ((exists r, In r (getEcofriendlyRecommendations d)
              /\ practice r = "Use organic pest control"%string)
   <-> 0 < chemical_pesticide_L d)
  /\ (forall r, In r (getEcofriendlyRecommendations d) ->
                practice r = "Use organic pest control"%string ->
                priority r = high /\ exists s, savings r = Some s).
Proof.
  split.
  - rewrite <- pesticide_rule_fires. split.
    + intros (r & Hin & Hp). apply recommendation_cases in Hin.
      destruct Hin as [[_ ->] | [[H _] | [[_ ->] | [-> | ->]]]];
        [discriminate | exact H | discriminate..].
    + intros H. exists (rec_organic_pest_control d). split; [|reflexivity].
      apply recommendation_cases. right. now left.
  - intros r Hin Hp. apply recommendation_cases in Hin.
    destruct Hin as [[_ ->] | [[H ->] | [[_ ->] | [-> | ->]]]];
      [discriminate | | discriminate..].
    split; [reflexivity|]. eexists. reflexivity.
Qed.

(** X3.  The returned list is always some high-priority recommendations
    (at most three) followed by crop rotation and conservation agriculture,
    in this order: between two and five items. *)
Theorem recommendations_shape (d : FarmData) :
  exists front : list Recommendation,
    getEcofriendlyRecommendations d
    = front ++ [rec_crop_rotation; rec_conservation_agriculture]
    /\ Forall (fun r => priority r = high) front
    /\ (List.length front <= 3)%nat
    /\ (2 <= List.length (getEcofriendlyRecommendations d) <= 5)%nat.
Proof.
  rewrite recommendations_as_pushed. unfold pushed_recommendations.
  destruct (gt (ToNumber (fertilizer_synthetic d)) (Fin 0));
    destruct (gt (ToNumber (pesticide_chemical d)) (Fin 0));
    destruct (str_eq (irrigationType d) "flood" || str_eq (irrigationType d) "sprinkler");
    simpl;
    match goal with
    | |- exists front, ?l = _ /\ _ =>
        exists (firstn (List.length l - 2) l)
    end;
    simpl; repeat split; repeat constructor.
Qed.

(** ** Bounds of the reduction and of the footprints *)

Lemma reduction_value (b e : Q) :
  ~ b == 0 ->
  calculateCarbonReduction (Fin b) (Fin e)
  = Fin (inject_Z (round_half_up ((b - e) / b * 100))).
Proof.
  intros Hb. unfold calculateCarbonReduction. simpl.
  destruct (Qeq_bool b 0) eqn:E; [apply Qeq_bool_iff in E; contradiction|].
  reflexivity.
Qed.

Lemma percent_le_100 (b e : Q) : 0 < b -> 0 <= e -> (b - e) / b * 100 <= 100.
Proof.
  intros Hb He.
  assert (H : (b - e) / b <= 1).
  { apply Qle_shift_div_r; [exact Hb | lra]. }
  lra.
Qed.


(** X4.  For a baseline of at least 0.01 and a non-negative eco-friendly
    footprint, both at most 10^12, the reduction is an integer of at most
    100; it is 100 when the eco-friendly footprint is zero, and at most 0
    when the eco-friendly footprint is not below the baseline. *)
Theorem calculateCarbonReduction_bounds (baseline eco : Q) :
  (1 # 100) <= baseline ->
  baseline <= 1000000000000 ->
  0 <= eco ->
  eco <= 1000000000000 ->
  exists z : Z,
    calculateCarbonReduction (Fin baseline) (Fin eco) = Fin (inject_Z z)
    /\ (z <= 100)%Z
    /\ (eco == 0 -> z = 100%Z)
    /\ (baseline <= eco -> (z <= 0)%Z).
Proof.
  intros Hlo _ He _.
  assert (Hb : 0 < baseline) by lra.
  assert (Hnz : ~ baseline == 0) by (intros H; lra).
  exists (round_half_up ((baseline - eco) / baseline * 100)).
  split; [apply reduction_value, Hnz|].
  set (x := (baseline - eco) / baseline * 100).
  assert (Hx : x * baseline == (baseline - eco) * 100) by (unfold x; field; exact Hnz).
  assert (Hle : x <= 100) by (apply percent_le_100; assumption).
  split; [|split].
  - rewrite <- (round_half_up_Z 100). now apply round_half_up_mono.
  - intros E.
    assert (Hx' : x == inject_Z 100).
    { unfold x. rewrite E. change (inject_Z 100) with 100. field. exact Hnz. }
    rewrite (round_half_up_eq _ _ Hx'). apply round_half_up_Z.
  - intros H.
    rewrite <- (round_half_up_Z 0). apply round_half_up_mono.
    change (inject_Z 0) with 0.
    apply Qnot_lt_le. intros Hlt.
    assert (Hp : 0 < x * baseline) by (apply Qmult_lt_0_compat; lra).
    lra.
Qed.

Lemma calculateCarbonReduction_bounds_witness :
  exists z : Z,
    calculateCarbonReduction (Fin 2000) (Fin 0) = Fin (inject_Z z)
    /\ (z <= 100)%Z
    /\ (0 == 0 -> z = 100%Z)
    /\ (2000 <= 0 -> (z <= 0)%Z).
Proof.
  apply (calculateCarbonReduction_bounds 2000 0); discriminate.
Defined.

(** X5.  No self-reduction: equal footprints give a reduction of 0, the
    zero footprint included. *)
Theorem calculateCarbonReduction_equal_footprints (x : Q) :
  is_value (calculateCarbonReduction (Fin x) (Fin x)) 0.
Proof.
  apply calculateCarbonReduction_self.
Qed.





(** ** The steps of the score *)

Lemma score_multiple_of_five (c1 c2 c3 c4 c5 c6 c7 c8 : bool) :
  exists k : Z,
    (10 <= k <= 20)%Z
    /\ clamp 0 100
         (50 + bonus c1 10 + bonus c2 5 + bonus c3 10 + bonus c4 5
          + bonus c5 15 + bonus c6 10 + bonus c7 10 + bonus c8 5)
       == inject_Z (5 * k).
Proof.
  destruct c1, c2, c3, c4, c5, c6, c7, c8;
    match goal with
    | |- exists k, _ /\ ?v == _ => exists (Qfloor (v / 5))
    end;
    (split; [vm_compute; intuition discriminate | reflexivity]).
Qed.

Lemma scoreByQuantity_sum (d : FarmData) :
  scoreByQuantity d
  == clamp 0 100
       (50
        + bonus (at_least (organic_fertilizer d) 50) 10
        + bonus (is_zero (synthetic_fertilizer d)) 5
        + bonus (at_least (organic_pesticide d) 50) 10
        + bonus (is_zero (chemical_pesticide d)) 5
        + bonus (str_eq (irrigationType d) "drip") 15
        + bonus (at_least (cropDiversity d) 3) 10
        + bonus (truthy_bool (conservationAgriculture d)) 10
        + bonus (truthy_bool (mulching d)) 5).
Proof.
  unfold scoreByQuantity. reflexivity.
Qed.

(** X7.  The sustainability score of any request is a multiple of five
    between 50 and 100. *)
Theorem calculateSustainabilityScore_steps (d : FarmData) :
  exists k : Z,
    (10 <= k <= 20)%Z
    /\ is_value (calculateSustainabilityScore d) (inject_Z (5 * k)).
Proof.
  destruct (score_multiple_of_five
              (at_least (organic_fertilizer d) 50) (is_zero (synthetic_fertilizer d))
              (at_least (organic_pesticide d) 50) (is_zero (chemical_pesticide d))
              (str_eq (irrigationType d) "drip") (at_least (cropDiversity d) 3)
              (truthy_bool (conservationAgriculture d)) (truthy_bool (mulching d)))
    as (k & Hk & E).
  exists k. split; [exact Hk|].
  apply (is_value_eq _ _ _ (score_value d)).
  rewrite scoreByQuantity_sum. exact E.
Qed.

(** ** Fields the service does not read *)

(** X8.  Petrol and electricity usage are never read: changing them
    changes neither footprint, nor the score, nor the recommendations. *)
Theorem petrol_and_electricity_unread (p e : option Q) (d : FarmData) :
  calculateBaselineFootprint (Unread.with_petrol_electricity p e d)
  = calculateBaselineFootprint d
  /\ calculateEcofriendlyFootprint (Unread.with_petrol_electricity p e d)
     = calculateEcofriendlyFootprint d
  /\ calculateSustainabilityScore (Unread.with_petrol_electricity p e d)
     = calculateSustainabilityScore d
  /\ getEcofriendlyRecommendations (Unread.with_petrol_electricity p e d)
     = getEcofriendlyRecommendations d.
Proof.
  destruct d as [a fu pu [u|] ty h tm ca mu cd]; repeat split; reflexivity.
Qed.

(** ** The route over the service *)

Lemma or_zero_quantity (x : option Q) : ServiceRoute.or_zero x == quantity x.
Proof.
  destruct x as [q|]; simpl; [|reflexivity].
  destruct (Qeq_bool q 0) eqn:E; [|reflexivity].
  apply Qeq_bool_iff in E. now rewrite E.
Qed.

Lemma or_zero_is_zero (x : option Q) :
  Qeq_bool (ServiceRoute.or_zero x) 0 = Qeq_bool (quantity x) 0.
Proof.
  destruct x as [q|]; simpl; [|reflexivity].
  destruct (Qeq_bool q 0) eqn:E; [reflexivity | exact E].
Qed.

Lemma or_zero_positive (x : option Q) :
  Qle_bool (ServiceRoute.or_zero x) 0 = Qle_bool (quantity x) 0.
Proof.
  destruct x as [q|]; simpl; [|reflexivity].
  destruct (Qeq_bool q 0) eqn:E; [|reflexivity].
  apply Qeq_bool_iff in E. symmetry. apply Qle_bool_iff. rewrite E. apply Qle_refl.
Qed.


(** X10.  The score of the response is 50, plus 5 when the fertilizer use
    is zero or missing, plus 5 when the pesticide use is zero or missing:
    always 50, 55 or 60. *)
Theorem route_score (body : ServiceRoute.Body) :
  is_value (ServiceRoute.score (ServiceRoute.calculate body))
    (50
     + bonus (Qeq_bool (quantity (ServiceRoute.fertilizerUse body)) 0) 5
     + bonus (Qeq_bool (quantity (ServiceRoute.pesticideUse body)) 0) 5).
Proof.
  unfold ServiceRoute.calculate. cbn [ServiceRoute.score].
  apply (is_value_eq _ _ _ (score_value (ServiceRoute.value body))).
  unfold scoreByQuantity, organic_fertilizer, synthetic_fertilizer, organic_pesticide,
    chemical_pesticide, ServiceRoute.value.
  cbn [fertilizerUsage pesticideUsage irrigationType cropDiversity
       conservationAgriculture mulching fu_synthetic fu_organic pu_chemical pu_organic
       at_least is_zero truthy_bool].
  rewrite !or_zero_is_zero.
  destruct (Qeq_bool (quantity (ServiceRoute.fertilizerUse body)) 0);
    destruct (Qeq_bool (quantity (ServiceRoute.pesticideUse body)) 0);
    reflexivity.
Qed.

(** X11.  The titles of the recommendations in the response: organic
    fertilizer when the fertilizer use is positive, organic pest control
    when the pesticide use is positive, then always drip irrigation, crop
    rotation and conservation agriculture; all but the last two are marked
    High. *)
Theorem route_recommendations (body : ServiceRoute.Body) :
  let front :=
    (if Qle_bool (quantity (ServiceRoute.fertilizerUse body)) 0
     then [] else ["Switch to organic fertilizer"%string])
    ++ (if Qle_bool (quantity (ServiceRoute.pesticideUse body)) 0
        then [] else ["Use organic pest control"%string]) in
  map ServiceRoute.title (ServiceRoute.recommendations (ServiceRoute.calculate body))
  = front ++ ["Install drip irrigation"; "Practice crop rotation";
              "Adopt conservation agriculture"]%string
  /\ map ServiceRoute.item_impact
       (ServiceRoute.recommendations (ServiceRoute.calculate body))
     = map (fun _ => "High"%string) front ++ ["High"; "Medium"; "Medium"]%string.
Proof.
  unfold ServiceRoute.calculate. cbn [ServiceRoute.recommendations].
  rewrite recommendations_as_pushed. unfold pushed_recommendations.
  unfold fertilizer_synthetic, pesticide_chemical, ServiceRoute.value.
  cbn [fertilizerUsage pesticideUsage irrigationType fu_synthetic pu_chemical
       field option_map ToNumber gt str_eq].
  rewrite !or_zero_positive.
  destruct (Qle_bool (quantity (ServiceRoute.fertilizerUse body)) 0);
    destruct (Qle_bool (quantity (ServiceRoute.pesticideUse body)) 0);
    split; reflexivity.
Qed.

(** ** The advice of the stand-alone route *)

(** X12.  [generateRecommendations] never returns an empty list and never
    more than four items, whatever the breakdown and the score ([NaN]
    included). *)
Theorem generateRecommendations_length (b : StandaloneRoute.Breakdown) (score : num) :
  (1 <= List.length (StandaloneRoute.generateRecommendations b score) <= 4)%nat.
Proof.
  unfold StandaloneRoute.generateRecommendations.
  destruct (gt (StandaloneRoute.fertilizers b) (Fin 300));
    destruct (gt (StandaloneRoute.irrigation b) (Fin 100));
    destruct (gt (StandaloneRoute.transportation b) (Fin 100));
    destruct (gt (StandaloneRoute.pesticides b) (Fin 150));
    destruct (StandaloneRoute.lt score (Fin 70));
    simpl; lia.
Qed.

(** X13.  The advice to rotate crops, pushed for a score below 70, is
    returned exactly when the score is below 70 and at most two of the four
    category thresholds are exceeded: beyond that the cut to four items
    drops it. *)
Theorem generateRecommendations_rotation (b : StandaloneRoute.Breakdown) (score : num) :
  In StandaloneRoute.advice_rotation (StandaloneRoute.generateRecommendations b score)
  <-> StandaloneRoute.lt score (Fin 70) = true
      /\ ((if gt (StandaloneRoute.fertilizers b) (Fin 300) then 1 else 0)
          + (if gt (StandaloneRoute.irrigation b) (Fin 100) then 1 else 0)
          + (if gt (StandaloneRoute.transportation b) (Fin 100) then 1 else 0)
          + (if gt (StandaloneRoute.pesticides b) (Fin 150) then 1 else 0) <= 2)%nat.
Proof.
  unfold StandaloneRoute.generateRecommendations.
  destruct (gt (StandaloneRoute.fertilizers b) (Fin 300));
    destruct (gt (StandaloneRoute.irrigation b) (Fin 100));
    destruct (gt (StandaloneRoute.transportation b) (Fin 100));
    destruct (gt (StandaloneRoute.pesticides b) (Fin 150));
    destruct (StandaloneRoute.lt score (Fin 70));
    simpl; split;
    try (intros [_ H]; lia);
    try (intros [H _]; discriminate);
    try (intros _; split; [reflexivity | lia]);
    try (intros _; tauto);
    intros H; repeat (destruct H as [H | H]; [discriminate H|]); try contradiction.
Qed.

(** ** Dynamic prices *)
Section Pricing.

Import JSObject Extended DynamicPricingService PricingFactors.

Variable toLowerCase : string -> string.
Variable trim : string -> string.

Lemma lookup_Some (table : list (string * Q)) (key : string) (n : num) :
  lookup table key = Some n -> exists b : Q, n = Fin b /\ In (key, b) table.
Proof.
  induction table as [|[k v] rest IH]; simpl; [discriminate|].
  destruct (String.eqb k key) eqn:E.
  - apply String.eqb_eq in E. subst k. intros H. injection H as <-.
    exists v. split; [reflexivity | now left].
  - intros H. destruct (IH H) as (b & Hb & Hin).
    exists b. split; [exact Hb | now right].
Qed.

Lemma baseMarketPrices_entries (k : string) (b : Q) :
  In (k, b) baseMarketPrices ->
  15 <= b /\ b <= 8000 /\ exists z : Z, b = inject_Z z.
Proof.
  unfold baseMarketPrices. simpl.
  intros H.
  repeat (destruct H as [H | H];
          [injection H as _ <-;
           split; [discriminate | split; [discriminate | eexists; reflexivity]]|]).
  contradiction.
Qed.

Lemma nonzero_price (b : Q) : 15 <= b -> Qeq_bool b 0 = false.
Proof.
  intros H. destruct (Qeq_bool b 0) eqn:E; [|reflexivity].
  apply Qeq_bool_iff in E. lra.
Qed.

Lemma market_price_cases (crop : string) :
  match getMarketPrice toLowerCase trim crop with
  | Number (Fin b) =>
      In (trim (toLowerCase crop), b) baseMarketPrices /\ 15 <= b /\ b <= 8000
  | Inherited =>
      lookup baseMarketPrices (trim (toLowerCase crop)) = None
      /\ inherited (trim (toLowerCase crop)) = true
  | Null =>
      lookup baseMarketPrices (trim (toLowerCase crop)) = None
      /\ inherited (trim (toLowerCase crop)) = false
  | Number NaN | Undefined => False
  end.
Proof.
  unfold getMarketPrice, or_value, get. cbv zeta.
  destruct (lookup baseMarketPrices (trim (toLowerCase crop))) as [n|] eqn:E.
  - destruct (lookup_Some _ _ _ E) as (b & -> & Hin).
    destruct (baseMarketPrices_entries _ _ Hin) as (Hlo & Hhi & _).
    simpl. rewrite (nonzero_price b Hlo). simpl. tauto.
  - destruct (inherited (trim (toLowerCase crop))); simpl; tauto.
Qed.

Lemma priced_entry (crop : string) (b : Q) :
  priced toLowerCase trim crop b ->
  15 <= b /\ b <= 8000 /\ exists z : Z, b = inject_Z z.
Proof.
  unfold priced. intros H.
  pose proof (market_price_cases crop) as Hc. rewrite H in Hc.
  destruct Hc as [Hin _]. exact (baseMarketPrices_entries _ _ Hin).
Qed.

Lemma quality_multiplier (quality : option string) :
  inherited (qualityOf quality) = false ->
  ToNumber_value (or_value (get qualityMultipliers (qualityOf quality)) (Number (Fin 1)))
  = Fin (qualityFactor quality).
Proof.
  intros Hq. unfold qualityFactor, get, qualityMultipliers. cbn [lookup].
  rewrite (String.eqb_sym "premium"), (String.eqb_sym "grade_a"),
    (String.eqb_sym "grade_b"), (String.eqb_sym "standard").
  destruct (String.eqb (qualityOf quality) "premium"); [reflexivity|].
  destruct (String.eqb (qualityOf quality) "grade_a"); [reflexivity|].
  destruct (String.eqb (qualityOf quality) "grade_b") eqn:Eb.
  - apply String.eqb_eq in Eb. rewrite Eb. reflexivity.
  - destruct (String.eqb (qualityOf quality) "standard"); [reflexivity|].
    rewrite Hq. reflexivity.
Qed.

(** The price as a rounded product. *)
Lemma dynamic_price_value (crop : string) (quantity : Q) (quality : option string)
      (organic : bool) (daysToHarvest : option Q) (b : Q) :
  priced toLowerCase trim crop b ->
  inherited (qualityOf quality) = false ->
  exists p : Q,
    calculateDynamicPrice toLowerCase trim crop quantity quality organic daysToHarvest
    = Number (Fin (inject_Z (round_half_up p)))
    /\ p == b * factors quantity quality organic daysToHarvest.
Proof.
  intros Hb Hq.
  destruct (priced_entry crop b Hb) as (Hlo & _ & _).
  unfold calculateDynamicPrice. cbv zeta.
  fold (qualityOf quality). fold (daysOf daysToHarvest).
  unfold priced in Hb. rewrite Hb.
  cbn [truthy_value truthy_num ToNumber_value]. rewrite (nonzero_price b Hlo).
  cbn [negb]. rewrite (quality_multiplier quality Hq).
  unfold factors, organicFactor, bulkFactor, timingFactor.
  destruct organic;
    destruct (Qle_bool quantity 1000); destruct (Qle_bool quantity 500);
    destruct (Qle_bool quantity 100);
    destruct (Qle_bool 0 (daysOf daysToHarvest));
    destruct (Qle_bool (daysOf daysToHarvest) 7);
    destruct (Qle_bool (daysOf daysToHarvest) 30);
    cbn [negb mul Math_round];
    (eexists; split; [reflexivity | ring]).
Qed.

Lemma qualityFactor_bounds (quality : option string) :
  (85 # 100) <= qualityFactor quality /\ qualityFactor quality <= (13 # 10).
Proof.
  unfold qualityFactor.
  destruct (String.eqb (qualityOf quality) "premium");
    destruct (String.eqb (qualityOf quality) "grade_a");
    destruct (String.eqb (qualityOf quality) "standard"); split; discriminate.
Qed.

Lemma organicFactor_bounds (organic : bool) :
  1 <= organicFactor organic /\ organicFactor organic <= (125 # 100).
Proof.
  destruct organic; split; discriminate.
Qed.

Lemma bulkFactor_bounds (quantity : Q) :
  (95 # 100) <= bulkFactor quantity /\ bulkFactor quantity <= 1.
Proof.
  unfold bulkFactor.
  destruct (Qle_bool quantity 1000); destruct (Qle_bool quantity 500);
    destruct (Qle_bool quantity 100); cbn [negb]; split; discriminate.
Qed.

Lemma timingFactor_bounds (daysToHarvest : option Q) :
  (95 # 100) <= timingFactor daysToHarvest /\ timingFactor daysToHarvest <= (105 # 100).
Proof.
  unfold timingFactor.
  destruct (Qle_bool 0 (daysOf daysToHarvest));
    destruct (Qle_bool (daysOf daysToHarvest) 7);
    destruct (Qle_bool (daysOf daysToHarvest) 30); cbn [negb]; split; discriminate.
Qed.

Lemma factors_bounds (quantity : Q) (quality : option string) (organic : bool)
      (daysToHarvest : option Q) :
  (767125 # 1000000) <= factors quantity quality organic daysToHarvest
  /\ factors quantity quality organic daysToHarvest <= (170625 # 100000).
Proof.
  unfold factors.
  destruct (qualityFactor_bounds quality) as [Q1 Q2].
  destruct (organicFactor_bounds organic) as [O1 O2].
  destruct (bulkFactor_bounds quantity) as [B1 B2].
  destruct (timingFactor_bounds daysToHarvest) as [T1 T2].
  set (q := qualityFactor quality) in *.
  set (o := organicFactor organic) in *.
  set (k := bulkFactor quantity) in *.
  set (t := timingFactor daysToHarvest) in *.
  assert (A : (85 # 100) * 1 <= q * o /\ q * o <= (13 # 10) * (125 # 100)).
  { split; apply Qmult_le_compat_nonneg; split; (assumption || discriminate || lra). }
  assert (B : (85 # 100) * 1 * (95 # 100) <= q * o * k
              /\ q * o * k <= (13 # 10) * (125 # 100) * 1).
  { destruct A. split; apply Qmult_le_compat_nonneg; split;
      (assumption || discriminate || lra). }
  destruct B. split.
  - apply Qle_trans with ((85 # 100) * 1 * (95 # 100) * (95 # 100)); [discriminate|].
    apply Qmult_le_compat_nonneg; split; (assumption || discriminate || lra).
  - apply Qle_trans with ((13 # 10) * (125 # 100) * 1 * (105 # 100)); [|discriminate].
    apply Qmult_le_compat_nonneg; split; (assumption || discriminate || lra).
Qed.

(** X14.  [getMarketPrice] returns a price of the table (between 15 and
    8000) for a crop whose trimmed lower-case name is a key of the table,
    the inherited function or object for a name of [Object.prototype], and
    [null] for every other crop; never zero, never [undefined]. *)
Theorem getMarketPrice_cases (crop : string) :
  match getMarketPrice toLowerCase trim crop with
  | Number (Fin b) =>
      In (trim (toLowerCase crop), b) baseMarketPrices /\ 15 <= b /\ b <= 8000
  | Inherited =>
      lookup baseMarketPrices (trim (toLowerCase crop)) = None
      /\ inherited (trim (toLowerCase crop)) = true
  | Null =>
      lookup baseMarketPrices (trim (toLowerCase crop)) = None
      /\ inherited (trim (toLowerCase crop)) = false
  | Number NaN | Undefined => False
  end.
Proof.
  exact (market_price_cases crop).
Qed.

Lemma price_bounds (b k : Q) :
  15 <= b ->
  (767125 # 1000000) <= k ->
  k <= (170625 # 100000) ->
  (round_half_up (b * (767125 # 1000000)) <= round_half_up (b * k))%Z
  /\ (round_half_up (b * k) <= round_half_up (b * (170625 # 100000)))%Z
  /\ (12 <= round_half_up (b * k))%Z.
Proof.
  intros Hb Hlo Hhi.
  assert (H1 : b * (767125 # 1000000) <= b * k).
  { rewrite (Qmult_comm b), (Qmult_comm b k). apply Qmult_le_compat_r; lra. }
  assert (H2 : b * k <= b * (170625 # 100000)).
  { rewrite (Qmult_comm b), (Qmult_comm b (170625 # 100000)).
    apply Qmult_le_compat_r; lra. }
  split; [now apply round_half_up_mono|].
  split; [now apply round_half_up_mono|].
  change 12%Z with (round_half_up (23 # 2)).
  apply round_half_up_mono. lra.
Qed.

(** X15.  For a crop with a table price [b] and a quality that is not a
    name of [Object.prototype], the dynamic price is an integer of at
    least 12 that lies, within one unit, between 0.767125 b (standard
    quality, largest bulk discount, late harvest) and 1.70625 b (premium
    quality, organic, early harvest). *)
Theorem calculateDynamicPrice_bounds (crop : string) (quantity : Q)
        (quality : option string) (organic : bool) (daysToHarvest : option Q) (b : Q) :
  priced toLowerCase trim crop b ->
  inherited (qualityOf quality) = false ->
  exists z : Z,
    calculateDynamicPrice toLowerCase trim crop quantity quality organic daysToHarvest
    = Number (Fin (inject_Z z))
    /\ b * (767125 # 1000000) - 1 < inject_Z z
    /\ inject_Z z < b * (170625 # 100000) + 1
    /\ (12 <= z)%Z.
Proof.
  intros Hb Hq.
  destruct (dynamic_price_value crop quantity quality organic daysToHarvest b Hb Hq)
    as (p & Ep & Hp).
  destruct (priced_entry crop b Hb) as (Hlo & _ & _).
  destruct (factors_bounds quantity quality organic daysToHarvest) as [Hk1 Hk2].
  exists (round_half_up p). split; [exact Ep|].
  rewrite (round_half_up_eq _ _ Hp).
  destruct (price_bounds b _ Hlo Hk1 Hk2) as (H1 & H2 & H3).
  destruct (round_half_up_nearest (b * (767125 # 1000000))) as [L1 _].
  destruct (round_half_up_nearest (b * (170625 # 100000))) as [_ U1].
  rewrite Zle_Qle in H1. rewrite Zle_Qle in H2.
  repeat split; [lra | lra | exact H3].
Qed.

Lemma inherited_quality (q : string) :
  inherited q = true -> get qualityMultipliers q = Inherited.
Proof.
  intros H. unfold get. rewrite H.
  unfold inherited, Object_prototype in H. cbn [existsb] in H.
  rewrite !orb_true_iff, !String.eqb_eq in H.
  repeat (destruct H as [H | H]; [subst q; reflexivity|]).
  discriminate.
Qed.

Lemma NaN_price (n : num) (quantity : Q) (organic : bool) (days : Q) :
  Math_round
    (let price := (NaN * n)%js in
     let price := if organic then (price * Fin (125 # 100))%js else price in
     let price :=
       (price
        * Fin (if negb (Qle_bool quantity 1000) then 95 # 100
               else if negb (Qle_bool quantity 500) then 97 # 100
               else if negb (Qle_bool quantity 100) then 98 # 100
               else 1))%js in
     if Qle_bool 0 days
     then
       if Qle_bool days 7 then (price * Fin (105 # 100))%js
       else if negb (Qle_bool days 30) then (price * Fin (95 # 100))%js
       else price
     else price) = NaN.
Proof.
  cbv zeta.
  destruct organic; destruct (Qle_bool 0 days); destruct (Qle_bool days 7);
    destruct (negb (Qle_bool days 30)); reflexivity.
Qed.

(** X16.  [calculateDynamicPrice] returns [null] exactly when
    [getMarketPrice] does.  A crop named like a property of
    [Object.prototype] is not refused: its price is [NaN]; so is the price
    of a listed crop under a quality named like such a property. *)
Theorem calculateDynamicPrice_without_price (crop : string) (quantity : Q)
        (quality : option string) (organic : bool) (daysToHarvest : option Q) :
  (calculateDynamicPrice toLowerCase trim crop quantity quality organic daysToHarvest = Null
   <-> getMarketPrice toLowerCase trim crop = Null)
  /\ (getMarketPrice toLowerCase trim crop = Inherited ->
      calculateDynamicPrice toLowerCase trim crop quantity quality organic daysToHarvest
      = Number NaN)
  /\ (forall b : Q,
         priced toLowerCase trim crop b ->
         inherited (qualityOf quality) = true ->
         calculateDynamicPrice toLowerCase trim crop quantity quality organic daysToHarvest
         = Number NaN).
Proof.
  pose proof (market_price_cases crop) as Hc.
  unfold calculateDynamicPrice. cbv zeta.
  fold (qualityOf quality). fold (daysOf daysToHarvest).
  destruct (getMarketPrice toLowerCase trim crop) as [| |[b|]|] eqn:E;
    try contradiction.
  - simpl. repeat split; try discriminate. intros b Hb. unfold priced in Hb. congruence.
  - destruct Hc as (_ & Hlo & _).
    cbn [truthy_value truthy_num ToNumber_value]. rewrite (nonzero_price b Hlo).
    cbn [negb]. split; [split; discriminate|]. split; [discriminate|].
    intros b' _ Hq. rewrite (inherited_quality _ Hq).
    cbn [or_value truthy_value ToNumber_value].
    f_equal.
    destruct organic; destruct (Qle_bool 0 (daysOf daysToHarvest));
      destruct (Qle_bool (daysOf daysToHarvest) 7);
      destruct (negb (Qle_bool (daysOf daysToHarvest) 30)); reflexivity.
  - cbn [truthy_value negb ToNumber_value].
    split; [split; discriminate|]. split.
    + intros _. f_equal. apply NaN_price.
    + intros b Hb. unfold priced in Hb. congruence.
Qed.

(** X17.  The quality is not normalised: a quality that is neither a key
    of the multiplier table nor a name of [Object.prototype] (a misspelt or
    capitalised one) is priced exactly like ['grade_b'], above the default
    ['standard']. *)
Theorem calculateDynamicPrice_unknown_quality (crop : string) (quantity : Q)
        (quality : string) (organic : bool) (daysToHarvest : option Q) :
  lookup qualityMultipliers quality = None ->
  inherited quality = false ->
  calculateDynamicPrice toLowerCase trim crop quantity (Some quality) organic daysToHarvest
  = calculateDynamicPrice toLowerCase trim crop quantity (Some "grade_b"%string) organic
      daysToHarvest.
Proof.
  intros Hl Hi. unfold calculateDynamicPrice. cbv zeta.
  assert (E : or_value (get qualityMultipliers quality) (Number (Fin 1))
              = or_value (get qualityMultipliers "grade_b") (Number (Fin 1))).
  { unfold get. rewrite Hl, Hi. reflexivity. }
  rewrite E. reflexivity.
Qed.

Lemma factor_nonneg (b k : Q) : 15 <= b -> (767125 # 1000000) <= k -> 0 <= b * k.
Proof.
  intros Hb Hk. apply Qmult_le_0_compat; lra.
Qed.

(** X18.  Organic produce is never priced below the same lot that is not
    organic. *)
Theorem calculateDynamicPrice_organic_premium (crop : string) (quantity : Q)
        (quality : option string) (daysToHarvest : option Q) (b : Q) :
  priced toLowerCase trim crop b ->
  inherited (qualityOf quality) = false ->
  exists plain organic : Z,
    calculateDynamicPrice toLowerCase trim crop quantity quality false daysToHarvest
    = Number (Fin (inject_Z plain))
    /\ calculateDynamicPrice toLowerCase trim crop quantity quality true daysToHarvest
       = Number (Fin (inject_Z organic))
    /\ (plain <= organic)%Z.
Proof.
  intros Hb Hq.
  destruct (dynamic_price_value crop quantity quality false daysToHarvest b Hb Hq)
    as (p & Ep & Hp).
  destruct (dynamic_price_value crop quantity quality true daysToHarvest b Hb Hq)
    as (o & Eo & Ho).
  destruct (priced_entry crop b Hb) as (Hlo & _ & _).
  destruct (factors_bounds quantity quality false daysToHarvest) as [Hk _].
  pose proof (factor_nonneg b _ Hlo Hk) as Hnn.
  exists (round_half_up p), (round_half_up o).
  split; [exact Ep|]. split; [exact Eo|].
  apply round_half_up_mono. rewrite Hp, Ho.
  unfold factors in *. unfold organicFactor in *.
  set (q := qualityFactor quality) in *.
  set (k := bulkFactor quantity) in *.
  set (t := timingFactor daysToHarvest) in *.
  assert (E : b * (q * (125 # 100) * k * t) == (125 # 100) * (b * (q * 1 * k * t)))
    by ring.
  rewrite E. lra.
Qed.

Lemma bulkFactor_antitone (q1 q2 : Q) : q1 <= q2 -> bulkFactor q2 <= bulkFactor q1.
Proof.
  intros H. unfold bulkFactor.
  destruct (Qle_bool q1 1000) eqn:A1; destruct (Qle_bool q1 500) eqn:A2;
    destruct (Qle_bool q1 100) eqn:A3;
    destruct (Qle_bool q2 1000) eqn:B1; destruct (Qle_bool q2 500) eqn:B2;
    destruct (Qle_bool q2 100) eqn:B3;
    cbn [negb]; try discriminate;
    exfalso;
    repeat match goal with
           | H : Qle_bool _ _ = true |- _ => apply Qle_bool_iff in H
           | H : Qle_bool ?x ?y = false |- _ =>
               assert (~ x <= y) by (intros Hc; apply Qle_bool_iff in Hc; congruence);
               clear H
           end;
    lra.
Qed.

(** X19.  The bulk discount is monotone: a larger quantity of the same lot
    is never priced higher per unit. *)
Theorem calculateDynamicPrice_bulk_discount (crop : string) (q1 q2 : Q)
        (quality : option string) (organic : bool) (daysToHarvest : option Q) (b : Q) :
  priced toLowerCase trim crop b ->
  inherited (qualityOf quality) = false ->
  q1 <= q2 ->
  exists small large : Z,
    calculateDynamicPrice toLowerCase trim crop q1 quality organic daysToHarvest
    = Number (Fin (inject_Z small))
    /\ calculateDynamicPrice toLowerCase trim crop q2 quality organic daysToHarvest
       = Number (Fin (inject_Z large))
    /\ (large <= small)%Z.
Proof.
  intros Hb Hq Hle.
  destruct (dynamic_price_value crop q1 quality organic daysToHarvest b Hb Hq)
    as (p1 & E1 & H1).
  destruct (dynamic_price_value crop q2 quality organic daysToHarvest b Hb Hq)
    as (p2 & E2 & H2).
  destruct (priced_entry crop b Hb) as (Hlo & _ & _).
  exists (round_half_up p1), (round_half_up p2).
  split; [exact E1|]. split; [exact E2|].
  apply round_half_up_mono. rewrite H1, H2.
  pose proof (bulkFactor_antitone q1 q2 Hle) as Hk.
  unfold factors.
  destruct (qualityFactor_bounds quality) as [Q1 _].
  destruct (organicFactor_bounds organic) as [O1 _].
  destruct (timingFactor_bounds daysToHarvest) as [T1 _].
  assert (Hc : 0 <= b * (qualityFactor quality * organicFactor organic)
                    * timingFactor daysToHarvest).
  { apply Qmult_le_0_compat; [apply Qmult_le_0_compat; [lra|]|lra].
    apply Qmult_le_0_compat; lra. }
  set (c := b * (qualityFactor quality * organicFactor organic)
            * timingFactor daysToHarvest) in *.
  assert (Ea : forall k, b * (qualityFactor quality * organicFactor organic * k
                              * timingFactor daysToHarvest) == c * k)
    by (intros k; unfold c; ring).
  rewrite !Ea.
  rewrite (Qmult_comm c), (Qmult_comm c (bulkFactor q1)).
  now apply Qmult_le_compat_r.
Qed.

End Pricing.

(** ** The suggested price range *)
Section PriceRanges.

Import JSObject Extended DynamicPricingService PricingFactors.

Variable toLowerCase : string -> string.
Variable trim : string -> string.

Lemma range_value (crop : string) (quantity : Q) (quality : option string)
      (organic : bool) (b : Q) :
  priced toLowerCase trim crop b ->
  getSuggestedPriceRange toLowerCase trim crop quantity quality organic
  = Some {| minPrice := Fin (inject_Z (round_half_up (b * (85 # 100))));
            suggestedPrice :=
              or_value
                (calculateDynamicPrice toLowerCase trim crop quantity quality organic None)
                (Number (Fin b));
            maxPrice := Fin (inject_Z (round_half_up (b * (125 # 100))));
            baseMarketPrice := Number (Fin b) |}.
Proof.
  intros Hb. destruct (priced_entry toLowerCase trim crop b Hb) as (Hlo & _ & _).
  unfold getSuggestedPriceRange. cbv zeta. unfold priced in Hb. rewrite Hb.
  cbn [truthy_value truthy_num]. rewrite (nonzero_price b Hlo). reflexivity.
Qed.

Lemma suggestion_value (crop : string) (quantity : Q) (quality : option string)
      (organic : bool) (b : Q) :
  priced toLowerCase trim crop b ->
  inherited (qualityOf quality) = false ->
  exists p : Q,
    or_value (calculateDynamicPrice toLowerCase trim crop quantity quality organic None)
      (Number (Fin b))
    = Number (Fin (inject_Z (round_half_up p)))
    /\ p == b * factors quantity quality organic None.
Proof.
  intros Hb Hq.
  destruct (dynamic_price_value toLowerCase trim crop quantity quality organic None b Hb Hq)
    as (p & Ep & Hp).
  destruct (priced_entry toLowerCase trim crop b Hb) as (Hlo & _ & _).
  destruct (factors_bounds quantity quality organic None) as [Hk1 Hk2].
  exists p. split; [|exact Hp].
  rewrite Ep. unfold or_value. cbn [truthy_value truthy_num].
  assert (Hz : (12 <= round_half_up p)%Z).
  { rewrite (round_half_up_eq _ _ Hp). now apply price_bounds. }
  assert (Hne : Qeq_bool (inject_Z (round_half_up p)) 0 = false).
  { destruct (Qeq_bool (inject_Z (round_half_up p)) 0) eqn:E; [|reflexivity].
    apply Qeq_bool_iff in E. rewrite Zle_Qle in Hz.
    change (inject_Z 12) with 12 in Hz. lra. }
  rewrite Hne. reflexivity.
Qed.

(** X20.  [getSuggestedPriceRange] returns [null] exactly when the crop has
    no price.  For a crop with the table price [b], the minimum is the
    rounding of 0.85 b, the maximum the rounding of 1.25 b, the base price
    lies between them and the minimum is below the maximum. *)
Theorem getSuggestedPriceRange_bounds (crop : string) (quantity : Q)
        (quality : option string) (organic : bool) :
  (getSuggestedPriceRange toLowerCase trim crop quantity quality organic = None
   <-> getMarketPrice toLowerCase trim crop = Null)
  /\ (forall b : Q,
         priced toLowerCase trim crop b ->
         exists (r : PriceRange) (lo hi : Z),
           getSuggestedPriceRange toLowerCase trim crop quantity quality organic = Some r
           /\ minPrice r = Fin (inject_Z lo)
           /\ maxPrice r = Fin (inject_Z hi)
           /\ baseMarketPrice r = Number (Fin b)
           /\ lo = round_half_up (b * (85 # 100))
           /\ hi = round_half_up (b * (125 # 100))
           /\ inject_Z lo <= b /\ b <= inject_Z hi /\ (lo < hi)%Z).
Proof.
  split.
  - pose proof (market_price_cases toLowerCase trim crop) as Hc.
    unfold getSuggestedPriceRange. cbv zeta.
    destruct (getMarketPrice toLowerCase trim crop) as [| |[b|]|] eqn:E;
      try contradiction.
    + simpl. tauto.
    + destruct Hc as (_ & Hlo & _).
      cbn [truthy_value truthy_num]. rewrite (nonzero_price b Hlo).
      cbn [negb]. split; discriminate.
    + simpl. split; discriminate.
  - intros b Hb.
    destruct (priced_entry toLowerCase trim crop b Hb) as (Hlo & _ & z & Ez).
    eexists. exists (round_half_up (b * (85 # 100))), (round_half_up (b * (125 # 100))).
    split; [apply (range_value crop quantity quality organic b Hb)|].
    cbn [minPrice maxPrice baseMarketPrice].
    repeat (split; [reflexivity|]).
    destruct (round_half_up_nearest (b * (85 # 100))) as [L1 L2].
    destruct (round_half_up_nearest (b * (125 # 100))) as [H1 H2].
    assert (Hmin : (round_half_up (b * (85 # 100)) <= z)%Z).
    { rewrite <- (round_half_up_Z z), <- Ez. apply round_half_up_mono. lra. }
    assert (Hmax : (z <= round_half_up (b * (125 # 100)))%Z).
    { rewrite <- (round_half_up_Z z) at 1. rewrite <- Ez. apply round_half_up_mono. lra. }
    split; [rewrite Ez at 2; now rewrite <- Zle_Qle|].
    split; [rewrite Ez at 1; now rewrite <- Zle_Qle|].
    rewrite Zlt_Qlt. lra.
Qed.

(** X21.  The range does not bound the suggestion.  For every priced crop,
    premium organic produce is suggested above the maximum of the range;
    and a lot of more than 1000 units under the default quality, not
    organic, is suggested at or below the minimum, strictly below it when
    the base price is at least 500. *)
Theorem getSuggestedPriceRange_suggestion_outside (crop : string) (quantity : Q) (b : Q) :
  priced toLowerCase trim crop b ->
  (exists (r : PriceRange) (s hi : Z),
      getSuggestedPriceRange toLowerCase trim crop quantity (Some "premium"%string) true
      = Some r
      /\ suggestedPrice r = Number (Fin (inject_Z s))
      /\ maxPrice r = Fin (inject_Z hi)
      /\ (hi < s)%Z)
  /\ (1000 < quantity ->
      exists (r : PriceRange) (s lo : Z),
        getSuggestedPriceRange toLowerCase trim crop quantity None false = Some r
        /\ suggestedPrice r = Number (Fin (inject_Z s))
        /\ minPrice r = Fin (inject_Z lo)
        /\ (s <= lo)%Z
        /\ (500 <= b -> (s < lo)%Z)).
Proof.
  intros Hb.
  destruct (priced_entry toLowerCase trim crop b Hb) as (Hlo & _ & _).
  split.
  - destruct (suggestion_value crop quantity (Some "premium"%string) true b Hb)
      as (p & Ep & Hp); [reflexivity|].
    eexists. exists (round_half_up p), (round_half_up (b * (125 # 100))).
    split; [apply (range_value crop quantity _ true b Hb)|].
    cbn [suggestedPrice maxPrice].
    split; [exact Ep|]. split; [reflexivity|].
    destruct (round_half_up_nearest p) as [P1 _].
    destruct (round_half_up_nearest (b * (125 # 100))) as [_ M2].
    destruct (bulkFactor_bounds quantity) as [K1 _].
    assert (Hf : factors quantity (Some "premium"%string) true None
                 == (13 # 10) * (125 # 100) * bulkFactor quantity * (105 # 100))
      by reflexivity.
    rewrite Hf in Hp.
    assert (Hbk : b * (95 # 100) <= b * bulkFactor quantity).
    { rewrite (Qmult_comm b), (Qmult_comm b (bulkFactor quantity)).
      apply Qmult_le_compat_r; lra. }
    assert (Hp' : p == (13 # 10) * (125 # 100) * (105 # 100) * (b * bulkFactor quantity))
      by (rewrite Hp; ring).
    rewrite Zlt_Qlt. lra.
  - intros Hq.
    destruct (suggestion_value crop quantity None false b Hb) as (p & Ep & Hp);
      [reflexivity|].
    eexists. exists (round_half_up p), (round_half_up (b * (85 # 100))).
    split; [apply (range_value crop quantity None false b Hb)|].
    cbn [suggestedPrice minPrice].
    split; [exact Ep|]. split; [reflexivity|].
    assert (Hk : Qle_bool quantity 1000 = false).
    { destruct (Qle_bool quantity 1000) eqn:E; [|reflexivity].
      apply Qle_bool_iff in E. lra. }
    assert (Hf : factors quantity None false None
                 == (85 # 100) * 1 * (95 # 100) * (105 # 100)).
    { unfold factors, bulkFactor. rewrite Hk. reflexivity. }
    rewrite Hf in Hp.
    split.
    + apply round_half_up_mono. rewrite Hp. lra.
    + intros Hbig.
      destruct (round_half_up_nearest p) as [_ P2].
      destruct (round_half_up_nearest (b * (85 # 100))) as [M1 _].
      rewrite Zlt_Qlt. lra.
Qed.

End PriceRanges.

(** ** Price alerts *)
Section Alerts.

Import Extended DynamicPricingService.

Lemma percent_le (c m k : Q) :
  0 < m -> ((c - m) / m * 100 <= k <-> c * 100 <= (100 + k) * m).
Proof.
  intros Hm.
  assert (Hne : ~ m == 0) by (intros H; lra).
  assert (E : (c - m) / m * 100 * m == (c - m) * 100) by (field; exact Hne).
  rewrite <- (Qmult_le_r _ _ m Hm). rewrite E. split; intros H; lra.
Qed.

Lemma percent_ge (c m k : Q) :
  0 < m -> (k <= (c - m) / m * 100 <-> (100 + k) * m <= c * 100).
Proof.
  intros Hm.
  assert (Hne : ~ m == 0) by (intros H; lra).
  assert (E : (c - m) / m * 100 * m == (c - m) * 100) by (field; exact Hne).
  rewrite <- (Qmult_le_r _ _ m Hm). rewrite E. split; intros H; lra.
Qed.

Lemma Qle_bool_false (x y : Q) : Qle_bool x y = false <-> y < x.
Proof.
  split.
  - intros H. apply Qnot_le_lt. intros Hle. apply Qle_bool_iff in Hle. congruence.
  - intros H. destruct (Qle_bool x y) eqn:E; [|reflexivity].
    apply Qle_bool_iff in E. lra.
Qed.

Lemma percentDiff_finite (c m : Q) :
  0 < m -> xmul (xdiv (Fin (c - m)) (Fin m)) 100 = XFin ((c - m) / m * 100).
Proof.
  intros Hm. unfold xdiv.
  destruct (Qeq_bool m 0) eqn:E; [|reflexivity].
  apply Qeq_bool_iff in E. lra.
Qed.

(** The bands of the alert when the percentage is computed exactly. *)
Lemma alert_bands_exact (crop : string) (currentPrice marketPrice : Q) :
  0 < marketPrice ->
  match alert_type (generatePriceAlert crop currentPrice marketPrice) with
  | neutral =>
      95 * marketPrice < currentPrice * 100 /\ currentPrice * 100 < 105 * marketPrice
  | overpriced => 115 * marketPrice < currentPrice * 100
  | underpriced => currentPrice * 100 < 85 * marketPrice
  | slightly_high =>
      105 * marketPrice < currentPrice * 100 /\ currentPrice * 100 <= 115 * marketPrice
  | slightly_low =>
      (85 * marketPrice <= currentPrice * 100 /\ currentPrice * 100 <= 95 * marketPrice)
      \/ currentPrice * 100 == 105 * marketPrice
  end.
Proof.
  intros Hm. unfold generatePriceAlert. cbv zeta.
  rewrite (percentDiff_finite _ _ Hm).
  set (d := (currentPrice - marketPrice) / marketPrice * 100).
  pose proof (percent_le currentPrice marketPrice) as Hle.
  pose proof (percent_ge currentPrice marketPrice) as Hge.
  fold d in Hle, Hge.
  cbn [Math_abs xlt xgt].
  destruct (Qle_bool 5 (Qabs d)) eqn:A; cbn [negb].
  - apply Qle_bool_iff in A.
    destruct (Qle_bool d 15) eqn:B; cbn [negb].
    + apply Qle_bool_iff in B. apply (Hle 15 Hm) in B.
      destruct (Qle_bool (-15) d) eqn:C; cbn [negb].
      * apply Qle_bool_iff in C. apply (Hge (-15) Hm) in C.
        destruct (Qle_bool d 5) eqn:D; cbn [negb alert_type].
        -- apply Qle_bool_iff in D.
           destruct (Qlt_le_dec d 0) as [Hneg | Hpos].
           ++ left. rewrite (Qabs_neg d) in A by lra.
              assert (A' : d <= -5) by lra.
              apply (Hle (-5) Hm) in A'. split; lra.
           ++ right. rewrite (Qabs_pos d Hpos) in A.
              apply (Hle 5 Hm) in D. apply (Hge 5 Hm) in A. lra.
        -- apply Qle_bool_false in D.
           split; [|lra].
           apply Qnot_le_lt. intros Hc. assert (Hd : d <= 5) by (apply (Hle 5 Hm); lra).
           lra.
      * apply Qle_bool_false in C. cbn [alert_type].
        apply Qnot_le_lt. intros Hc.
        assert (Hd : -15 <= d) by (apply (Hge (-15) Hm); lra). lra.
    + apply Qle_bool_false in B. cbn [alert_type].
      apply Qnot_le_lt. intros Hc.
      assert (Hd : d <= 15) by (apply (Hle 15 Hm); lra). lra.
  - apply Qle_bool_false in A. cbn [alert_type].
    apply Qabs_Qlt_condition in A. destruct A as [A1 A2].
    split; apply Qnot_le_lt; intros Hc.
    + assert (Hd : d <= -5) by (apply (Hle (-5) Hm); lra). lra.
    + assert (Hd : 5 <= d) by (apply (Hge 5 Hm); lra). lra.
Qed.

(** X22.  For a positive market price the alert follows the ratio of the
    current price to the market price.  Leaving one percentage point for
    the rounding of the computed percentage at each threshold: neutral
    lies between 94 and 106 percent, overpriced above 114 percent,
    underpriced below 86 percent, slightly high between 104 and 116
    percent, and slightly low between 84 and 96 percent or, at the
    threshold itself, between 104 and 106 percent. *)
Theorem generatePriceAlert_bands (crop : string) (currentPrice marketPrice : Q) :
  0 < marketPrice ->
  match alert_type (generatePriceAlert crop currentPrice marketPrice) with
  | neutral =>
      94 * marketPrice < currentPrice * 100 /\ currentPrice * 100 < 106 * marketPrice
  | overpriced => 114 * marketPrice < currentPrice * 100
  | underpriced => currentPrice * 100 < 86 * marketPrice
  | slightly_high =>
      104 * marketPrice < currentPrice * 100 /\ currentPrice * 100 < 116 * marketPrice
  | slightly_low =>
      (84 * marketPrice < currentPrice * 100 /\ currentPrice * 100 < 96 * marketPrice)
      \/ (104 * marketPrice < currentPrice * 100 /\ currentPrice * 100 < 106 * marketPrice)
  end.
Proof.
  intros Hm. pose proof (alert_bands_exact crop currentPrice marketPrice Hm) as H.
  destruct (alert_type (generatePriceAlert crop currentPrice marketPrice)); lra.
Qed.

Lemma generatePriceAlert_bands_witness :
  alert_type (generatePriceAlert "wheat" 2200 2000) = slightly_high
  /\ 104 * 2000 < 2200 * 100 /\ 2200 * 100 < 116 * 2000.
Proof.
  pose proof (generatePriceAlert_bands "wheat" 2200 2000) as H.
  split; [reflexivity|]. apply H. reflexivity.
Defined.

(** X23.  A market price of zero is not refused: any positive current
    price is reported overpriced by an infinite percentage, any negative one
    underpriced by an infinite percentage, and a current price of zero is
    reported slightly low. *)
Theorem generatePriceAlert_zero_market (crop : string) (currentPrice : Q) :
  (0 < currentPrice ->
   generatePriceAlert crop currentPrice 0
   = {| alert_type := overpriced;
        message := AboveMarketBy (XInf true);
        suggestion := Some "Consider lowering price to attract more buyers"%string |})
  /\ (currentPrice < 0 ->
      generatePriceAlert crop currentPrice 0
      = {| alert_type := underpriced;
           message := BelowMarketBy (XInf true);
           suggestion := Some "You could increase price and still be competitive"%string |})
  /\ (currentPrice == 0 ->
      generatePriceAlert crop currentPrice 0
      = {| alert_type := slightly_low; message := SlightlyBelow; suggestion := None |}).
Proof.
  unfold generatePriceAlert. cbv zeta. unfold xdiv.
  change (Qeq_bool 0 0) with true. cbv iota.
  repeat split; intros H.
  - assert (E1 : Qeq_bool (currentPrice - 0) 0 = false).
    { destruct (Qeq_bool (currentPrice - 0) 0) eqn:E; [|reflexivity].
      apply Qeq_bool_iff in E. lra. }
    assert (E2 : Qle_bool (currentPrice - 0) 0 = false) by (apply Qle_bool_false; lra).
    rewrite E1, E2. reflexivity.
  - assert (E1 : Qeq_bool (currentPrice - 0) 0 = false).
    { destruct (Qeq_bool (currentPrice - 0) 0) eqn:E; [|reflexivity].
      apply Qeq_bool_iff in E. lra. }
    assert (E2 : Qle_bool (currentPrice - 0) 0 = true) by (apply Qle_bool_iff; lra).
    rewrite E1, E2. reflexivity.
  - assert (E1 : Qeq_bool (currentPrice - 0) 0 = true) by (apply Qeq_bool_iff; lra).
    rewrite E1. reflexivity.
Qed.

End Alerts.

(** ** Price trends *)
Section Trends.

Import JSObject Extended DynamicPricingService PricingFactors.

Variable toLowerCase : string -> string.
Variable trim : string -> string.


(** The bands of the trend when the sum, the average and the percentage
    are computed exactly. *)
Lemma trend_bands_exact (crop : string) (data : list Q) (b : Q) :
  priced toLowerCase trim crop b ->
  0 < sum data / count data ->
  data <> [] ->
  match trend (getTrendingPrices toLowerCase trim crop (Some data)) with
  | rising => 110 * (sum data / count data) < b * 100
  | falling => b * 100 < 90 * (sum data / count data)
  | stable =>
      90 * (sum data / count data) <= b * 100 /\ b * 100 <= 110 * (sum data / count data)
  end.
Proof.
  intros Hb Havg Hne.
  destruct (priced_entry toLowerCase trim crop b Hb) as (Hlo & _ & _).
  unfold getTrendingPrices. unfold priced in Hb. rewrite Hb.
  destruct data as [|x rest]; [congruence|].
  cbv zeta. set (avg := sum (x :: rest) / count (x :: rest)) in *.
  unfold or_value. cbn [truthy_value truthy_num]. rewrite (nonzero_price b Hlo).
  cbn [negb ToNumber_value sub]. rewrite (percentDiff_finite b avg Havg).
  pose proof (percent_le b avg) as Hle.
  pose proof (percent_ge b avg) as Hge.
  set (d := (b - avg) / avg * 100) in *.
  cbn [xgt xlt].
  destruct (Qle_bool d 10) eqn:A; cbn [negb].
  - apply Qle_bool_iff in A. apply (Hle 10 Havg) in A.
    destruct (Qle_bool (-10) d) eqn:B; cbn [negb trend].
    + apply Qle_bool_iff in B. apply (Hge (-10) Havg) in B. split; lra.
    + apply Qle_bool_false in B.
      apply Qnot_le_lt. intros Hc.
      assert (Hd : -10 <= d) by (apply (Hge (-10) Havg); lra). lra.
  - apply Qle_bool_false in A. cbn [trend].
    apply Qnot_le_lt. intros Hc.
    assert (Hd : d <= 10) by (apply (Hle 10 Havg); lra). lra.
Qed.

(** X25.  For a crop with the table price [b] and a history of prices
    between 0 and 10^9 with a positive average, leaving one percentage
    point for the rounding of the computed sum, average and percentage:
    the trend is rising only when [b] is more than 9 percent above the
    average, falling only when it is more than 9 percent below, and stable
    only when it is within 11 percent of the average. *)
Theorem getTrendingPrices_bands (crop : string) (data : list Q) (b : Q) :
  priced toLowerCase trim crop b ->
  Forall (fun p => 0 <= p /\ p <= 1000000000) data ->
  0 < sum data / count data ->
  data <> [] ->
  match trend (getTrendingPrices toLowerCase trim crop (Some data)) with
  | rising => 109 * (sum data / count data) < b * 100
  | falling => b * 100 < 91 * (sum data / count data)
  | stable =>
      89 * (sum data / count data) < b * 100 /\ b * 100 < 111 * (sum data / count data)
  end.
Proof.
  intros Hb _ Havg Hne.
  pose proof (trend_bands_exact crop data b Hb Havg Hne) as H.
  set (avg := sum data / count data) in *.
  destruct (trend (getTrendingPrices toLowerCase trim crop (Some data))); lra.
Qed.

End Trends.

(** ** The pricing theorems on sample lots

    For the crop name [wheat], already trimmed and in lower case, the two
    string methods are the identity. *)

Lemma calculateDynamicPrice_bounds_witness :
  exists z : Z,
    DynamicPricingService.calculateDynamicPrice (fun s => s) (fun s => s)
      "wheat" 1200 (Some "premium"%string) true (Some 3)
    = JSObject.Number (Fin (inject_Z z))
    /\ 2000 * (767125 # 1000000) - 1 < inject_Z z
    /\ inject_Z z < 2000 * (170625 # 100000) + 1
    /\ (12 <= z)%Z.
Proof.
  apply (calculateDynamicPrice_bounds (fun s => s) (fun s => s)
           "wheat" 1200 (Some "premium"%string) true (Some 3) 2000); reflexivity.
Defined.

Lemma calculateDynamicPrice_unknown_quality_witness :
  DynamicPricingService.calculateDynamicPrice (fun s => s) (fun s => s)
    "wheat" 50 (Some "Premium"%string) false None
  = DynamicPricingService.calculateDynamicPrice (fun s => s) (fun s => s)
      "wheat" 50 (Some "grade_b"%string) false None.
Proof.
  apply (calculateDynamicPrice_unknown_quality (fun s => s) (fun s => s)
           "wheat" 50 "Premium" false None); reflexivity.
Defined.

Lemma calculateDynamicPrice_organic_premium_witness :
  exists plain organic : Z,
    DynamicPricingService.calculateDynamicPrice (fun s => s) (fun s => s)
      "wheat" 50 None false None
    = JSObject.Number (Fin (inject_Z plain))
    /\ DynamicPricingService.calculateDynamicPrice (fun s => s) (fun s => s)
         "wheat" 50 None true None
       = JSObject.Number (Fin (inject_Z organic))
    /\ (plain <= organic)%Z.
Proof.
  apply (calculateDynamicPrice_organic_premium (fun s => s) (fun s => s)
           "wheat" 50 None None 2000); reflexivity.
Defined.

Lemma calculateDynamicPrice_bulk_discount_witness :
  exists small large : Z,
    DynamicPricingService.calculateDynamicPrice (fun s => s) (fun s => s)
      "wheat" 50 None false None
    = JSObject.Number (Fin (inject_Z small))
    /\ DynamicPricingService.calculateDynamicPrice (fun s => s) (fun s => s)
         "wheat" 600 None false None
       = JSObject.Number (Fin (inject_Z large))
    /\ (large <= small)%Z.
Proof.
  apply (calculateDynamicPrice_bulk_discount (fun s => s) (fun s => s)
           "wheat" 50 600 None false None 2000); [reflexivity | reflexivity | discriminate].
Defined.

Lemma getSuggestedPriceRange_suggestion_outside_witness :
  exists (r : DynamicPricingService.PriceRange) (s hi : Z),
    DynamicPricingService.getSuggestedPriceRange (fun s => s) (fun s => s)
      "wheat" 50 (Some "premium"%string) true
    = Some r
    /\ DynamicPricingService.suggestedPrice r = JSObject.Number (Fin (inject_Z s))
    /\ DynamicPricingService.maxPrice r = Fin (inject_Z hi)
    /\ (hi < s)%Z.
Proof.
  destruct (getSuggestedPriceRange_suggestion_outside (fun s => s) (fun s => s)
              "wheat" 50 2000) as [H _]; [reflexivity | exact H].
Defined.


Lemma getTrendingPrices_bands_witness :
  DynamicPricingService.trend
    (DynamicPricingService.getTrendingPrices (fun s => s) (fun s => s)
       "wheat" (Some [1000; 2000]))
  = DynamicPricingService.rising
  /\ 109 * (DynamicPricingService.sum [1000; 2000] / DynamicPricingService.count [1000; 2000])
     < 2000 * 100.
Proof.
  pose proof (getTrendingPrices_bands (fun s => s) (fun s => s)
                "wheat" [1000; 2000] 2000) as H.
  split; [reflexivity|].
  apply H; [reflexivity | | reflexivity | discriminate].
  repeat constructor; discriminate.
Defined.

(** ** Doubles: signs, zeros and [NaN] *)
Section Doubles.
Import Double.

Lemma shr_1_nonneg (mrs : shr_record) :
  (0 <= shr_m mrs)%Z -> (0 <= shr_m (shr_1 mrs))%Z.
Proof.
  destruct mrs as [m r s]; simpl.
  destruct m as [|[p|p|]|[p|p|]]; simpl; lia.
Qed.

Lemma iter_pos_shr_1_nonneg (p : positive) :
  forall mrs : shr_record,
    (0 <= shr_m mrs)%Z -> (0 <= shr_m (iter_pos shr_1 p mrs))%Z.
Proof.
  induction p as [p IH|p IH|]; intros mrs H; simpl.
  - apply IH, IH, shr_1_nonneg, H.
  - apply IH, IH, H.
  - apply shr_1_nonneg, H.
Qed.

Lemma shr_record_of_loc_m (m : Z) (l : location) :
  shr_m (shr_record_of_loc m l) = m.
Proof. destruct l as [|[| |]]; reflexivity. Qed.

Lemma shr_fexp_nonneg (m e : Z) (l : location) :
  (0 <= m)%Z -> (0 <= shr_m (fst (shr_fexp prec emax m e l)))%Z.
Proof.
  intro H. unfold shr_fexp, shr.
  destruct (fexp prec emax (Zdigits2 m + e) - e)%Z as [|p|p]; simpl;
    try (rewrite shr_record_of_loc_m; exact H).
  apply iter_pos_shr_1_nonneg. rewrite shr_record_of_loc_m; exact H.
Qed.

Lemma round_nearest_even_nonneg (m : Z) (l : location) :
  (0 <= m)%Z -> (0 <= round_nearest_even m l)%Z.
Proof.
  intro H. destruct l as [|[| |]]; simpl; try destruct (Z.even m); lia.
Qed.

(** Rounding a non-negative mantissa never gives [NaN], and the result
    carries the sign it was given. *)
Lemma binary_round_aux_not_nan (s : bool) (m e : Z) (l : location) :
  (0 <= m)%Z -> is_nan (binary_round_aux prec emax s m e l) = false.
Proof.
  intro H. unfold binary_round_aux.
  pose proof (shr_fexp_nonneg m e l H) as H1.
  destruct (shr_fexp prec emax m e l) as [mrs' e']. simpl in H1.
  pose proof (shr_fexp_nonneg _ e' loc_Exact
                (round_nearest_even_nonneg _ (loc_of_shr_record mrs') H1)) as H2.
  destruct (shr_fexp prec emax
              (round_nearest_even (shr_m mrs') (loc_of_shr_record mrs')) e' loc_Exact)
    as [mrs'' e'']. simpl in H2.
  destruct (shr_m mrs'') as [|p|p]; [reflexivity | | lia].
  destruct (e'' <=? emax - prec)%Z; reflexivity.
Qed.

Lemma binary_round_aux_plus (m e : Z) (l : location) :
  sign_bit (binary_round_aux prec emax false m e l) = false.
Proof.
  unfold binary_round_aux.
  destruct (shr_fexp prec emax m e l) as [mrs' e'].
  destruct (shr_fexp prec emax
              (round_nearest_even (shr_m mrs') (loc_of_shr_record mrs')) e' loc_Exact)
    as [mrs'' e''].
  destruct (shr_m mrs'') as [|p|p]; [reflexivity | | reflexivity].
  destruct (e'' <=? emax - prec)%Z; reflexivity.
Qed.

Lemma binary_round_not_nan (s : bool) (m : positive) (e : Z) :
  is_nan (binary_round prec emax s m e) = false.
Proof.
  unfold binary_round.
  destruct (shl_align m e (fexp prec emax (Zpos (digits2_pos m) + e))) as [mz ez].
  apply binary_round_aux_not_nan. lia.
Qed.

Lemma binary_round_plus (m : positive) (e : Z) :
  sign_bit (binary_round prec emax false m e) = false.
Proof.
  unfold binary_round.
  destruct (shl_align m e (fexp prec emax (Zpos (digits2_pos m) + e))) as [mz ez].
  apply binary_round_aux_plus.
Qed.

Lemma binary_normalize_not_nan (m e : Z) (s : bool) :
  is_nan (binary_normalize prec emax m e s) = false.
Proof.
  destruct m as [|p|p]; simpl; [reflexivity | |]; apply binary_round_not_nan.
Qed.

Lemma of_Z_not_nan (z : Z) : is_nan (of_Z z) = false.
Proof. apply binary_normalize_not_nan. Qed.

(** Sums and products of numbers without a sign bit have none: the
    running totals of the service are never [-0]. *)
Lemma mul_plus (x y : double) :
  sign_bit x = false -> sign_bit y = false -> sign_bit (mul x y) = false.
Proof.
  destruct x as [sx|sx| |sx mx ex]; destruct y as [sy|sy| |sy my ey];
    simpl; intros Hx Hy; subst; try reflexivity.
  apply binary_round_aux_plus.
Qed.

Lemma add_plus (x y : double) :
  sign_bit x = false -> sign_bit y = false -> sign_bit (add x y) = false.
Proof.
  destruct x as [sx|sx| |sx mx ex]; destruct y as [sy|sy| |sy my ey];
    simpl; intros Hx Hy; subst; try reflexivity.
  unfold add, SFadd. cbn [cond_Zopp Z.add]. unfold binary_normalize.
  apply binary_round_plus.
Qed.

(** Adding the literal [0] changes nothing, except that it turns [-0]
    into [0]. *)
Lemma add_zero_r (x : double) : sign_bit x = false -> add x zero = x.
Proof. destruct x as [s|s| |s m e]; simpl; intros Hx; subst; reflexivity. Qed.

Lemma add_zero_l (x : double) : sign_bit x = false -> add zero x = x.
Proof. destruct x as [s|s| |s m e]; simpl; intros Hx; subst; reflexivity. Qed.

Lemma mul_zero_l (m : positive) (e : Z) :
  mul zero (S754_finite false m e) = zero.
Proof. reflexivity. Qed.

(** Never [NaN]: sums and differences of finite numbers, products and
    quotients by a finite number that is not zero, [Math.round]. *)
Lemma sub_not_nan (x y : double) :
  is_finite x = true -> is_finite y = true -> is_nan (sub x y) = false.
Proof.
  destruct x as [sx|sx| |sx mx ex]; destruct y as [sy|sy| |sy my ey];
    simpl; intros Hx Hy; try discriminate; try reflexivity.
  - destruct sx, sy; reflexivity.
  - apply binary_normalize_not_nan.
Qed.

Lemma mul_not_nan (x : double) (s : bool) (m : positive) (e : Z) :
  is_nan x = false -> is_nan (mul x (S754_finite s m e)) = false.
Proof.
  destruct x as [sx|sx| |sx mx ex]; simpl; intros Hx;
    try discriminate; try reflexivity.
  apply binary_round_aux_not_nan. lia.
Qed.

Lemma SFdiv_core_binary_nonneg (m1 m2 : positive) (e1 e2 : Z) :
  (0 <= fst (fst (SFdiv_core_binary prec emax (Zpos m1) e1 (Zpos m2) e2)))%Z.
Proof.
  unfold SFdiv_core_binary.
  set (s := (e1 - e2 - _)%Z).
  set (m' := match s with Zpos _ => _ | Z0 => _ | Zneg _ => _ end).
  assert (Hm : (0 <= m')%Z).
  { subst m'. destruct s; try lia. apply Z.shiftl_nonneg. lia. }
  pose proof (Z.div_pos m' (Zpos m2) Hm ltac:(lia)) as Hq.
  unfold Z.div in Hq.
  destruct (Z.div_eucl m' (Zpos m2)) as [q r]. exact Hq.
Qed.

Lemma div_not_nan (x : double) (s : bool) (m : positive) (e : Z) :
  is_nan x = false -> is_nan (div x (S754_finite s m e)) = false.
Proof.
  destruct x as [sx|sx| |sx mx ex]; simpl; intros Hx;
    try discriminate; try reflexivity.
  unfold div, SFdiv.
  pose proof (SFdiv_core_binary_nonneg mx m ex e) as H.
  destruct (SFdiv_core_binary prec emax (Zpos mx) ex (Zpos m) e) as [[mz ez] lz].
  apply binary_round_aux_not_nan. exact H.
Qed.

Lemma Math_round_not_nan (x : double) :
  is_nan x = false -> is_nan (Math_round x) = false.
Proof.
  destruct x as [s|s| |s m e]; simpl; intros Hx; try discriminate; try reflexivity.
  destruct e as [|p|p]; try reflexivity.
  cbv zeta.
  match goal with |- context [if ?c then _ else _] => destruct c end;
    [reflexivity | apply of_Z_not_nan].
Qed.

Lemma round_cents_not_nan (x : double) :
  is_nan x = false -> is_nan (round_cents x) = false.
Proof.
  intro Hx. unfold round_cents.
  change (of_Z 100) with (S754_finite false 7036874417766400 (-46)).
  apply div_not_nan, Math_round_not_nan, mul_not_nan, Hx.
Qed.

(** A validated quantity, read with [|| 0], has no sign bit. *)
Lemma or_else_zero_plus (v : option double) :
  DoubleService.nonneg v = true -> sign_bit (or_else v zero) = false.
Proof.
  destruct v as [[s|s| |[|] m e]|];
    unfold DoubleService.nonneg, DoubleService.quantity_ok, or_else, le, SFleb;
    cbn [is_finite truthy ToNumber sign_bit SFcompare zero];
    rewrite ?andb_false_r; intro H; try discriminate; reflexivity.
Qed.

(** A truthy validated quantity is the quantity itself. *)
Lemma or_else_truthy (v : option double) (d : double) :
  truthy v = true -> or_else v d = ToNumber v.
Proof. unfold or_else. now intros ->. Qed.

Lemma or_else_falsy (v : option double) (d : double) :
  truthy v = false -> or_else v d = d.
Proof. unfold or_else. now intros ->. Qed.

(** A validated area is a finite number above zero. *)
Lemma area_positive (x : double) :
  (well_formed x && is_finite x && lt zero x)%bool = true ->
  exists m e, x = S754_finite false m e.
Proof.
  destruct x as [s|s| |[|] m e];
    unfold lt, SFltb; cbn [is_finite SFcompare zero];
    rewrite ?andb_false_r; intro H; try discriminate.
  now exists m, e.
Qed.

End Doubles.

(** ** The footprints in double precision *)
Section DoubleFootprints.
Import Double DoubleService.

(** A finite literal above zero. *)
Lemma factor_synthetic_fertilizer :
  exists m e, factor_num "synthetic_fertilizer" = S754_finite false m e.
Proof. vm_compute. eauto. Qed.

Lemma factor_chemical_pesticide :
  exists m e, factor_num "chemical_pesticide" = S754_finite false m e.
Proof. vm_compute. eauto. Qed.

Lemma factor_diesel : exists m e, factor_num "diesel" = S754_finite false m e.
Proof. vm_compute. eauto. Qed.

Lemma factor_organic_fertilizer :
  exists m e, factor_num "organic_fertilizer" = S754_finite false m e.
Proof. vm_compute. eauto. Qed.

Lemma factor_organic_pesticide :
  exists m e, factor_num "organic_pesticide" = S754_finite false m e.
Proof. vm_compute. eauto. Qed.

(** A block [if (usage) { q = usage.field || 0; total += q * factor }]
    adds the product of the quantity read with a default of [0]; the
    first block starts from the literal [0]. *)
Lemma next_block {A : Type} (u : option A) (get : A -> option double)
      (total factor : double) :
  (exists m e, factor = S754_finite false m e) ->
  sign_bit total = false ->
  match u with
  | Some x => add total (mul (or_else (get x) zero) factor)
  | None => total
  end
  = add total (mul (match u with Some x => or_else (get x) zero | None => zero end) factor).
Proof.
  intros (m & e & ->) Ht. destruct u as [x|]; [reflexivity|].
  rewrite mul_zero_l. symmetry. apply add_zero_r, Ht.
Qed.

Lemma first_block {A : Type} (u : option A) (get : A -> option double)
      (factor : double) :
  (exists m e, factor = S754_finite false m e) ->
  (forall x, u = Some x -> nonneg (get x) = true) ->
  match u with
  | Some x => add zero (mul (or_else (get x) zero) factor)
  | None => zero
  end
  = mul (match u with Some x => or_else (get x) zero | None => zero end) factor.
Proof.
  intros (m & e & ->) Hu. destruct u as [x|]; [|reflexivity].
  apply add_zero_l, mul_plus; [|reflexivity].
  apply or_else_zero_plus, Hu. reflexivity.
Qed.

Lemma usage_plus {A : Type} (u : option A) (get : A -> option double) :
  (forall x, u = Some x -> nonneg (get x) = true) ->
  sign_bit (match u with Some x => or_else (get x) zero | None => zero end) = false.
Proof.
  intro Hu. destruct u as [x|]; [|reflexivity].
  apply or_else_zero_plus, Hu. reflexivity.
Qed.

(** What validation gives. *)
Lemma validated_parts (d : FarmData) :
  validated d = true ->
  (exists m e, area d = S754_finite false m e)
  /\ (forall u, fertilizerUsage d = Some u ->
                nonneg (fu_synthetic u) = true /\ nonneg (fu_organic u) = true)
  /\ (forall u, pesticideUsage d = Some u ->
                nonneg (pu_chemical u) = true /\ nonneg (pu_organic u) = true)
  /\ (forall u, fuelUsage d = Some u -> nonneg (diesel u) = true)
  /\ Validation.one_of Validation.irrigationTypes (irrigationType d) = true
  /\ nonneg (irrigationHours d) = true.
Proof.
  unfold validated. rewrite !andb_true_iff.
  intros [[[[[[[[[Hw Hf] Hl] Hfu] Hpu] Hfl] Hty] Hh] _] _].
  split; [apply area_positive; now rewrite Hw, Hf, Hl|].
  split; [intros u Hu; rewrite Hu in Hfu; now apply andb_true_iff in Hfu|].
  split; [intros u Hu; rewrite Hu in Hpu; now apply andb_true_iff in Hpu|].
  split; [|now split].
  intros u Hu. rewrite Hu in Hfl. simpl in Hfl.
  rewrite !andb_true_iff in Hfl. tauto.
Qed.

Lemma baselineSum_plus (d : FarmData) :
  validated d = true -> sign_bit (baselineSum d) = false.
Proof.
  intro H. destruct (validated_parts d H) as (_ & Hf & Hp & Hu & _).
  unfold baselineSum.
  repeat first [apply add_plus | apply mul_plus]; try reflexivity;
    apply usage_plus; intros u E.
  - apply (Hf u E).
  - apply (Hp u E).
  - apply (Hu u E).
Qed.

Lemma ecofriendlySum_plus (d : FarmData) :
  validated d = true -> sign_bit (ecofriendlySum d) = false.
Proof.
  intro H. destruct (validated_parts d H) as (_ & Hf & Hp & _).
  unfold ecofriendlySum.
  repeat first [apply add_plus | apply mul_plus]; try reflexivity;
    apply usage_plus; intros u E.
  - apply (Hf u E).
  - apply (Hp u E).
Qed.

(** Without truthy hours the irrigation term is [0]. *)
Lemma irrigationTerm_idle (d : FarmData) (m : positive) (e : Z) :
  validated d = true ->
  truthy (irrigationHours d) = false ->
  irrigationTerm d (S754_finite false m e) = zero.
Proof.
  intros H Hh. destruct (validated_parts d H) as ((ma & ea & Ha) & _).
  unfold irrigationTerm, hours. rewrite (or_else_falsy _ _ Hh), Ha.
  reflexivity.
Qed.

Lemma irrigationTerm_busy (d : FarmData) (factor : double) :
  truthy (irrigationHours d) = true ->
  irrigationTerm d factor
  = mul (mul (ToNumber (irrigationHours d)) (area d)) factor.
Proof.
  intro Hh. unfold irrigationTerm, hours. now rewrite (or_else_truthy _ _ Hh).
Qed.

(** The running total of the baseline before its irrigation block. *)
Lemma baseline_blocks (d : FarmData) :
  validated d = true ->
  match fuelUsage d with
  | Some u =>
      add match pesticideUsage d with
          | Some u =>
              add match fertilizerUsage d with
                  | Some u =>
                      add zero (mul (or_else (fu_synthetic u) zero)
                                    (factor_num "synthetic_fertilizer"))
                  | None => zero
                  end
                  (mul (or_else (pu_chemical u) zero) (factor_num "chemical_pesticide"))
          | None =>
              match fertilizerUsage d with
              | Some u =>
                  add zero (mul (or_else (fu_synthetic u) zero)
                                (factor_num "synthetic_fertilizer"))
              | None => zero
              end
          end
          (mul (or_else (diesel u) zero) (factor_num "diesel"))
  | None =>
      match pesticideUsage d with
      | Some u =>
          add match fertilizerUsage d with
              | Some u =>
                  add zero (mul (or_else (fu_synthetic u) zero)
                                (factor_num "synthetic_fertilizer"))
              | None => zero
              end
              (mul (or_else (pu_chemical u) zero) (factor_num "chemical_pesticide"))
      | None =>
          match fertilizerUsage d with
          | Some u =>
              add zero (mul (or_else (fu_synthetic u) zero)
                            (factor_num "synthetic_fertilizer"))
          | None => zero
          end
      end
  end = baselineSum d.
Proof.
  intro H. destruct (validated_parts d H) as (_ & Hf & Hp & Hu & _).
  pose proof (baselineSum_plus d H) as Hs. revert Hs.
  unfold baselineSum, synthetic_fertilizer_kg, chemical_pesticide_L, diesel_L.
  change (lit 45 10) with (factor_num "synthetic_fertilizer").
  change (lit 25 10) with (factor_num "chemical_pesticide").
  change (lit 268 100) with (factor_num "diesel").
  rewrite (first_block (fertilizerUsage d) fu_synthetic _ factor_synthetic_fertilizer)
    by (intros u E; apply (Hf u E)).
  intro Hs.
  assert (H1 : sign_bit (mul match fertilizerUsage d with
                             | Some x => or_else (fu_synthetic x) zero
                             | None => zero
                             end (factor_num "synthetic_fertilizer")) = false).
  { apply mul_plus; [|reflexivity]. apply usage_plus. intros u E; apply (Hf u E). }
  rewrite (next_block (pesticideUsage d) pu_chemical _ _ factor_chemical_pesticide H1).
  assert (H2 : sign_bit (add (mul match fertilizerUsage d with
                                  | Some x => or_else (fu_synthetic x) zero
                                  | None => zero
                                  end (factor_num "synthetic_fertilizer"))
                             (mul match pesticideUsage d with
                                  | Some x => or_else (pu_chemical x) zero
                                  | None => zero
                                  end (factor_num "chemical_pesticide"))) = false).
  { apply add_plus; [exact H1|]. apply mul_plus; [|reflexivity].
    apply usage_plus. intros u E; apply (Hp u E). }
  rewrite (next_block (fuelUsage d) diesel _ _ factor_diesel H2).
  reflexivity.
Qed.


(** The baseline of a validated request with an irrigation type: the
    fallback [0.5] is the factor, whatever the type. *)
Lemma baseline_typed_in_doubles (d : FarmData) (t : string) :
  validated d = true ->
  irrigationType d = Some t ->
  calculateBaselineFootprint d
  = round_cents (add (baselineSum d) (irrigationTerm d (lit 5 10))).
Proof.
  intros H Ht. pose proof (baseline_blocks d H) as Hb.
  destruct (validated_parts d H) as (_ & _ & _ & _ & Hty & _).
  unfold calculateBaselineFootprint. cbv zeta. rewrite Hb.
  rewrite Ht in Hty |- *.
  destruct (irrigationTypes_cases t Hty) as [-> | [-> | [-> | ->]]];
    (destruct (truthy (irrigationHours d)) eqn:Hh;
     [ rewrite (irrigationTerm_busy d _ Hh); reflexivity
     | change (lit 5 10) with (S754_finite false 4503599627370496 (-53));
       rewrite (irrigationTerm_idle d _ _ H Hh),
         (add_zero_r _ (baselineSum_plus d H)); reflexivity ]).
Qed.

(** The baseline of a validated request without an irrigation type. *)
Lemma baseline_untyped_in_doubles (d : FarmData) :
  validated d = true ->
  irrigationType d = None ->
  calculateBaselineFootprint d = round_cents (baselineSum d).
Proof.
  intros H Ht. pose proof (baseline_blocks d H) as Hb.
  unfold calculateBaselineFootprint. cbv zeta. rewrite Hb, Ht.
  simpl JS.truthy_str. rewrite andb_false_r. reflexivity.
Qed.


(** The running total of the eco-friendly footprint before its
    irrigation block. *)
Lemma ecofriendly_blocks (d : FarmData) :
  validated d = true ->
  match pesticideUsage d with
  | Some u =>
      add match fertilizerUsage d with
          | Some u =>
              add zero (mul (or_else (fu_organic u) zero)
                            (factor_num "organic_fertilizer"))
          | None => zero
          end
          (mul (or_else (pu_organic u) zero) (factor_num "organic_pesticide"))
  | None =>
      match fertilizerUsage d with
      | Some u =>
          add zero (mul (or_else (fu_organic u) zero)
                        (factor_num "organic_fertilizer"))
      | None => zero
      end
  end = ecofriendlySum d.
Proof.
  intro H. destruct (validated_parts d H) as (_ & Hf & Hp & _).
  unfold ecofriendlySum, organic_fertilizer_kg, organic_pesticide_L.
  change (lit 8 10) with (factor_num "organic_fertilizer").
  change (lit 4 10) with (factor_num "organic_pesticide").
  rewrite (first_block (fertilizerUsage d) fu_organic _ factor_organic_fertilizer)
    by (intros u E; apply (Hf u E)).
  assert (H1 : sign_bit (mul match fertilizerUsage d with
                             | Some x => or_else (fu_organic x) zero
                             | None => zero
                             end (factor_num "organic_fertilizer")) = false).
  { apply mul_plus; [|reflexivity]. apply usage_plus. intros u E; apply (Hf u E). }
  rewrite (next_block (pesticideUsage d) pu_organic _ _ factor_organic_pesticide H1).
  reflexivity.
Qed.

Lemma ecofriendly_total_plus (d : FarmData) :
  validated d = true ->
  sign_bit (if JS.str_eq (irrigationType d) "drip"
            then add (ecofriendlySum d) (irrigationTerm d (lit 15 100))
            else ecofriendlySum d) = false.
Proof.
  intro H. destruct (validated_parts d H) as ((ma & ea & Ha) & _ & _ & _ & _ & Hh).
  pose proof (ecofriendlySum_plus d H) as Hs.
  destruct (JS.str_eq (irrigationType d) "drip"); [|exact Hs].
  apply add_plus; [exact Hs|]. unfold irrigationTerm.
  repeat apply mul_plus; try reflexivity.
  - apply or_else_zero_plus, Hh.
  - now rewrite Ha.
Qed.

Lemma ecofriendly_in_doubles (d : FarmData) :
  validated d = true ->
  calculateEcofriendlyFootprint d
  = round_cents (if JS.str_eq (irrigationType d) "drip"
                 then add (ecofriendlySum d) (irrigationTerm d (lit 15 100))
                 else ecofriendlySum d).
Proof.
  intro H. pose proof (ecofriendly_blocks d H) as Hb.
  pose proof (ecofriendly_total_plus d H) as Hp.
  unfold calculateEcofriendlyFootprint. cbv zeta. rewrite Hb.
  assert (E : (if truthy (irrigationHours d) && JS.str_eq (irrigationType d) "drip"
               then add (ecofriendlySum d)
                        (mul (mul (ToNumber (irrigationHours d)) (area d))
                             (factor_num "drip_irrigation"))
               else ecofriendlySum d)
              = (if JS.str_eq (irrigationType d) "drip"
                 then add (ecofriendlySum d) (irrigationTerm d (lit 15 100))
                 else ecofriendlySum d)).
  { destruct (JS.str_eq (irrigationType d) "drip");
      [|now rewrite andb_false_r].
    rewrite andb_true_r.
    destruct (truthy (irrigationHours d)) eqn:Hh.
    - rewrite (irrigationTerm_busy d _ Hh). reflexivity.
    - change (lit 15 100) with (S754_finite false 5404319552844595 (-55)).
      rewrite (irrigationTerm_idle d _ _ H Hh),
        (add_zero_r _ (ecofriendlySum_plus d H)). reflexivity. }
  rewrite E.
  destruct (JS.str_eq (transportMethod d) "manual"); [|reflexivity].
  now rewrite (add_zero_r _ Hp).
Qed.

Lemma validated_with_transportMethod (t : option string) (d : FarmData) :
  Validation.one_of Validation.transportMethods t = true ->
  validated d = true ->
  validated (with_transportMethod t d) = true.
Proof.
  unfold validated. cbn [with_transportMethod area fertilizerUsage pesticideUsage
    fuelUsage irrigationType irrigationHours transportMethod cropDiversity].
  rewrite !andb_true_iff. intros Ht H. tauto.
Qed.

(** C1 (counterexample).  Two hectares and ten hours of irrigation with
    no irrigation type, in double precision: the formula of the claim
    charges the default factor, 10 hours x 2 ha x 0.5 = 10, and the
    service returns 0, because its irrigation block needs a type. *)
Lemma calculateBaselineFootprint_skips_untyped_irrigation :
  validated DoubleSamples.untyped_plot = true
  /\ calculateBaselineFootprint DoubleSamples.untyped_plot = zero
  /\ Spec.baselineFootprint (Exact.request DoubleSamples.untyped_plot) == 10
  /\ ~ represents (calculateBaselineFootprint DoubleSamples.untyped_plot)
         (Spec.baselineFootprint (Exact.request DoubleSamples.untyped_plot)).
Proof.
  split; [reflexivity|]. split; [reflexivity|]. split; [reflexivity|].
  intro H. vm_compute in H. discriminate.
Qed.

(** The rounding of the baseline is that of the computed double: with
    2 kg of fertilizer and 2.875 L of diesel the real sum is 16.705 and
    rounds to 16.71; the sum of the doubles is just below and gives
    16.7. *)
Lemma calculateBaselineFootprint_small_farm :
  validated DoubleSamples.small_farm = true
  /\ calculateBaselineFootprint DoubleSamples.small_farm = lit 167 10
  /\ Spec.baselineFootprint (Exact.request DoubleSamples.small_farm) == 1671 # 100.
Proof.
  split; [reflexivity|]. split; [vm_compute; reflexivity|]. vm_compute. reflexivity.
Qed.

(** C1 (amended).  For a validated request whose irrigation type is not
    drip or sprinkler, the baseline is [Math.round(S * 100) / 100] where
    [S] is the double-precision sum
    [((synthetic * 4.5 + chemical * 2.5) + diesel * 2.68) + (hours * area) * 0.5],
    evaluated from left to right with every product and sum rounded to the
    nearest double; absent and zero quantities count as [0]; without an
    irrigation type there is no irrigation term. *)
Theorem calculateBaselineFootprint_in_doubles (d : FarmData) :
  validated d = true ->
  JS.str_eq (irrigationType d) "drip" = false ->
  JS.str_eq (irrigationType d) "sprinkler" = false ->
  calculateBaselineFootprint d
  = round_cents (match irrigationType d with
                 | Some _ => add (baselineSum d) (irrigationTerm d (lit 5 10))
                 | None => baselineSum d
                 end).
Proof.
  intros H _ _. destruct (irrigationType d) as [t|] eqn:Ht.
  - apply (baseline_typed_in_doubles d t H Ht).
  - apply (baseline_untyped_in_doubles d H Ht).
Qed.

Lemma calculateBaselineFootprint_in_doubles_witness :
  calculateBaselineFootprint DoubleSamples.farm
  = round_cents (add (baselineSum DoubleSamples.farm)
                     (irrigationTerm DoubleSamples.farm (lit 5 10))).
Proof.
  apply (calculateBaselineFootprint_in_doubles DoubleSamples.farm); reflexivity.
Defined.

(** C9.  Two validated requests that differ only in their irrigation
    type, each type one of flood, drip, sprinkler, rainfed, have the same
    baseline: no type is a key of the emission-factor table (the keys
    carry the suffix [_irrigation]), so the irrigation term of both is
    [(hours * area) * 0.5], the fallback. *)
Theorem calculateBaselineFootprint_same_for_every_irrigationType
        (a b : FarmData) (ta tb : string) :
  validated a = true ->
  validated b = true ->
  same_but_irrigationType a b ->
  irrigationType a = Some ta ->
  irrigationType b = Some tb ->
  calculateBaselineFootprint a = calculateBaselineFootprint b
  /\ calculateBaselineFootprint a
     = round_cents (add (baselineSum a) (irrigationTerm a (lit 5 10)))
  /\ factor ta = None
  /\ factor tb = None.
Proof.
  intros Ha Hb (E1 & E2 & E3 & E4 & E5 & _) Hta Htb.
  assert (Hs : baselineSum a = baselineSum b).
  { unfold baselineSum, synthetic_fertilizer_kg, chemical_pesticide_L, diesel_L.
    now rewrite E2, E3, E4. }
  assert (Hi : irrigationTerm a (lit 5 10) = irrigationTerm b (lit 5 10)).
  { unfold irrigationTerm, hours. now rewrite E1, E5. }
  split; [|split; [apply (baseline_typed_in_doubles a ta Ha Hta)|]].
  - rewrite (baseline_typed_in_doubles a ta Ha Hta), (baseline_typed_in_doubles b tb Hb Htb).
    now rewrite Hs, Hi.
  - destruct (validated_parts a Ha) as (_ & _ & _ & _ & Hya & _).
    destruct (validated_parts b Hb) as (_ & _ & _ & _ & Hyb & _).
    rewrite Hta in Hya. rewrite Htb in Hyb.
    split.
    + destruct (irrigationTypes_cases ta Hya) as [-> | [-> | [-> | ->]]]; reflexivity.
    + destruct (irrigationTypes_cases tb Hyb) as [-> | [-> | [-> | ->]]]; reflexivity.
Qed.

Lemma calculateBaselineFootprint_same_for_every_irrigationType_witness :
  calculateBaselineFootprint DoubleSamples.farm
  = calculateBaselineFootprint DoubleSamples.drip_farm.
Proof.
  apply (calculateBaselineFootprint_same_for_every_irrigationType
           DoubleSamples.farm DoubleSamples.drip_farm "flood" "drip");
    try reflexivity.
  repeat split.
Defined.

(** C2 (counterexample).  One hectare under drip irrigation for an hour
    and a half: the real sum is 1.5 x 1 x 0.15 = 0.225, which rounds to
    0.23; the double product is just below 0.225 and the service
    returns 0.22. *)
Lemma calculateEcofriendlyFootprint_rounds_the_double :
  validated DoubleSamples.drip_plot = true
  /\ calculateEcofriendlyFootprint DoubleSamples.drip_plot = lit 22 100
  /\ Spec.ecofriendlyFootprint (Exact.request DoubleSamples.drip_plot) == 23 # 100
  /\ ~ represents (calculateEcofriendlyFootprint DoubleSamples.drip_plot)
         (Spec.ecofriendlyFootprint (Exact.request DoubleSamples.drip_plot)).
Proof.
  split; [reflexivity|]. split; [vm_compute; reflexivity|].
  split; [vm_compute; reflexivity|].
  intro H. vm_compute in H. discriminate.
Qed.

(** C2 (amended).  For a validated request the eco-friendly footprint is
    [Math.round(S * 100) / 100] where [S] is the double-precision sum
    [organic_fertilizer * 0.8 + organic_pesticide * 0.4], plus
    [(hours * area) * 0.15] under drip irrigation, every product and sum
    rounded to the nearest double; the transport method changes
    nothing. *)
Theorem calculateEcofriendlyFootprint_in_doubles (d : FarmData) :
  validated d = true ->
  calculateEcofriendlyFootprint d
  = round_cents (if JS.str_eq (irrigationType d) "drip"
                 then add (ecofriendlySum d) (irrigationTerm d (lit 15 100))
                 else ecofriendlySum d)
  /\ forall t : option string,
       Validation.one_of Validation.transportMethods t = true ->
       calculateEcofriendlyFootprint (with_transportMethod t d)
       = calculateEcofriendlyFootprint d.
Proof.
  intro H. split; [apply (ecofriendly_in_doubles d H)|].
  intros t Ht.
  rewrite (ecofriendly_in_doubles _ (validated_with_transportMethod t d Ht H)).
  rewrite (ecofriendly_in_doubles d H). reflexivity.
Qed.

Lemma calculateEcofriendlyFootprint_in_doubles_witness :
  calculateEcofriendlyFootprint DoubleSamples.drip_farm
  = round_cents (add (ecofriendlySum DoubleSamples.drip_farm)
                     (irrigationTerm DoubleSamples.drip_farm (lit 15 100)))
  /\ calculateEcofriendlyFootprint
       (with_transportMethod (Some "manual"%string) DoubleSamples.drip_farm)
     = calculateEcofriendlyFootprint DoubleSamples.drip_farm.
Proof.
  destruct (calculateEcofriendlyFootprint_in_doubles DoubleSamples.drip_farm)
    as [H1 H2]; [reflexivity|].
  split; [exact H1 | apply H2; reflexivity].
Defined.

End DoubleFootprints.

(** ** The reduction and the carbon credit in double precision *)
Section DoubleReduction.
Import Double DoubleService.

(** A validated quantity is a zero or a finite number above zero. *)
Lemma quantity_ok_cases (x : double) :
  quantity_ok x = true ->
  (exists s, x = S754_zero s) \/ (exists m e, x = S754_finite false m e).
Proof.
  destruct x as [s|s| |[|] m e];
    unfold quantity_ok, le, SFleb; cbn [is_finite SFcompare zero];
    rewrite ?andb_false_r; intro H; try discriminate.
  - left. now exists s.
  - right. now exists m, e.
Qed.

Lemma calculateCarbonReduction_not_nan (baseline eco : double) :
  quantity_ok baseline = true ->
  quantity_ok eco = true ->
  is_nan (calculateCarbonReduction baseline eco) = false.
Proof.
  intros Hb He. unfold calculateCarbonReduction.
  destruct (quantity_ok_cases baseline Hb) as [[s ->] | (m & e & ->)];
    [reflexivity|].
  change (strict_eq (S754_finite false m e) zero) with false. cbv iota.
  change (of_Z 100) with (S754_finite false 7036874417766400 (-46)).
  apply Math_round_not_nan, mul_not_nan, div_not_nan, sub_not_nan; [reflexivity|].
  destruct (quantity_ok_cases eco He) as [[s ->] | (m' & e' & ->)]; reflexivity.
Qed.

(** C3 (counterexample).  A baseline of 40 and an eco-friendly footprint
    of 17: the real percentage is 57.5, which rounds to 58; in doubles
    23 / 40 is just below 0.575, the product with 100 is just below 57.5,
    and the service returns 57. *)
Lemma calculateCarbonReduction_rounds_the_double :
  calculateCarbonReduction (of_Z 40) (of_Z 17) = of_Z 57
  /\ round_half_up ((40 - 17) / 40 * 100) = 58%Z
  /\ ~ represents (calculateCarbonReduction (of_Z 40) (of_Z 17))
         (inject_Z (round_half_up ((40 - 17) / 40 * 100))).
Proof.
  split; [vm_compute; reflexivity|]. split; [vm_compute; reflexivity|].
  intro H. vm_compute in H. discriminate.
Qed.

(** C3 (amended).  For a baseline and an eco-friendly footprint that are
    finite and not negative, the reduction is [0] when the baseline is
    zero, and otherwise [Math.round] of the double
    [((baseline - eco) / baseline) * 100], each operation rounded to the
    nearest double; the result is never [NaN]. *)
Theorem calculateCarbonReduction_in_doubles (baseline eco : double) :
  quantity_ok baseline = true ->
  quantity_ok eco = true ->
  ((exists s, baseline = S754_zero s) -> calculateCarbonReduction baseline eco = zero)
  /\ ((forall s, baseline <> S754_zero s) ->
      calculateCarbonReduction baseline eco
      = Math_round (mul (div (sub baseline eco) baseline) (of_Z 100)))
  /\ is_nan (calculateCarbonReduction baseline eco) = false.
Proof.
  intros Hb He. split; [|split].
  - intros [s ->]. reflexivity.
  - intro Hz. destruct (quantity_ok_cases baseline Hb) as [[s ->] | (m & e & ->)].
    + now destruct (Hz s).
    + reflexivity.
  - apply (calculateCarbonReduction_not_nan baseline eco Hb He).
Qed.

Lemma calculateCarbonReduction_in_doubles_witness :
  calculateCarbonReduction zero (of_Z 17) = zero
  /\ calculateCarbonReduction (of_Z 100) zero = of_Z 100
  /\ calculateCarbonReduction (of_Z 80) (of_Z 100) = of_Z (-25).
Proof.
  split; [|split].
  - destruct (calculateCarbonReduction_in_doubles zero (of_Z 17)) as (H & _ & _);
      [reflexivity | reflexivity |].
    apply H. now exists false.
  - destruct (calculateCarbonReduction_in_doubles (of_Z 100) zero) as (_ & H & _);
      [reflexivity | reflexivity |].
    rewrite H; [reflexivity | intros s; discriminate].
  - destruct (calculateCarbonReduction_in_doubles (of_Z 80) (of_Z 100)) as (_ & H & _);
      [reflexivity | reflexivity |].
    rewrite H; [reflexivity | intros s; discriminate].
Defined.

(** C8 (counterexample).  A reduction of 145 kg: 0.145 t rounds to 0.15;
    the double 145 / 1000 times 100 is just below 14.5 and the service
    returns 0.14. *)
Lemma calculateCarbonCreditPotential_rounds_the_double :
  reductionTons (calculateCarbonCreditPotential (of_Z 145)) = lit 14 100
  /\ Spec.round2 (145 / 1000) == 15 # 100
  /\ ~ represents (reductionTons (calculateCarbonCreditPotential (of_Z 145)))
         (Spec.round2 (145 / 1000)).
Proof.
  split; [vm_compute; reflexivity|]. split; [vm_compute; reflexivity|].
  intro H. vm_compute in H. discriminate.
Qed.

(** C8 (amended).  For a reduction that is finite and not negative,
    [reductionTons] is [Math.round(t * 100) / 100] of the double
    [t = kg / 1000] and [potentialValue] is [Math.round((t * 400) * 100) / 100],
    computed from the unrounded [t], each operation rounded to the nearest
    double; neither is [NaN]; the input 1000 yields 1 and 400. *)
Theorem calculateCarbonCreditPotential_in_doubles (kg : double) :
  quantity_ok kg = true ->
  reductionTons (calculateCarbonCreditPotential kg)
  = round_cents (div kg (of_Z 1000))
  /\ potentialValue (calculateCarbonCreditPotential kg)
     = round_cents (mul (div kg (of_Z 1000)) (of_Z 400))
  /\ is_nan (reductionTons (calculateCarbonCreditPotential kg)) = false
  /\ is_nan (potentialValue (calculateCarbonCreditPotential kg)) = false
  /\ reductionTons (calculateCarbonCreditPotential (of_Z 1000)) = of_Z 1
  /\ potentialValue (calculateCarbonCreditPotential (of_Z 1000)) = of_Z 400.
Proof.
  intro Hk. split; [reflexivity|]. split; [reflexivity|].
  assert (Ht : is_nan (div kg (of_Z 1000)) = false).
  { change (of_Z 1000) with (S754_finite false 8796093022208000 (-43)).
    apply div_not_nan.
    destruct (quantity_ok_cases kg Hk) as [[s ->] | (m & e & ->)]; reflexivity. }
  split; [|split; [|split]].
  - apply round_cents_not_nan, Ht.
  - apply round_cents_not_nan.
    change (of_Z 400) with (S754_finite false 7036874417766400 (-44)).
    apply mul_not_nan, Ht.
  - vm_compute. reflexivity.
  - vm_compute. reflexivity.
Qed.

Lemma calculateCarbonCreditPotential_in_doubles_witness :
  reductionTons (calculateCarbonCreditPotential (of_Z 2500)) = lit 25 10
  /\ potentialValue (calculateCarbonCreditPotential (of_Z 2500)) = of_Z 1000.
Proof.
  destruct (calculateCarbonCreditPotential_in_doubles (of_Z 2500)) as (H1 & H2 & _);
    [reflexivity|].
  rewrite H1, H2. split; vm_compute; reflexivity.
Defined.

End DoubleReduction.
